(** * RoboMo 2.0 — standards baseline engine

    A shallow embedding of [standards_baseline/{config,device_state,schemas,
    engine,switch,api}.py] and the properties of its estimators, its smoke
    state machine and its orchestrator.

    Modelling conventions.
    - A Python [float] is a real number ([R]): arithmetic is exact, every
      value is finite, and [math.log], [math.exp] and [x ** y] are [ln],
      [exp] and [Rpower].  Rounding, overflow, NaN and infinities are
      outside this model; a statement that holds in exact arithmetic only
      says so, and the module [Binary64] evaluates the smoothing functions
      on binary64 floats where rounding shows.
    - A [datetime] is an absolute instant, counted in microseconds ([Z]),
      and the datetimes of a batch are mutually comparable (all naive or
      all offset-aware).  A batch that mixes the two kinds makes [sorted]
      raise [TypeError] in the source; the model has no such batch, so
      what it proves about a result is stated for the case that a result
      is returned.
    - A payload becomes a [BaselineReading] or a [BaselineRequest] through
      pydantic's validation, whose reading of a [datetime] field is the
      parameter [Pydantic].
    - [Optional[T]] is [option T]; a dict used as a registry is a [gmap].
    - The module-level registries of [switch.py] are the fields of [Store];
      functions that read or mutate them live in the monad [M], in which an
      exception leaves the mutations made before it in place.
    - The tunables of [config.py] are read from the environment at import
      time; they are the fields of [Config], and [default_config] is the
      environment with no override.
    - The [datetime] parsers of the Python standard library are the fields
      of [DatetimeLib]; [os.getenv] and [float] on a text, which the table
      reader of [config.py] calls, are the fields of [Environ]. *)

From Stdlib Require Import Reals Lra Lia ZArith Ascii String.
From Stdlib Require Floats.
From stdpp Require Import base decidable option list sorting gmap strings.

(** ** Python prelude *)

#[global] Instance Rle_decision : RelDecision Rle := Rle_dec.
#[global] Instance Rlt_decision : RelDecision Rlt := Rlt_dec.
#[global] Instance Rge_decision : RelDecision Rge := Rge_dec.
#[global] Instance Rgt_decision : RelDecision Rgt := Rgt_dec.
#[global] Instance Req_decision : EqDecision R := Req_dec_T.

Inductive exn : Type :=
  | ValueError (msg : string)
  | ValidationError
  | AttributeError
  | IndexError
  | OtherError (name : string).

Inductive result (A : Type) : Type :=
  | Ok (a : A)
  | Raise (e : exn).
Arguments Ok {A} a.
Arguments Raise {A} e.

Definition datetime : Type := Z.

(** [timedelta.total_seconds()] of the difference [t2 - t1]. *)
Definition total_seconds (t2 t1 : datetime) : R := (IZR (t2 - t1) / 1e6)%R.

(** [timedelta(minutes=10)], in microseconds. *)
Definition ten_minutes_delta : Z := 600000000.

Section PyPrelude.
Local Open Scope R_scope.

(** [max(a, b)] keeps its first argument unless the second is greater;
    [min(a, b)] keeps it unless the second is smaller. *)
Definition py_max (a b : R) : R := if decide (a < b) then b else a.
Definition py_min (a b : R) : R := if decide (b < a) then b else a.

(** [max(xs)] and [min(xs)] of a non-empty list ([d] stands for the
    [ValueError] of an empty argument, which no caller can trigger). *)
Definition py_list_max (d : R) (xs : list R) : R :=
  match xs with [] => d | x :: rest => foldl py_max x rest end.
Definition py_list_min (d : R) (xs : list R) : R :=
  match xs with [] => d | x :: rest => foldl py_min x rest end.

Definition py_sum (xs : list R) : R := foldl Rplus 0 xs.

Definition clamp (value low high : R) : R := py_max low (py_min value high).

(** Truthiness of an [Optional[float]]: [None] and [0.0] are falsy. *)
Definition truthy (x : option R) : bool :=
  match x with Some v => bool_decide (v <> 0) | None => false end.

(** [x or d] where [d] is a float. *)
Definition float_or (x : option R) (d : R) : R :=
  match x with Some v => if truthy x then v else d | None => d end.

(** [x or y] where [y] is itself optional. *)
Definition opt_or (x y : option R) : option R := if truthy x then x else y.
End PyPrelude.

(** [s or d] on an [Optional[str]]: [None] and the empty string are falsy. *)
Definition str_or (s : option string) (d : string) : string :=
  match s with
  | Some v => if decide (v = EmptyString) then d else v
  | None => d
  end.

(** [xs[-n:]] for [n > 0]. *)
Definition last_n {A} (n : nat) (xs : list A) : list A := drop (length xs - n) xs.

(** [sorted(xs, key=key)]: a stable sort on an integer key. *)
Fixpoint insert_by {A} (key : A -> Z) (x : A) (xs : list A) : list A :=
  match xs with
  | [] => [x]
  | y :: rest =>
      if decide (key x <= key y)%Z then x :: y :: rest
      else y :: insert_by key x rest
  end.

Definition py_sorted {A} (key : A -> Z) (xs : list A) : list A :=
  foldr (insert_by key) [] xs.

(** [sep.join(parts)]. *)
Fixpoint join (sep : string) (parts : list string) : string :=
  match parts with
  | [] => EmptyString
  | [p] => p
  | p :: rest => p +:+ sep +:+ join sep rest
  end.

(** [needle in haystack] on strings. *)
Fixpoint contains (needle haystack : string) : bool :=
  String.prefix needle haystack ||
  match haystack with
  | EmptyString => false
  | String _ rest => contains needle rest
  end.

(** ** config.py *)

Definition Row : Type := R * R * R * R.

Record IAQWeights : Type := {
  w_co2 : R;
  w_pm25 : R;
  w_voc : R;
  w_comfort : R
}.

Class Config : Type := {
  IAQ_WEIGHTS : IAQWeights;
  VOC_BREAKPOINTS : R * R * R;
  VOC_RISK_CAP : R;
  PM25_BREAKPOINTS : list Row;
  COMFORT_TEMP_RANGE : R * R;
  COMFORT_RH_RANGE : R * R;
  SMOKE_TRIGGER : R;
  SMOKE_MIN_RISE : R;
  SMOKE_CLEAR_DELTA : R;
  SMOKE_CONSECUTIVE : Z;
  DEFAULT_DEVICE_COUT_PPM : R;
  DEFAULT_DEVICE_ACH : R;
  DEFAULT_VOLUME_M3 : R;
  DEFAULT_G_PERSON : R
}.

Section ConfigDefaults.
Local Open Scope R_scope.

Definition DEFAULT_CO2_WEIGHT : R := 0.2.
Definition DEFAULT_PM25_WEIGHT : R := 0.4.
Definition DEFAULT_VOC_WEIGHT : R := 0.2.
Definition DEFAULT_COMFORT_WEIGHT : R := 0.2.

Definition DEFAULT_VOC_BREAKPOINTS : R * R * R := (220.0, 660.0, 2200.0).
Definition DEFAULT_VOC_RISK_CAP : R := 65.0.

Definition DEFAULT_PM25_BREAKPOINTS : list Row :=
  [ (0.0, 12.0, 0.0, 50.0);
    (12.1, 35.4, 51.0, 100.0);
    (35.5, 55.4, 101.0, 150.0);
    (55.5, 150.4, 151.0, 200.0);
    (150.5, 250.4, 201.0, 300.0);
    (250.5, 500.4, 301.0, 500.0) ].

Definition DEFAULT_COMFORT_TEMP_RANGE : R * R := (20.0, 25.0).
Definition DEFAULT_COMFORT_RH_RANGE : R * R := (30.0, 60.0).

Definition DEFAULT_SMOKE_TRIGGER : R := 35.0.
Definition DEFAULT_SMOKE_MIN_RISE : R := 10.0.
Definition DEFAULT_SMOKE_CLEAR_DELTA : R := 5.0.
Definition DEFAULT_SMOKE_CONSECUTIVE : Z := 2.

Definition DEFAULT_COUT_PPM : R := 420.0.
Definition DEFAULT_ACH : R := 1.0.
(** The literals that [config.py] first binds to [DEFAULT_VOLUME_M3] and
    [DEFAULT_G_PERSON], before rebinding the names to the environment's
    values. *)
Definition LITERAL_VOLUME_M3 : R := 250.0.
Definition LITERAL_G_PERSON : R := 4.0e-6.

(** The configuration of a process started with no override. *)
Definition default_config : Config := {|
  IAQ_WEIGHTS := {| w_co2 := DEFAULT_CO2_WEIGHT; w_pm25 := DEFAULT_PM25_WEIGHT;
                    w_voc := DEFAULT_VOC_WEIGHT; w_comfort := DEFAULT_COMFORT_WEIGHT |};
  VOC_BREAKPOINTS := DEFAULT_VOC_BREAKPOINTS;
  VOC_RISK_CAP := DEFAULT_VOC_RISK_CAP;
  PM25_BREAKPOINTS := DEFAULT_PM25_BREAKPOINTS;
  COMFORT_TEMP_RANGE := DEFAULT_COMFORT_TEMP_RANGE;
  COMFORT_RH_RANGE := DEFAULT_COMFORT_RH_RANGE;
  SMOKE_TRIGGER := DEFAULT_SMOKE_TRIGGER;
  SMOKE_MIN_RISE := DEFAULT_SMOKE_MIN_RISE;
  SMOKE_CLEAR_DELTA := DEFAULT_SMOKE_CLEAR_DELTA;
  SMOKE_CONSECUTIVE := DEFAULT_SMOKE_CONSECUTIVE;
  DEFAULT_DEVICE_COUT_PPM := DEFAULT_COUT_PPM;
  DEFAULT_DEVICE_ACH := DEFAULT_ACH;
  DEFAULT_VOLUME_M3 := LITERAL_VOLUME_M3;
  DEFAULT_G_PERSON := LITERAL_G_PERSON
|}.
End ConfigDefaults.

(** ** device_state.py *)

Record SmokeState : Type := {
  active : bool;
  consecutive_below : Z;
  last_reason : string
}.

(** [SmokeState()] *)
Definition SmokeState_new : SmokeState :=
  {| active := false; consecutive_below := 0; last_reason := "normal" |}.

Record DeviceState : Type := {
  ds_device_id : string;
  ds_volume_m3 : R;
  ds_ach : option R;
  ds_cout_ppm : R;
  ds_ach_source : string;
  ds_last_nowcast_pm25 : option R;
  ds_g_person : R;
  ds_last_updated : option datetime;
  ds_smoke : SmokeState
}.

(** [DeviceState(device_id=device_id)] *)
Definition DeviceState_new `{Config} (device_id : string) : DeviceState := {|
  ds_device_id := device_id;
  ds_volume_m3 := DEFAULT_VOLUME_M3;
  ds_ach := None;
  ds_cout_ppm := DEFAULT_DEVICE_COUT_PPM;
  ds_ach_source := "default";
  ds_last_nowcast_pm25 := None;
  ds_g_person := DEFAULT_G_PERSON;
  ds_last_updated := None;
  ds_smoke := SmokeState_new
|}.

(** [DeviceState.update_context]: a keyword that is [None] leaves its field
    as it is. *)
Definition update_context (self : DeviceState)
    (ach : option R) (ach_source : option string) (volume_m3 cout_ppm : option R)
    (nowcast_pm25 : option R) (timestamp : option datetime) (g_person : option R)
  : DeviceState := {|
  ds_device_id := ds_device_id self;
  ds_volume_m3 := default (ds_volume_m3 self) volume_m3;
  ds_ach := match ach with Some a => Some a | None => ds_ach self end;
  ds_cout_ppm := default (ds_cout_ppm self) cout_ppm;
  ds_ach_source := default (ds_ach_source self) ach_source;
  ds_last_nowcast_pm25 :=
    match nowcast_pm25 with Some n => Some n | None => ds_last_nowcast_pm25 self end;
  ds_g_person := default (ds_g_person self) g_person;
  ds_last_updated :=
    match timestamp with Some t => Some t | None => ds_last_updated self end;
  ds_smoke := ds_smoke self
|}.

(** ** engine.py: data *)

Record BaselineOptions : Type := {
  bo_volume_m3 : R;
  bo_ach : option R;
  bo_cout_ppm : R;
  bo_g_person : R
}.

Record Sample : Type := {
  s_timestamp : datetime;
  s_device_id : string;
  s_pm25 : option R;
  s_co2 : option R;
  s_voc : option R;
  s_pm1 : option R;
  s_pm4 : option R;
  s_pm10 : option R;
  s_temp_c : option R;
  s_rh : option R
}.

(** The dictionaries that [build_iaq], [assess_smoke] and
    [compute_occupancy] return, and the result assembled from them. *)
Record IAQ : Type := {
  iaq_score : R;
  aqi_pm25 : option R;
  risk_pm25 : R;
  risk_co2 : R;
  risk_tvoc : R;
  risk_comfort : R;
  risk_weighted : R;
  dominant_risk : R;
  weights : IAQWeights
}.

Record Thresholds : Type := {
  th_trigger : R;
  th_min_rise : R;
  th_clear_threshold : R;
  th_hysteresis_required : Z
}.

Record SmokeInfo : Type := {
  smoke_present : bool;
  reason : string;
  last_nowcast_pm25 : option R;
  raw_probability : R;
  thresholds_used : Thresholds
}.

Record Occupancy : Type := {
  n_estimate : R;
  ach_used : R;
  ach_source : string;
  note : string
}.

Record BaselineResult : Type := {
  res_device_id : string;
  res_iaq : IAQ;
  res_smoke : SmokeInfo;
  res_occupancy : Occupancy
}.

(** The [updates] dictionary of [compute_baseline]; the keys ["ach"] and
    ["ach_source"] are present only after a decay estimate was taken. *)
Record Updates : Type := {
  upd_timestamp : datetime;
  upd_nowcast_pm25 : option R;
  upd_volume_m3 : R;
  upd_cout_ppm : R;
  upd_smoke_state : SmokeState;
  upd_ach : option R;
  upd_ach_source : option string
}.

(** ** engine.py: estimators *)

Section Engine.
Context {cfg : Config}.
Local Open Scope R_scope.

(** [values[start : idx + 1]] *)
Definition segment_of (values : list R) (start idx : nat) : list R :=
  take (idx + 1 - start) (drop start values).

Definition _moving_average (values : list R) (window : Z) : list R :=
  if decide (window <= 1)%Z then values
  else
    imap (fun idx _ =>
            let start := Z.to_nat (Z.max 0 (Z.of_nat idx - window + 1)) in
            let segment := segment_of values start idx in
            py_sum segment / INR (length segment))
         values.

(** The accumulation loop of [compute_nowcast_pm25] over
    [enumerate(reversed(tail))], entered at index [i]. *)
Fixpoint nowcast_loop (weight : R) (i : nat) (rev_tail : list R)
    (numerator denom_sum : R) : R * R :=
  match rev_tail with
  | [] => (numerator, denom_sum)
  | value :: rest =>
      let w := weight ^ i in
      nowcast_loop weight (S i) rest (numerator + w * value) (denom_sum + w)
  end.

Definition compute_nowcast_pm25 (values : list (option R)) : option R :=
  let tail := omap (fun v : option R => v) values in
  match tail with
  | [] => None
  | [v] => Some v
  | _ =>
      let tail := last_n 12 tail in
      let c_max := py_list_max 0 tail in
      let c_min := py_list_min 0 tail in
      let denom := py_max c_max 1e-6 in
      let weight := py_max 0.5 (1.0 - (c_max - c_min) / denom) in
      let '(numerator, denom_sum) := nowcast_loop weight 0 (reverse tail) 0.0 0.0 in
      Some (if decide (denom_sum <> 0) then numerator / denom_sum
            else List.last tail 0)
  end.

(** The loop of [compute_nowcast_series], over the sorted input. *)
Fixpoint nowcast_series_loop (pm25_values : list (datetime * option R))
    (tail : list R) (history : list (datetime * R)) : list (datetime * R) :=
  match pm25_values with
  | [] => history
  | (ts, value) :: rest =>
      let tail := match value with Some v => tail ++ [v] | None => tail end in
      let tail := if decide (12 < length tail)%nat then last_n 12 tail else tail in
      let history :=
        match compute_nowcast_pm25 (Some <$> tail) with
        | Some nowcast => history ++ [(ts, nowcast)]
        | None => history
        end in
      nowcast_series_loop rest tail history
  end.

Definition compute_nowcast_series (pm25_values : list (datetime * option R))
  : list (datetime * R) :=
  nowcast_series_loop (py_sorted fst pm25_values) [] [].

(** The [for] loop of [pm25_aqi]: the first row that contains [c]. *)
Fixpoint aqi_scan (c : R) (rows : list Row) : option R :=
  match rows with
  | [] => None
  | (c_lo, c_hi, i_lo, i_hi) :: rest =>
      if decide (c_lo <= c /\ c <= c_hi) then
        let ratio := (i_hi - i_lo) / (c_hi - c_lo) in
        Some (ratio * (c - c_lo) + i_lo)
      else aqi_scan c rest
  end.

(** [PM25_BREAKPOINTS[-1][3]]; the table is never empty, the loader falls
    back to the default table when no row parses. *)
Definition last_i_hi (rows : list Row) : R :=
  snd (List.last rows (0, 0, 0, 0)).

Definition pm25_aqi (nowcast : option R) : option R :=
  match nowcast with
  | None => None
  | Some c =>
      match aqi_scan c PM25_BREAKPOINTS with
      | Some aqi => Some aqi
      | None => Some (last_i_hi PM25_BREAKPOINTS)
      end
  end.

Definition co2_penalty (co2_ppm : option R) : R :=
  match co2_ppm with
  | None => 0.0
  | Some co2_ppm =>
      let max_penalty := 100.0 in
      let penalty := max_penalty / (1.0 + exp (- 0.018 * (co2_ppm - 800.0))) in
      clamp penalty 0.0 max_penalty
  end.

Definition tvoc_penalty (voc : option R) : R :=
  match voc with
  | None => 0.0
  | Some voc =>
      let '(b1, b2, b3) := VOC_BREAKPOINTS in
      let cap := VOC_RISK_CAP in
      if decide (voc <= b1) then 0.0
      else if decide (voc <= b2) then
        let fraction := (voc - b1) / py_max (b2 - b1) 1e-6 in
        (cap * 0.5) * fraction ^ 2
      else if decide (voc <= b3) then
        let fraction := (voc - b2) / py_max (b3 - b2) 1e-6 in
        (cap * 0.5) + (cap * 0.5) * fraction ^ 2
      else cap
  end.

Definition comfort_penalty (temp_c rh : option R) : R :=
  let penalty := 0.0 in
  let '(temp_low, temp_high) := COMFORT_TEMP_RANGE in
  let '(rh_low, rh_high) := COMFORT_RH_RANGE in
  let penalty :=
    match temp_c with
    | Some temp_c =>
        if decide (temp_c < temp_low) then
          let delta := temp_low - temp_c in penalty + delta ^ 2 * 2.0
        else if decide (temp_high < temp_c) then
          let delta := temp_c - temp_high in penalty + delta ^ 2 * 2.0
        else penalty
    | None => penalty
    end in
  let penalty :=
    match rh with
    | Some rh =>
        if decide (rh < rh_low) then
          let delta := rh_low - rh in penalty + Rpower delta 1.5
        else if decide (rh_high < rh) then
          let delta := rh - rh_high in penalty + Rpower delta 1.5
        else penalty
    | None => penalty
    end in
  clamp penalty 0.0 100.0.

Definition build_iaq (nowcast_pm25 co2_ppm voc temp_c rh : option R) : IAQ :=
  let weights := IAQ_WEIGHTS in
  let aqi_pm25 := pm25_aqi nowcast_pm25 in
  let risk_pm25 :=
    match aqi_pm25 with
    | Some _ => py_min 100.0 (float_or aqi_pm25 0.0 / 5.0)
    | None => 0.0
    end in
  let risk_co2 := co2_penalty co2_ppm in
  let risk_tvoc := tvoc_penalty voc in
  let risk_comfort := comfort_penalty temp_c rh in
  let weighted_sum :=
    risk_pm25 * w_pm25 weights
    + risk_co2 * w_co2 weights
    + risk_tvoc * w_voc weights
    + risk_comfort * w_comfort weights in
  let weighted_risk := clamp weighted_sum 0.0 100.0 in
  let iaq_score := clamp (100.0 - weighted_risk) 0.0 100.0 in
  let dominant_risk := foldl py_max risk_co2 [risk_pm25; risk_tvoc; risk_comfort] in
  {| iaq_score := iaq_score;
     aqi_pm25 := aqi_pm25;
     risk_pm25 := risk_pm25;
     risk_co2 := risk_co2;
     risk_tvoc := risk_tvoc;
     risk_comfort := risk_comfort;
     risk_weighted := weighted_risk;
     dominant_risk := dominant_risk;
     weights := weights |}.

(** *** The smoke detector *)

Definition thresholds : Thresholds := {|
  th_trigger := SMOKE_TRIGGER;
  th_min_rise := SMOKE_MIN_RISE;
  th_clear_threshold := SMOKE_TRIGGER - SMOKE_CLEAR_DELTA;
  th_hysteresis_required := SMOKE_CONSECUTIVE
|}.

(** The reference value of the rise: the most recent point at or before
    ten minutes ahead of the latest one, else the earliest point. *)
Definition previous_of (series : list (datetime * R)) (latest_ts : datetime) : R :=
  let ten_minutes := (latest_ts - ten_minutes_delta)%Z in
  match find (fun p => bool_decide (fst p <= ten_minutes)%Z) (reverse series) with
  | Some (_, val) => val
  | None => snd (hd (0%Z, 0) series)
  end.

Definition assess_smoke (nowcast_series : list (datetime * R))
    (state : option SmokeState) : SmokeInfo * SmokeState :=
  let state := default SmokeState_new state in
  match nowcast_series with
  | [] =>
      ({| smoke_present := false;
          reason := "insufficient";
          last_nowcast_pm25 := None;
          raw_probability := 0.0;
          thresholds_used := thresholds |}, state)
  | _ =>
      let nowcast_series := py_sorted fst nowcast_series in
      let '(latest_ts, latest_val) := List.last nowcast_series (0%Z, 0) in
      let previous := previous_of nowcast_series latest_ts in
      let rise := latest_val - previous in
      let trigger := SMOKE_TRIGGER in
      let clear_threshold := trigger - SMOKE_CLEAR_DELTA in
      let trigger_met :=
        bool_decide (trigger <= latest_val) && bool_decide (SMOKE_MIN_RISE <= rise) in
      let '(active, consecutive_below, reason) :=
        if trigger_met then (true, 0%Z, "rapid_rise")
        else if active state then
          if decide (latest_val <= clear_threshold) then
            let consecutive_below := (consecutive_below state + 1)%Z in
            if decide (SMOKE_CONSECUTIVE <= consecutive_below)%Z
            then (false, 0%Z, "clearing")
            else (true, consecutive_below, "hysteresis_hold")
          else (true, 0%Z, "hysteresis_hold")
        else (false, 0%Z, "below_threshold") in
      let raw_probability :=
        clamp ((latest_val - clear_threshold) / py_max (trigger - clear_threshold) 1e-6)
              0.0 1.0 in
      let updated_state :=
        {| active := active; consecutive_below := consecutive_below;
           last_reason := reason |} in
      ({| smoke_present := active;
          reason := reason;
          last_nowcast_pm25 := Some latest_val;
          raw_probability := raw_probability;
          thresholds_used := thresholds |}, updated_state)
  end.

(** *** Air-exchange rate and occupancy *)

Definition _regression_slope (x y : list R) : option R :=
  let n := length x in
  if decide (n < 2)%nat then None
  else
    let sum_x := py_sum x in
    let sum_y := py_sum y in
    let sum_xy := py_sum (zip_with Rmult x y) in
    let sum_x2 := py_sum (map (fun a => a * a) x) in
    let denom := INR n * sum_x2 - sum_x * sum_x in
    if decide (denom = 0) then None
    else Some ((INR n * sum_xy - sum_x * sum_y) / denom).

Definition estimate_ach (times : list datetime) (co2_ppm : list R) (cout_ppm : R)
  : option R :=
  if decide (length times < 3)%nat then None
  else
    let values := map (fun t => total_seconds t (hd 0%Z times)) times in
    let co2 := map (fun v => py_max (v - cout_ppm) 1e-6) co2_ppm in
    if existsb (fun v => bool_decide (v <= 0)) co2 then None
    else
      let logs := map ln co2 in
      match _regression_slope values logs with
      | None => None
      | Some slope =>
          if decide (slope >= 0) then None else Some (- slope * 3600.0)
      end.

(** [xs[-k]] for [1 <= k <= len(xs)]. *)
Definition from_end {A} (k : nat) (d : A) (xs : list A) : A :=
  nth (length xs - k) xs d.

(** [math.isfinite]: every real number is finite. *)
Definition isfinite (x : R) : bool := true.

Definition compute_occupancy (samples : list Sample) (options : BaselineOptions)
    (ach_origin : string) (allow_estimate : bool) (cached_state : option DeviceState)
  : Occupancy * (option R * option string) :=
  let co2_samples :=
    omap (fun s => match s_co2 s with
                   | Some c => Some (s_timestamp s, c)
                   | None => None
                   end) samples in
  if decide (length co2_samples < 1)%nat then
    ({| n_estimate := 0.0;
        ach_used := float_or (bo_ach options) DEFAULT_DEVICE_ACH;
        ach_source := ach_origin;
        note := "insufficient CO2 data" |}, (None, None))
  else
    let co2_samples := py_sorted fst co2_samples in
    let times := map fst co2_samples in
    let values := map snd co2_samples in
    let smoothed_values := _moving_average values 3 in
    let ach_used := default DEFAULT_DEVICE_ACH (bo_ach options) in
    let ach_source := ach_origin in
    let notes := ["ach_source=" +:+ ach_origin; "ma3_co2_smoothing"] in
    let '(ach_used, ach_source, updates, notes) :=
      if allow_estimate then
        let ach_est := estimate_ach times values (bo_cout_ppm options) in
        match ach_est with
        | Some est =>
            if truthy ach_est && bool_decide (0.1 < est) then
              (est, "decay_estimate", (Some est, Some "decay_estimate"),
               notes ++ ["ach_estimated_from_decay"])
            else (ach_used, ach_source, (None, None), notes)
        | None => (ach_used, ach_source, (None, None), notes)
        end
      else (ach_used, ach_source, (None, None), notes) in
    let V := bo_volume_m3 options in
    let Q := ach_used * V / 3600.0 in
    let cout_frac := bo_cout_ppm options / 1e6 in
    let g := py_max (float_or (Some (bo_g_person options)) DEFAULT_G_PERSON) 1e-9 in
    let '(derivative_estimate, notes) :=
      if decide (2 <= length smoothed_values)%nat then
        let c_t := from_end 1 0 smoothed_values / 1e6 in
        let c_prev := from_end 2 0 smoothed_values / 1e6 in
        let dt := total_seconds (from_end 1 0%Z times) (from_end 2 0%Z times) in
        if decide (0 < dt) then
          let dc_dt := (c_t - c_prev) / dt in
          (Some ((V * dc_dt + Q * (c_t - cout_frac)) / g),
           if decide (Rabs dc_dt < 1e-6) then notes ++ ["steady_state"] else notes)
        else (None, notes)
      else (None, notes) in
    let '(estimate, notes) :=
      match derivative_estimate with
      | Some d =>
          if isfinite d then (d, notes)
          else
            let c_t := from_end 1 0 smoothed_values / 1e6 in
            (Q * (c_t - cout_frac) / g, notes ++ ["steady_state_estimate"])
      | None =>
          let c_t := from_end 1 0 smoothed_values / 1e6 in
          (Q * (c_t - cout_frac) / g, notes ++ ["steady_state_estimate"])
      end in
    ({| n_estimate := py_max 0.0 estimate;
        ach_used := ach_used;
        ach_source := ach_source;
        note := join "; " notes |}, updates).

(** [samples[-1]] raises [IndexError] on an empty batch. *)
Definition compute_baseline (device_id : string) (samples : list Sample)
    (options : BaselineOptions) (device_state : option DeviceState)
    (ach_origin : string) (allow_update : bool)
  : result (BaselineResult * Updates) :=
  let samples := py_sorted s_timestamp samples in
  match last samples with
  | None => Raise IndexError
  | Some latest =>
      let now := s_timestamp latest in
      let pm_series :=
        omap (fun s => match s_pm25 s with
                       | Some v => Some (s_timestamp s, Some v)
                       | None => None
                       end) samples in
      let nowcasts := compute_nowcast_series pm_series in
      let nowcast_latest := snd <$> last nowcasts in
      let iaq := build_iaq nowcast_latest (s_co2 latest) (s_voc latest)
                           (s_temp_c latest) (s_rh latest) in
      let smoke_state := ds_smoke <$> device_state in
      let '(smoke_info, updated_smoke_state) := assess_smoke nowcasts smoke_state in
      let '(occupancy_info, occ_updates) :=
        compute_occupancy samples options ach_origin allow_update device_state in
      let result :=
        {| res_device_id := device_id;
           res_iaq := iaq;
           res_smoke := smoke_info;
           res_occupancy := occupancy_info |} in
      let updates :=
        {| upd_timestamp := now;
           upd_nowcast_pm25 := nowcast_latest;
           upd_volume_m3 := bo_volume_m3 options;
           upd_cout_ppm := bo_cout_ppm options;
           upd_smoke_state := updated_smoke_state;
           upd_ach := fst occ_updates;
           upd_ach_source := snd occ_updates |} in
      Ok (result, updates)
  end.
End Engine.

(** ** engine.py in binary64 *)

(** The smoothing functions once more, on binary64 floats as Python
    computes them, for the inputs on which rounding shows.  [weight ** i]
    is C's [pow]; it is taken by repeated multiplication, which is the
    same float when [weight] is [1.0] or [0.5], the weights of a constant
    series and of a series whose spread is half its maximum or more. *)
Module Binary64.
Import Floats.
Local Open Scope float_scope.
#[local] Set Warnings "-inexact-float".

Definition py_max (a b : float) : float := if PrimFloat.ltb a b then b else a.
Definition py_min (a b : float) : float := if PrimFloat.ltb b a then b else a.

Definition py_list_max (d : float) (xs : list float) : float :=
  match xs with [] => d | x :: rest => foldl py_max x rest end.
Definition py_list_min (d : float) (xs : list float) : float :=
  match xs with [] => d | x :: rest => foldl py_min x rest end.

(** [sum(xs)]: the accumulator starts from the integer [0]. *)
Definition py_sum (xs : list float) : float := foldl PrimFloat.add 0 xs.

(** [float(n)] for a small count [n]. *)
Definition of_nat (n : nat) : float := Nat.iter n (fun x => x + 1) 0.

Fixpoint float_pow (weight : float) (i : nat) : float :=
  match i with
  | O => 1
  | S j => weight * float_pow weight j
  end.

Definition segment_of (values : list float) (start idx : nat) : list float :=
  take (idx + 1 - start) (drop start values).

Definition _moving_average (values : list float) (window : Z) : list float :=
  if decide (window <= 1)%Z then values
  else
    imap (fun idx _ =>
            let start := Z.to_nat (Z.max 0 (Z.of_nat idx - window + 1)) in
            let segment := segment_of values start idx in
            py_sum segment / of_nat (length segment))
         values.

Fixpoint nowcast_loop (weight : float) (i : nat) (rev_tail : list float)
    (numerator denom_sum : float) : float * float :=
  match rev_tail with
  | [] => (numerator, denom_sum)
  | value :: rest =>
      let w := float_pow weight i in
      nowcast_loop weight (S i) rest (numerator + w * value) (denom_sum + w)
  end.

Definition compute_nowcast_pm25 (values : list (option float)) : option float :=
  let tail := omap (fun v : option float => v) values in
  match tail with
  | [] => None
  | [v] => Some v
  | _ =>
      let tail := last_n 12 tail in
      let c_max := py_list_max 0 tail in
      let c_min := py_list_min 0 tail in
      let denom := py_max c_max 1e-6 in
      let weight := py_max 0.5 (1.0 - (c_max - c_min) / denom) in
      let '(numerator, denom_sum) := nowcast_loop weight 0 (reverse tail) 0.0 0.0 in
      Some (if PrimFloat.eqb denom_sum 0 then List.last tail 0
            else numerator / denom_sum)
  end.

(** The readings of the examples. *)
Definition tenth : float := 0.1.
Definition tenth_up : float := 0.10000000000000002.
End Binary64.

(** ** schemas.py *)

(** What a payload can give for a [timestamp], and what a mapping can hold
    when it reaches [_parse_timestamp]. *)
Inductive PyValue : Type :=
  | PyDatetime (t : datetime)
  | PyNone
  | PyNumber (x : R)
  | PyStr (s : string).

(** The fields of a reading.  A payload gives any value for [timestamp];
    in a reading that went through [validate_reading], as every reading
    the orchestrator computes on did, it is a [datetime]. *)
Record BaselineReading : Type := {
  rd_timestamp : PyValue;
  rd_device_id : option string;
  rd_pm25 : option R;
  rd_co2 : option R;
  rd_voc : option R;
  rd_pm1 : option R;
  rd_pm4 : option R;
  rd_pm10 : option R;
  rd_temp_c : option R;
  rd_rh : option R
}.

Record BaselineRequest : Type := {
  rq_device_id : option string;
  rq_readings : list BaselineReading;
  rq_volume_m3 : option R;
  rq_ach : option R;
  rq_cout_ppm : option R;
  rq_g_per_person_m3_s : option R
}.

(** What pydantic makes of the value a payload gives for a field typed
    [datetime]: the instant it reads, or [None] where it raises a
    [ValidationError].  A [datetime] object passes as it is; which numbers
    and texts it reads is the library's own matter. *)
Class Pydantic : Type := {
  validate_datetime : PyValue -> option datetime;
  validate_datetime_object : forall t, validate_datetime (PyDatetime t) = Some t
}.

Section Validation.
Context {pyd : Pydantic}.

(** The construction of a [BaselineReading] from a payload: the field
    [timestamp: datetime] holds a [datetime] afterwards, or the
    construction fails.  The other fields are taken well-typed. *)
Definition validate_reading (payload : BaselineReading) : result BaselineReading :=
  match validate_datetime (rd_timestamp payload) with
  | Some t =>
      Ok {| rd_timestamp := PyDatetime t;
            rd_device_id := rd_device_id payload;
            rd_pm25 := rd_pm25 payload;
            rd_co2 := rd_co2 payload;
            rd_voc := rd_voc payload;
            rd_pm1 := rd_pm1 payload;
            rd_pm4 := rd_pm4 payload;
            rd_pm10 := rd_pm10 payload;
            rd_temp_c := rd_temp_c payload;
            rd_rh := rd_rh payload |}
  | None => Raise ValidationError
  end.

Fixpoint validate_readings (payload : list BaselineReading)
  : result (list BaselineReading) :=
  match payload with
  | [] => Ok []
  | reading :: rest =>
      match validate_reading reading, validate_readings rest with
      | Ok reading, Ok rest => Ok (reading :: rest)
      | _, _ => Raise ValidationError
      end
  end.

(** The construction of a [BaselineRequest] from a payload: one reading
    that does not validate fails the whole request. *)
Definition validate_request (payload : BaselineRequest) : result BaselineRequest :=
  match validate_readings (rq_readings payload) with
  | Ok readings =>
      Ok {| rq_device_id := rq_device_id payload;
            rq_readings := readings;
            rq_volume_m3 := rq_volume_m3 payload;
            rq_ach := rq_ach payload;
            rq_cout_ppm := rq_cout_ppm payload;
            rq_g_per_person_m3_s := rq_g_per_person_m3_s payload |}
  | Raise e => Raise e
  end.
End Validation.

(** Regular expressions, as far as [ModeRequest] needs them, matched
    against the whole string (the pattern is anchored at both ends). *)
Inductive regex : Type :=
  | Void
  | Eps
  | Chr (c : ascii)
  | Cat (r1 r2 : regex)
  | Alt (r1 r2 : regex).

Fixpoint nullable (r : regex) : bool :=
  match r with
  | Void => false
  | Eps => true
  | Chr _ => false
  | Cat r1 r2 => nullable r1 && nullable r2
  | Alt r1 r2 => nullable r1 || nullable r2
  end.

Fixpoint deriv (c : ascii) (r : regex) : regex :=
  match r with
  | Void => Void
  | Eps => Void
  | Chr c' => if Ascii.eqb c c' then Eps else Void
  | Cat r1 r2 =>
      if nullable r1 then Alt (Cat (deriv c r1) r2) (deriv c r2)
      else Cat (deriv c r1) r2
  | Alt r1 r2 => Alt (deriv c r1) (deriv c r2)
  end.

Fixpoint fullmatch (r : regex) (s : string) : bool :=
  match s with
  | EmptyString => nullable r
  | String c rest => fullmatch (deriv c r) rest
  end.

Fixpoint lit (s : string) : regex :=
  match s with
  | EmptyString => Eps
  | String c rest => Cat (Chr c) (lit rest)
  end.

(** [Field(pattern="^(baseline|ml)$")] *)
Definition MODE_PATTERN : regex := Alt (lit "baseline") (lit "ml").

(** Construction of a [ModeRequest] from the request body. *)
Definition ModeRequest (mode : string) : result string :=
  if fullmatch MODE_PATTERN mode then Ok mode else Raise ValidationError.

(** ** engine.py: readings to samples *)

Class DatetimeLib : Type := {
  fromtimestamp : R -> result datetime;
  fromisoformat : string -> result datetime;
  strptime : string -> string -> result datetime
}.

(** The characters [str.strip()] removes, among the one-byte ones. *)
Definition is_space (c : ascii) : bool :=
  let n := nat_of_ascii c in
  ((9 <=? n) && (n <=? 13)) || ((28 <=? n) && (n <=? 32)).

Fixpoint lstrip (s : string) : string :=
  match s with
  | String c rest => if is_space c then lstrip rest else s
  | EmptyString => EmptyString
  end.

Fixpoint rstrip (s : string) : string :=
  match s with
  | EmptyString => EmptyString
  | String c rest =>
      match rstrip rest with
      | EmptyString => if is_space c then EmptyString else String c EmptyString
      | rest' => String c rest'
      end
  end.

Definition strip (s : string) : string := rstrip (lstrip s).

(** [text[:-1] + "+00:00"] when [text.endswith("Z")], else [text]. *)
Fixpoint utc_suffix (text : string) : string :=
  match text with
  | EmptyString => EmptyString
  | String c EmptyString =>
      if Ascii.eqb c "Z" then "+00:00" else String c EmptyString
  | String c rest => String c (utc_suffix rest)
  end.

Section Parsing.
Context {lib : DatetimeLib}.

(** One round of the format loop: a [ValueError] moves on to [next],
    any other exception escapes. *)
Definition or_next (attempt : result datetime) (next : result datetime)
  : result datetime :=
  match attempt with
  | Ok t => Ok t
  | Raise (ValueError _) => next
  | Raise e => Raise e
  end.

Definition _parse_timestamp (value : PyValue) : result datetime :=
  match value with
  | PyDatetime t => Ok t
  | PyNone => Raise (ValueError "timestamp missing")
  | PyNumber x => fromtimestamp x
  | PyStr s =>
      let text := utc_suffix (strip s) in
      or_next (fromisoformat text)
        (or_next (strptime text "%Y-%m-%d %H:%M:%S")
           (or_next (strptime text "%Y-%m-%d %H:%M:%S.%f")
              (Raise (ValueError ("invalid timestamp: " +:+ s)))))
  end.

(** [float(value)] of a value that is a float already. *)
Definition _to_float (value : option R) : option R :=
  match value with
  | None => None
  | Some v => Some v
  end.

(** [Sample.from_mapping] on the mapping dumped from a reading; the dump
    is by alias, so ["pm1"] is absent and ["pm01"] holds the field. *)
Definition from_mapping (data : BaselineReading) : result Sample :=
  match _parse_timestamp (rd_timestamp data) with
  | Raise e => Raise e
  | Ok timestamp =>
      let device_id := str_or (rd_device_id data) "unknown" in
      Ok {| s_timestamp := timestamp;
            s_device_id := device_id;
            s_pm25 := _to_float (rd_pm25 data);
            s_co2 := _to_float (rd_co2 data);
            s_voc := _to_float (rd_voc data);
            s_pm1 := _to_float (opt_or None (rd_pm1 data));
            s_pm4 := _to_float (rd_pm4 data);
            s_pm10 := _to_float (rd_pm10 data);
            s_temp_c := _to_float (rd_temp_c data);
            s_rh := _to_float (rd_rh data) |}
  end.

(** [_samples_from_request] of [switch.py]: only a [ValueError] is
    caught. *)
Fixpoint samples_loop (readings : list BaselineReading) (samples : list Sample)
  : result (list Sample) :=
  match readings with
  | [] => Ok samples
  | reading :: rest =>
      match from_mapping reading with
      | Ok sample => samples_loop rest (samples ++ [sample])
      | Raise (ValueError _) => samples_loop rest samples
      | Raise e => Raise e
      end
  end.

Definition _samples_from_request (request : BaselineRequest) : result (list Sample) :=
  samples_loop (rq_readings request) [].
End Parsing.

(** ** switch.py *)

(** The module-level registries. *)
Record Store : Type := {
  _MODE : string;
  _HISTORY : gmap string (list BaselineReading);
  _DEVICE_STATE : gmap string DeviceState;
  _LAST_RESULTS : gmap string BaselineResult
}.

Definition initial_store : Store :=
  {| _MODE := "baseline"; _HISTORY := ∅; _DEVICE_STATE := ∅; _LAST_RESULTS := ∅ |}.

(** Computations over the registries that may raise. *)
Definition M (A : Type) : Type := Store -> result A * Store.

#[global] Instance M_ret : MRet M := fun A a st => (Ok a, st).
#[global] Instance M_bind : MBind M := fun A B f m st =>
  match m st with
  | (Ok a, st') => f a st'
  | (Raise e, st') => (Raise e, st')
  end.

Definition raise {A} (e : exn) : M A := fun st => (Raise e, st).
Definition lift {A} (r : result A) : M A := fun st => (r, st).
Definition get_store : M Store := fun st => (Ok st, st).
Definition put_store (st : Store) : M unit := fun _ => (Ok tt, st).

Definition set_history (h : gmap string (list BaselineReading)) (st : Store) : Store :=
  {| _MODE := _MODE st; _HISTORY := h;
     _DEVICE_STATE := _DEVICE_STATE st; _LAST_RESULTS := _LAST_RESULTS st |}.
Definition set_device_state (d : gmap string DeviceState) (st : Store) : Store :=
  {| _MODE := _MODE st; _HISTORY := _HISTORY st;
     _DEVICE_STATE := d; _LAST_RESULTS := _LAST_RESULTS st |}.
Definition set_last_results (l : gmap string BaselineResult) (st : Store) : Store :=
  {| _MODE := _MODE st; _HISTORY := _HISTORY st;
     _DEVICE_STATE := _DEVICE_STATE st; _LAST_RESULTS := l |}.

(** [deque(maxlen=288)] *)
Definition HISTORY_MAXLEN : nat := 288.

(** [deque.append] on a bounded deque: the oldest entry leaves on overflow. *)
Definition deque_append (maxlen : nat) (buffer : list BaselineReading)
    (entry : BaselineReading) : list BaselineReading :=
  last_n maxlen (buffer ++ [entry]).

Definition get_mode : M string := fun st => (Ok (_MODE st), st).

Definition set_mode (mode : string) : M string := fun st =>
  let new_mode := if decide (mode = "baseline") then "baseline" else "ml" in
  (Ok new_mode,
   {| _MODE := new_mode; _HISTORY := _HISTORY st;
      _DEVICE_STATE := _DEVICE_STATE st; _LAST_RESULTS := _LAST_RESULTS st |}).

(** [_HISTORY[device_id]] on the [defaultdict]: a missing key is bound to
    an empty deque. *)
Definition _history_for (device_id : string) : M (list BaselineReading) := fun st =>
  match _HISTORY st !! device_id with
  | Some buffer => (Ok buffer, st)
  | None => (Ok [], set_history (<[device_id := []]> (_HISTORY st)) st)
  end.

(** The entry [record_history] stores: the dumped reading with its
    timestamp in ISO format, which [build_request_from_history] reads back
    as the same instant. [isoformat] is an attribute of a [datetime] only. *)
Definition history_entry (reading : BaselineReading) : result BaselineReading :=
  match rd_timestamp reading with
  | PyDatetime _ => Ok reading
  | _ => Raise AttributeError
  end.

Section Switch.
Context {cfg : Config} {lib : DatetimeLib} {pyd : Pydantic}.
Local Open Scope R_scope.

Definition _state_for (device_id : string) : M DeviceState := fun st =>
  match _DEVICE_STATE st !! device_id with
  | Some state => (Ok state, st)
  | None =>
      let state := DeviceState_new device_id in
      (Ok state, set_device_state (<[device_id := state]> (_DEVICE_STATE st)) st)
  end.

Definition record_history (reading : BaselineReading) : M unit :=
  let device_id := str_or (rd_device_id reading) "unknown" in
  entry ← lift (history_entry reading);
  buffer ← _history_for device_id;
  st ← get_store;
  put_store (set_history
               (<[device_id := deque_append HISTORY_MAXLEN buffer entry]> (_HISTORY st))
               st).

Definition build_request_from_history (device_id : string)
  : M (option BaselineRequest) :=
  history ← _history_for device_id;
  match history with
  | [] => mret None
  | _ =>
      mret (Some {| rq_device_id := Some device_id;
                    rq_readings := history;
                    rq_volume_m3 := None;
                    rq_ach := None;
                    rq_cout_ppm := None;
                    rq_g_per_person_m3_s := None |})
  end.

Definition _resolve_options (device_id : string) (request : BaselineRequest)
    (volume_m3 ach cout_ppm g_per_person : option R)
  : M (BaselineOptions * string) :=
  state ← _state_for device_id;
  let resolved_volume :=
    float_or volume_m3
      (float_or (rq_volume_m3 request)
         (float_or (Some (ds_volume_m3 state)) DEFAULT_VOLUME_M3)) in
  let resolved_cout :=
    float_or cout_ppm
      (float_or (rq_cout_ppm request)
         (float_or (Some (ds_cout_ppm state)) DEFAULT_DEVICE_COUT_PPM)) in
  let '(resolved_ach, ach_origin) :=
    match ach with
    | Some a => (a, "provided")
    | None =>
        match rq_ach request with
        | Some a => (a, "provided")
        | None =>
            match ds_ach state with
            | Some a => (a, str_or (Some (ds_ach_source state)) "cached")
            | None => (DEFAULT_DEVICE_ACH, "default")
            end
        end
    end in
  let options :=
    {| bo_volume_m3 := resolved_volume;
       bo_ach := Some resolved_ach;
       bo_cout_ppm := resolved_cout;
       bo_g_person :=
         float_or g_per_person
           (float_or (rq_g_per_person_m3_s request) (ds_g_person state)) |} in
  mret (options, ach_origin).

(** The commit of [_compute] under [update_state]: the device's cached
    context takes the updates, its smoke state is replaced. *)
Definition commit_updates (device_id : string) (state : DeviceState)
    (options : BaselineOptions) (updates : Updates) : M unit := fun st =>
  let state' :=
    update_context state
      (opt_or (upd_ach updates) (ds_ach state))
      (Some (str_or (upd_ach_source updates) (ds_ach_source state)))
      (Some (float_or (Some (upd_volume_m3 updates)) (ds_volume_m3 state)))
      (Some (float_or (Some (upd_cout_ppm updates)) (ds_cout_ppm state)))
      (upd_nowcast_pm25 updates)
      (Some (upd_timestamp updates))
      (Some (bo_g_person options)) in
  let state'' :=
    {| ds_device_id := ds_device_id state';
       ds_volume_m3 := ds_volume_m3 state';
       ds_ach := ds_ach state';
       ds_cout_ppm := ds_cout_ppm state';
       ds_ach_source := ds_ach_source state';
       ds_last_nowcast_pm25 := ds_last_nowcast_pm25 state';
       ds_g_person := ds_g_person state';
       ds_last_updated := ds_last_updated state';
       ds_smoke := upd_smoke_state updates |} in
  (Ok tt, set_device_state (<[device_id := state'']> (_DEVICE_STATE st)) st).

Definition store_last_result (device_id : string) (result : BaselineResult)
  : M unit := fun st =>
  (Ok tt, set_last_results (<[device_id := result]> (_LAST_RESULTS st)) st).

Definition _compute (request : BaselineRequest)
    (volume_m3 ach cout_ppm g_per_person : option R) (update_state : bool)
  : M BaselineResult :=
  let device_id := str_or (rq_device_id request) "unknown" in
  state ← _state_for device_id;
  '(options, ach_origin) ←
    _resolve_options device_id request volume_m3 ach cout_ppm g_per_person;
  samples ← lift (_samples_from_request request);
  match samples with
  | [] => raise (ValueError "No valid readings provided")
  | _ =>
      '(result, updates) ←
        lift (compute_baseline device_id samples options (Some state)
                               ach_origin update_state);
      (if update_state then commit_updates device_id state options updates
       else mret tt);;
      store_last_result device_id result;;
      mret result
  end.

Definition compute_from_payload (payload : BaselineReading)
    (volume_m3 ach cout_ppm g_per_person : option R) : M BaselineResult :=
  reading ← lift (validate_reading payload);
  record_history reading;;
  let device_id := str_or (rd_device_id reading) "unknown" in
  from_history ← build_request_from_history device_id;
  let request :=
    default {| rq_device_id := Some device_id;
               rq_readings := [reading];
               rq_volume_m3 := None;
               rq_ach := None;
               rq_cout_ppm := None;
               rq_g_per_person_m3_s := None |} from_history in
  _compute request volume_m3 ach cout_ppm g_per_person false.

(** The loop of [record_manual_request] over the readings. *)
Fixpoint refill_history (device_id : string) (readings : list BaselineReading)
  : M unit :=
  match readings with
  | [] => mret tt
  | reading :: rest =>
      entry ← lift (history_entry reading);
      st ← get_store;
      put_store (set_history
                   (<[device_id :=
                        deque_append HISTORY_MAXLEN
                          (default [] (_HISTORY st !! device_id)) entry]>
                      (_HISTORY st)) st);;
      refill_history device_id rest
  end.

Definition record_manual_request (request : BaselineRequest)
    (result : BaselineResult) : M unit :=
  let device_id :=
    str_or (rq_device_id request) (str_or (Some (res_device_id result)) "unknown") in
  _history_for device_id;;
  st ← get_store;
  put_store (set_history (<[device_id := []]> (_HISTORY st)) st);;
  refill_history device_id (rq_readings request);;
  store_last_result device_id result.

Definition compute_request_payload (payload : BaselineRequest) : M BaselineResult :=
  request ← lift (validate_request payload);
  result ← _compute request None None None None true;
  record_manual_request request result;;
  mret result.

Definition get_last (device_id : string) : M (option BaselineResult) := fun st =>
  (Ok (_LAST_RESULTS st !! device_id), st).

(** ** api.py: the mode endpoint *)

(** [POST /baseline/mode]: the body is validated into a [ModeRequest]
    before the handler runs. *)
Definition update_mode (body_mode : string) : M string :=
  mode ← lift (ModeRequest body_mode);
  set_mode mode.
End Switch.

(** ** api.py: the other endpoints *)

(** [HTTPException(status_code, detail)], the value an endpoint answers
    with instead of a result; an exception of the orchestrator is not
    caught by the endpoints and stays a [Raise]. *)
Record HTTPException : Type := {
  status_code : Z;
  detail : string
}.

Section Api.
Context {cfg : Config} {lib : DatetimeLib} {pyd : Pydantic}.

(** [POST /baseline/compute]: the body arrives validated, and the
    orchestrator validates its dump once more. *)
Definition compute_endpoint (request : BaselineRequest)
  : M (HTTPException + BaselineResult) :=
  if bool_decide (rq_readings request = [])
     && bool_decide (str_or (rq_device_id request) EmptyString = EmptyString)
  then mret (inl {| status_code := 400; detail := "device_id required" |})
  else
    result ← compute_request_payload request;
    mret (inr result).

(** [GET /baseline/last] *)
Definition get_last_result (device_id : string)
  : M (HTTPException + BaselineResult) :=
  result ← get_last device_id;
  match result with
  | None =>
      mret (inl {| status_code := 404; detail := "No cached result for device" |})
  | Some result => mret (inr result)
  end.

(** [GET /baseline/mode] *)
Definition read_mode : M string := get_mode.
End Api.

(** ** config.py: tables read from the environment *)

(** [s.replace(old, new)] for one-character [old] and [new]. *)
Fixpoint replace_char (old new : ascii) (s : string) : string :=
  match s with
  | EmptyString => EmptyString
  | String c rest =>
      String (if Ascii.eqb c old then new else c) (replace_char old new rest)
  end.

(** [s.split(sep)] for a one-character separator. *)
Fixpoint split_on (sep : ascii) (s : string) : list string :=
  match s with
  | EmptyString => [EmptyString]
  | String c rest =>
      if Ascii.eqb c sep then EmptyString :: split_on sep rest
      else
        match split_on sep rest with
        | word :: words => String c word :: words
        | [] => [String c EmptyString]
        end
  end.

(** [os.getenv] and [float] on a text, [None] where [float] raises
    [ValueError]. *)
Class Environ (F : Type) : Type := {
  getenv : string -> option string;
  float_of_text : string -> option F
}.

Section EnvTables.
Context {F : Type} {environ : Environ F}.

(** One round of the loop of [_env_breakpoint_table]: the row of the
    chunk, or [None] where the loop continues. *)
Definition breakpoint_row (chunk : string) : option (list F) :=
  let chunk := strip chunk in
  if decide (chunk = EmptyString) then None
  else
    let parts := strip <$> split_on "," chunk in
    if decide (length parts <> 4%nat) then None
    else mapM float_of_text parts.

Definition _env_breakpoint_table (name : string) (default : list (list F))
  : list (list F) :=
  match getenv name with
  | None => default
  | Some raw =>
      if decide (raw = EmptyString) then default
      else
        let rows := omap breakpoint_row (split_on ";" (replace_char "|" ";" raw)) in
        match rows with
        | [] => default
        | _ => rows
        end
  end.
End EnvTables.

(** ** Vocabulary of the statements *)

Definition row_c_lo (row : Row) : R := fst (fst (fst row)).
Definition row_c_hi (row : Row) : R := snd (fst (fst row)).
Definition row_i_lo (row : Row) : R := snd (fst row).
Definition row_i_hi (row : Row) : R := snd row.

(** The row contains the concentration. *)
Definition in_row (c : R) (row : Row) : Prop :=
  (row_c_lo row <= c /\ c <= row_c_hi row)%R.

(** The interpolation formula as the specification writes it:
    [i_lo + (i_hi - i_lo) / (c_hi - c_lo) * (c - c_lo)]. *)
Definition spec_interpolation (row : Row) (c : R) : R :=
  (row_i_lo row
   + (row_i_hi row - row_i_lo row) / (row_c_hi row - row_c_lo row)
     * (c - row_c_lo row))%R.

(** The concentration exceeds every row's upper bound. *)
Definition above_all (c : R) (rows : list Row) : Prop :=
  Forall (fun row => (row_c_hi row < c)%R) rows.

(** [BaselineOptions()]: the dataclass defaults. *)
Definition BaselineOptions_new `{Config} : BaselineOptions := {|
  bo_volume_m3 := DEFAULT_VOLUME_M3;
  bo_ach := None;
  bo_cout_ppm := DEFAULT_DEVICE_COUT_PPM;
  bo_g_person := DEFAULT_G_PERSON
|}.

(** The reading of the end-to-end scenario, taken at instant [t]:
    [{co2: 900, voc: 300, pm25: 10, temp_c: 22, rh: 45}] of device
    ["office_iaq"]. *)
Definition office_sample (t : datetime) : Sample := {|
  s_timestamp := t;
  s_device_id := "office_iaq";
  s_pm25 := Some 10%R;
  s_co2 := Some 900%R;
  s_voc := Some 300%R;
  s_pm1 := None;
  s_pm4 := None;
  s_pm10 := None;
  s_temp_c := Some 22%R;
  s_rh := Some 45%R
|}.

(** *** Runs of the smoke detector *)

(** A step of the detector is one evaluation of [assess_smoke] on a series
    that holds at least one NowCast point, threaded through the cached
    state; [series_of] is the series of the step. *)
Definition Step : Type := (datetime * R) * list (datetime * R).

Definition series_of (s : Step) : list (datetime * R) := fst s :: snd s.

Section SmokeRuns.
Context {cfg : Config}.
Local Open Scope R_scope.

Definition smoke_step (state : SmokeState) (s : Step) : SmokeState :=
  snd (assess_smoke (series_of s) (Some state)).

Definition smoke_run (state : SmokeState) (steps : list Step) : SmokeState :=
  foldl smoke_step state steps.

(** The latest point of a step, and its rise over the reference point. *)
Definition latest_point (s : Step) : datetime * R :=
  List.last (py_sorted fst (series_of s)) (0%Z, 0).

Definition latest_of (s : Step) : R := snd (latest_point s).

Definition rise_of (s : Step) : R :=
  latest_of s - previous_of (py_sorted fst (series_of s)) (fst (latest_point s)).

Definition clear_threshold : R := SMOKE_TRIGGER - SMOKE_CLEAR_DELTA.

(** [latest >= trigger_threshold AND rise >= min_rise] *)
Definition trigger_met (s : Step) : Prop :=
  SMOKE_TRIGGER <= latest_of s /\ SMOKE_MIN_RISE <= rise_of s.

(** [latest <= clear_threshold] *)
Definition below_clear (s : Step) : Prop := latest_of s <= clear_threshold.
End SmokeRuns.

(** *** Precedence of the parameter sources *)

(** The first source that is present, else the fallback. *)
Fixpoint first_present (sources : list (option R)) (fallback : R) : R :=
  match sources with
  | [] => fallback
  | Some v :: _ => v
  | None :: rest => first_present rest fallback
  end.

(** The first source that is present and not zero, else the fallback. *)
Fixpoint first_nonzero (sources : list (option R)) (fallback : R) : R :=
  match sources with
  | [] => fallback
  | Some v :: rest => if decide (v = 0%R) then first_nonzero rest fallback else v
  | None :: rest => first_nonzero rest fallback
  end.

(** The cached context a computation for [device_id] starts from: the
    entry of the Device State Store, created with the defaults on first
    reference. *)
Definition cached_state `{Config} (device_id : string) (st : Store) : DeviceState :=
  default (DeviceState_new device_id) (_DEVICE_STATE st !! device_id).

(** *** Batches and their readings *)

(** The request with another list of readings. *)
Definition with_readings (request : BaselineRequest)
    (readings : list BaselineReading) : BaselineRequest := {|
  rq_device_id := rq_device_id request;
  rq_readings := readings;
  rq_volume_m3 := rq_volume_m3 request;
  rq_ach := rq_ach request;
  rq_cout_ppm := rq_cout_ppm request;
  rq_g_per_person_m3_s := rq_g_per_person_m3_s request
|}.

(** The timestamp of the reading fails to parse. *)
Definition unparsable `{DatetimeLib} (reading : BaselineReading) : Prop :=
  exists msg, _parse_timestamp (rd_timestamp reading) = Raise (ValueError msg).

(** The library of the examples: no number and no text denotes an instant,
    only [datetime] objects parse. *)
Definition strict_lib : DatetimeLib := {|
  fromtimestamp := fun _ => Raise (ValueError "year out of range");
  fromisoformat := fun _ => Raise (ValueError "Invalid isoformat string");
  strptime := fun _ _ => Raise (ValueError "time data does not match format")
|}.

(** The validation of the examples: a [datetime] object passes, nothing
    else does (the examples give it [datetime] objects and a text that is
    no timestamp). *)
Definition strict_pydantic : Pydantic := {|
  validate_datetime := fun value =>
    match value with PyDatetime t => Some t | _ => None end;
  validate_datetime_object := fun t => eq_refl
|}.

(** The reading of the end-to-end scenario, as submitted. *)
Definition office_reading (timestamp : PyValue) : BaselineReading := {|
  rd_timestamp := timestamp;
  rd_device_id := Some "office_iaq";
  rd_pm25 := Some 10%R;
  rd_co2 := Some 900%R;
  rd_voc := Some 300%R;
  rd_pm1 := None;
  rd_pm4 := None;
  rd_pm10 := None;
  rd_temp_c := Some 22%R;
  rd_rh := Some 45%R
|}.

(** The sample carries the instant and the values of the reading, and
    ["unknown"] in place of an absent or empty device id. *)
Definition sample_matches (r : BaselineReading) (s : Sample) : Prop :=
  rd_timestamp r = PyDatetime (s_timestamp s) /\
  s_device_id s = str_or (rd_device_id r) "unknown" /\
  s_pm25 s = rd_pm25 r /\ s_co2 s = rd_co2 r /\ s_voc s = rd_voc r /\
  s_pm1 s = rd_pm1 r /\ s_pm4 s = rd_pm4 r /\ s_pm10 s = rd_pm10 r /\
  s_temp_c s = rd_temp_c r /\ s_rh s = rd_rh r.

(** The string consists of characters that [str.strip()] removes. *)
Fixpoint all_space (s : string) : bool :=
  match s with
  | EmptyString => true
  | String c rest => is_space c && all_space rest
  end.

(** A library for the examples of texts: the one text it reads is the
    epoch in ISO format with its offset. *)
Definition epoch_lib : DatetimeLib := {|
  fromtimestamp := fun _ => Raise (ValueError "year out of range");
  fromisoformat := fun text =>
    if String.eqb text "1970-01-01T00:00:00+00:00" then Ok 0%Z
    else Raise (ValueError "Invalid isoformat string");
  strptime := fun _ _ => Raise (ValueError "time data does not match format")
|}.

(** The scenario reading as a batch of one, with the volume and the
    outdoor baseline the request supplies. *)
Definition office_request (volume_m3 cout_ppm : option R) : BaselineRequest := {|
  rq_device_id := Some "office_iaq";
  rq_readings := [office_reading (PyDatetime 0%Z)];
  rq_volume_m3 := volume_m3;
  rq_ach := None;
  rq_cout_ppm := cout_ppm;
  rq_g_per_person_m3_s := None
|}.

(** An environment for the examples: a table with one well-formed row
    among malformed chunks, and a [float] that reads three texts. *)
Definition example_environ : Environ R := {|
  getenv := fun name =>
    if String.eqb name "BASELINE_PM25_BREAKPOINTS"
    then Some "0, 12,0,50 | 12.1,35.4 ;; oops,1,2,3" else None;
  float_of_text := fun text =>
    if String.eqb text "0" then Some 0%R
    else if String.eqb text "12" then Some 12%R
    else if String.eqb text "50" then Some 50%R
    else None
|}.

(** The sample of a reading that parses, nothing for one that does not. *)
Definition parsed_sample `{DatetimeLib} (reading : BaselineReading) : option Sample :=
  match from_mapping reading with
  | Ok sample => Some sample
  | Raise _ => None
  end.

(** * Properties *)

(** ** The Python prelude *)

Section PreludeFacts.
Local Open Scope R_scope.

Lemma py_max_Rmax a b : py_max a b = Rmax a b.
Proof.
  unfold py_max, Rmax. destruct (decide (a < b)), (Rle_dec a b); lra.
Qed.

Lemma py_min_Rmin a b : py_min a b = Rmin a b.
Proof.
  unfold py_min, Rmin. destruct (decide (b < a)), (Rle_dec a b); lra.
Qed.

Lemma py_max_lower a b : a <= py_max a b.
Proof. unfold py_max. case_decide; lra. Qed.

Lemma py_max_upper a b : b <= py_max a b.
Proof. unfold py_max. case_decide; lra. Qed.

Lemma py_sum_cons x xs : py_sum (x :: xs) = x + py_sum xs.
Proof.
  unfold py_sum. simpl. rewrite Rplus_0_l.
  assert (G : forall a l, foldl Rplus a l = a + foldl Rplus 0 l).
  { intros a l. revert a. induction l as [|y l IH]; intros a; simpl.
    - lra.
    - rewrite (IH (a + y)), (IH (0 + y)). lra. }
  apply G.
Qed.
End PreludeFacts.

(** [py_sorted] returns its input rearranged in non-decreasing key order. *)
Lemma insert_by_Permutation {A} (key : A -> Z) x xs :
  insert_by key x xs ≡ₚ x :: xs.
Proof.
induction xs as [|y xs IH]; simpl; [reflexivity|].
case_decide; [reflexivity|]. rewrite IH. apply Permutation_swap.
Qed.

Lemma py_sorted_Permutation {A} (key : A -> Z) xs : py_sorted key xs ≡ₚ xs.
Proof.
induction xs as [|x xs IH]; simpl; [reflexivity|].
rewrite insert_by_Permutation, IH. reflexivity.
Qed.

Lemma insert_by_sorted {A} (key : A -> Z) x xs :
  StronglySorted (fun a b => (key a <= key b)%Z) xs ->
  StronglySorted (fun a b => (key a <= key b)%Z) (insert_by key x xs).
Proof.
induction 1 as [|y xs Hs IH Hall]; simpl.
- repeat constructor.
- case_decide as Hle.
  + constructor; [constructor; assumption|].
    constructor; [exact Hle|].
    eapply Forall_impl; [exact Hall|]. intros z Hz. simpl in Hz. lia.
  + constructor; [exact IH|].
    rewrite insert_by_Permutation. constructor; [lia | exact Hall].
Qed.

Lemma py_sorted_sorted {A} (key : A -> Z) xs :
  StronglySorted (fun a b => (key a <= key b)%Z) (py_sorted key xs).
Proof.
induction xs as [|x xs IH]; simpl; [constructor|]. apply insert_by_sorted, IH.
Qed.

(** ** Occupancy is never negative *)

Section OccupancyFacts.
Context {cfg : Config}.
Local Open Scope R_scope.

(** C9. For every batch of samples and every parameter set, the
    occupancy estimate that [compute_occupancy] returns satisfies
    [n_estimate >= 0]. *)
Theorem occupancy_estimate_nonneg :
  forall samples options ach_origin allow_estimate cached_state,
    n_estimate (fst (compute_occupancy samples options ach_origin
                                       allow_estimate cached_state)) >= 0.
Proof.
  intros samples options ach_origin allow_estimate cached_state.
  unfold compute_occupancy.
  repeat (case_match || case_decide); simpl; try lra;
    match goal with |- py_max _ ?e >= 0 => pose proof (py_max_lower 0.0 e); lra end.
Qed.
End OccupancyFacts.

(** ** PM2.5 to AQI *)

Section AqiFacts.
Context {cfg : Config}.
Local Open Scope R_scope.

Lemma aqi_scan_None c rows :
  aqi_scan c rows = None <-> Forall (fun row => ~ in_row c row) rows.
Proof.
  induction rows as [|[[[c_lo c_hi] i_lo] i_hi] rows IH]; simpl.
  - split; [constructor | reflexivity].
  - case_decide as Hin.
    + split; [discriminate|]. intros HF. inversion HF as [|? ? Hn _]; subst.
      exfalso. apply Hn. exact Hin.
    + rewrite IH. split.
      * intros HF. constructor; [exact Hin | exact HF].
      * intros HF. inversion HF; subst. assumption.
Qed.

(** A hit is the interpolation of the first row that contains [c]. *)
Lemma aqi_scan_Some c rows v :
  aqi_scan c rows = Some v ->
  exists pre row post,
    rows = pre ++ row :: post /\ Forall (fun r => ~ in_row c r) pre /\
    in_row c row /\ v = spec_interpolation row c.
Proof.
  revert v. induction rows as [|[[[c_lo c_hi] i_lo] i_hi] rows IH]; intros v; simpl;
    [discriminate|].
  case_decide as Hin.
  - intros [= <-]. exists [], (c_lo, c_hi, i_lo, i_hi), rows.
    split; [reflexivity|]. split; [constructor|]. split; [exact Hin|].
    unfold spec_interpolation, row_c_lo, row_c_hi, row_i_lo, row_i_hi. simpl.
    apply Rplus_comm.
  - intros Hs. destruct (IH _ Hs) as (pre & row & post & -> & Hpre & Hrow & Hv).
    exists ((c_lo, c_hi, i_lo, i_hi) :: pre), row, post.
    split; [reflexivity|]. split; [constructor; assumption|]. split; assumption.
Qed.

(** Saturation: above every upper bound the last row's [i_hi] comes back. *)
Lemma pm25_aqi_saturates c :
  above_all c PM25_BREAKPOINTS ->
  pm25_aqi (Some c) = Some (last_i_hi PM25_BREAKPOINTS).
Proof.
  intros Habove. unfold pm25_aqi.
  assert (Hn : aqi_scan c PM25_BREAKPOINTS = None).
  { apply aqi_scan_None. eapply Forall_impl; [exact Habove|].
    intros row Hlt [_ Hhi]. simpl in Hlt. lra. }
  rewrite Hn. reflexivity.
Qed.

(** Whatever no row contains is mapped to the last row's [i_hi]. *)
Lemma pm25_aqi_unmatched c :
  Forall (fun row => ~ in_row c row) PM25_BREAKPOINTS ->
  pm25_aqi (Some c) = Some (last_i_hi PM25_BREAKPOINTS).
Proof.
  intros HF. unfold pm25_aqi. apply aqi_scan_None in HF. rewrite HF. reflexivity.
Qed.
End AqiFacts.

Section AqiDefaultTable.
Local Open Scope R_scope.
Local Existing Instance default_config.

Ltac scan_default :=
  unfold pm25_aqi, PM25_BREAKPOINTS, default_config, DEFAULT_PM25_BREAKPOINTS,
         last_i_hi; simpl;
  repeat (case_decide; try lra); try (f_equal; lra).

(** On the default table, a concentration inside a row is interpolated
    on that row. *)
Lemma pm25_aqi_default_interpolates c row :
  row ∈ DEFAULT_PM25_BREAKPOINTS -> in_row c row ->
  pm25_aqi (Some c) = Some (spec_interpolation row c).
Proof.
  unfold DEFAULT_PM25_BREAKPOINTS, in_row. intros Hrow Hin.
  repeat (apply elem_of_cons in Hrow as [-> | Hrow]);
    [ .. | apply elem_of_nil in Hrow; contradiction ];
    unfold spec_interpolation, row_c_lo, row_c_hi, row_i_lo, row_i_hi in *;
    simpl in *; scan_default.
Qed.

(** At the upper bound of every default row the value is the row's
    [i_hi]; in particular [aqi(12.0) = 50]. *)
Lemma pm25_aqi_default_boundaries row :
  row ∈ DEFAULT_PM25_BREAKPOINTS ->
  pm25_aqi (Some (row_c_hi row)) = Some (row_i_hi row).
Proof.
  unfold DEFAULT_PM25_BREAKPOINTS. intros Hrow.
  repeat (apply elem_of_cons in Hrow as [-> | Hrow]);
    [ .. | apply elem_of_nil in Hrow; contradiction ];
    unfold row_c_hi, row_i_hi; simpl; scan_default.
Qed.

Lemma pm25_aqi_12 : pm25_aqi (Some 12.0) = Some 50.0.
Proof. scan_default. Qed.

(** C3. At [c = 12.05], between the first row's upper bound [12.0] and
    the second row's lower bound [12.1], no row of the default table
    contains [c] and [c] does not exceed every upper bound, yet
    [pm25_aqi] returns [500], the last row's [i_hi]. *)
Theorem pm25_aqi_gap_saturates :
  Forall (fun row => ~ in_row 12.05 row) DEFAULT_PM25_BREAKPOINTS /\
  ~ above_all 12.05 DEFAULT_PM25_BREAKPOINTS /\
  last_i_hi DEFAULT_PM25_BREAKPOINTS = 500.0 /\
  pm25_aqi (Some 12.05) = Some 500.0.
Proof.
  split; [|split; [|split]].
  - unfold DEFAULT_PM25_BREAKPOINTS, in_row, row_c_lo, row_c_hi.
    repeat constructor; simpl; lra.
  - unfold above_all, DEFAULT_PM25_BREAKPOINTS. intros HF.
    apply Forall_cons in HF as [_ HF]. apply Forall_cons in HF as [H2 _].
    unfold row_c_hi in H2. simpl in H2. lra.
  - reflexivity.
  - scan_default.
Qed.

(** Every concentration strictly between the first two rows is mapped to
    500. *)
Lemma pm25_aqi_first_gap c :
  12.0 < c < 12.1 -> pm25_aqi (Some c) = Some 500.0.
Proof. intros [Hlo Hhi]. scan_default. Qed.

(** The gap is met by readings with one decimal: the NowCast of 12.0
    followed by 12.1 lies strictly between them, and its AQI is 500. *)
Lemma pm25_aqi_gap_reachable :
  exists nowcast,
    compute_nowcast_pm25 [Some 12.0; Some 12.1] = Some nowcast /\
    12.0 < nowcast < 12.1 /\
    pm25_aqi (Some nowcast) = Some 500.0.
Proof.
assert (Hmax : py_max 12.0 12.1 = 12.1) by (unfold py_max; case_decide; lra).
assert (Hmin : py_min 12.0 12.1 = 12.0) by (unfold py_min; case_decide; lra).
assert (Hden : py_max 12.1 1e-6 = 12.1) by (unfold py_max; case_decide; lra).
assert (Hw : py_max 0.5 (1.0 - (12.1 - 12.0) / 12.1) = 120 / 121)
  by (unfold py_max; case_decide; lra).
assert (Hrun : compute_nowcast_pm25 [Some 12.0; Some 12.1]
               = Some ((0.0 + 1 * 12.1 + 120 / 121 * 1 * 12.0)
                       / (0.0 + 1 + 120 / 121 * 1))).
{ unfold compute_nowcast_pm25, last_n, py_list_max, py_list_min.
  cbn [omap list_omap length Nat.sub drop foldl reverse rev_append].
  rewrite Hmax, Hmin, Hden, Hw.
  cbn [nowcast_loop pow]. case_decide as Hz; [reflexivity | exfalso; lra]. }
eexists. split; [exact Hrun|].
assert (Hval : 12.0 < (0.0 + 1 * 12.1 + 120 / 121 * 1 * 12.0)
                      / (0.0 + 1 + 120 / 121 * 1) < 12.1) by lra.
split; [exact Hval|]. apply pm25_aqi_first_gap. exact Hval.
Qed.
End AqiDefaultTable.

(** ** Air-exchange-rate estimation *)

Section AchFacts.
Context {cfg : Config}.
Local Open Scope R_scope.

(** The excess concentrations are clamped from below by [1e-6], so the
    test for a non-positive excess never succeeds. *)
Lemma ach_guard_never_fires (co2_ppm : list R) (cout_ppm : R) :
  existsb (fun v => bool_decide (v <= 0))
          (map (fun v => py_max (v - cout_ppm) 1e-6) co2_ppm) = false.
Proof.
  induction co2_ppm as [|v rest IH]; simpl; [reflexivity|].
  rewrite IH, orb_false_r. apply bool_decide_eq_false.
  pose proof (py_max_upper (v - cout_ppm) 1e-6). lra.
Qed.

(** What [estimate_ach] computes: the rejections left are a batch of
    fewer than three samples, a degenerate regression and a slope that
    is not negative. *)
Lemma estimate_ach_unfold times co2_ppm cout_ppm :
  estimate_ach times co2_ppm cout_ppm =
  if decide (length times < 3)%nat then None
  else
    match _regression_slope
            (map (fun t => total_seconds t (hd 0%Z times)) times)
            (map ln (map (fun v => py_max (v - cout_ppm) 1e-6) co2_ppm)) with
    | None => None
    | Some slope => if decide (slope >= 0) then None else Some (- slope * 3600.0)
    end.
Proof.
  unfold estimate_ach. rewrite ach_guard_never_fires. reflexivity.
Qed.

Lemma estimate_ach_few_samples times co2_ppm cout_ppm :
  (length times < 3)%nat -> estimate_ach times co2_ppm cout_ppm = None.
Proof. intros H. rewrite estimate_ach_unfold. case_decide; [reflexivity | lia]. Qed.

(** Zero variance in time makes the regression degenerate. *)
Lemma regression_slope_degenerate x y :
  INR (length x) * py_sum (map (fun a => a * a) x) - py_sum x * py_sum x = 0 ->
  _regression_slope x y = None.
Proof.
  intros H. unfold _regression_slope. case_decide; [reflexivity|].
  case_decide; [reflexivity | contradiction].
Qed.

Lemma estimate_ach_value times co2_ppm cout_ppm ach :
  estimate_ach times co2_ppm cout_ppm = Some ach ->
  exists slope,
    _regression_slope
      (map (fun t => total_seconds t (hd 0%Z times)) times)
      (map ln (map (fun v => py_max (v - cout_ppm) 1e-6) co2_ppm)) = Some slope /\
    slope < 0 /\ ach = - slope * 3600 /\ (3 <= length times)%nat.
Proof.
  rewrite estimate_ach_unfold. case_decide as Hlen; [discriminate|].
  destruct (_regression_slope _ _) as [slope|]; [|discriminate].
  case_decide as Hs; [discriminate|]. intros [= <-].
  exists slope. repeat split; try lra; try lia.
Qed.

(** C1. Three samples one second apart with CO2 1000, 500 and 400 ppm
    against a baseline of 420 ppm: the last value is below the baseline,
    and [estimate_ach] does not reject the batch but returns
    [1800 * (ln 580 - ln 1e-6)], a positive rate. *)
Theorem estimate_ach_accepts_value_below_baseline :
  400 <= 420 /\
  estimate_ach [0; 1000000; 2000000]%Z [1000; 500; 400] 420
    = Some (1800 * (ln 580 - ln 1e-6)) /\
  0 < 1800 * (ln 580 - ln 1e-6).
Proof.
  assert (Hln : ln 1e-6 < ln 580) by (apply ln_increasing; lra).
  split; [lra|]. split; [|lra].
  rewrite estimate_ach_unfold.
  case_decide as Hlen; [simpl in Hlen; lia|].
  unfold _regression_slope, total_seconds. simpl length. simpl hd. simpl map.
  case_decide as Hn; [lia|].
  replace (py_max (1000 - 420) 1e-6) with 580 by (unfold py_max; case_decide; lra).
  replace (py_max (500 - 420) 1e-6) with 80 by (unfold py_max; case_decide; lra).
  replace (py_max (400 - 420) 1e-6) with 1e-6 by (unfold py_max; case_decide; lra).
  simpl zip_with. rewrite !py_sum_cons. unfold py_sum. simpl foldl.
  change (0 - 0)%Z with 0%Z. change (1000000 - 0)%Z with 1000000%Z.
  change (2000000 - 0)%Z with 2000000%Z.
  replace (0 / 1e6) with 0 by lra.
  replace (1000000 / 1e6) with 1 by lra.
  replace (2000000 / 1e6) with 2 by lra.
  replace (INR 3) with 3 by (simpl; lra).
  case_decide as Hd; [exfalso; lra|].
  case_decide as Hs.
  - exfalso. lra.
  - f_equal. lra.
Qed.
End AchFacts.

(** ** The end-to-end scenario *)

Section Scenario.
Local Open Scope R_scope.
Local Arguments IZR : simpl never.
Local Arguments Z.pow_pos : simpl never.

(** The occupancy part of a baseline result is [compute_occupancy] on
    the sorted batch. *)
Lemma compute_baseline_occupancy {cfg : Config} device_id samples options
    device_state ach_origin allow_update res upd :
  compute_baseline device_id samples options device_state ach_origin allow_update
    = Ok (res, upd) ->
  res_occupancy res =
    fst (compute_occupancy (py_sorted s_timestamp samples) options ach_origin
                           allow_update device_state).
Proof.
  unfold compute_baseline. destruct (last _); [|discriminate].
  destruct (assess_smoke _ _) as [smoke_info smoke_state].
  destruct (compute_occupancy _ _ _ _ _) as [occ occ_upd].
  intros [= <- <-]. reflexivity.
Qed.

(** In the model, where the timestamps of a batch are mutually comparable
    and arithmetic neither rounds nor overflows, a batch that is not
    empty has a result. *)
Lemma compute_baseline_total {cfg : Config} device_id samples options
    device_state ach_origin allow_update :
  samples <> [] ->
  exists res upd,
    compute_baseline device_id samples options device_state ach_origin allow_update
      = Ok (res, upd).
Proof.
  intros Hne. unfold compute_baseline.
  destruct (last (py_sorted s_timestamp samples)) eqn:Hlast.
  - destruct (assess_smoke _ _) as [smoke_info smoke_state].
    destruct (compute_occupancy _ _ _ _ _) as [occ occ_upd]. eauto.
  - exfalso. apply last_None in Hlast. destruct samples as [|s rest]; [congruence|].
    simpl in Hlast. destruct (py_sorted s_timestamp rest); simpl in Hlast;
      [discriminate|]. case_decide; discriminate.
Qed.

Local Existing Instance default_config.

Lemma office_occupancy t allow :
  compute_occupancy [office_sample t] BaselineOptions_new "default" allow None =
  ({| n_estimate := 25 / 3; ach_used := 1.0; ach_source := "default";
      note := "ach_source=default; ma3_co2_smoothing; steady_state_estimate" |},
   (None, None)).
Proof.
  assert (Hg : py_max (if bool_decide (LITERAL_G_PERSON <> 0)
                       then LITERAL_G_PERSON else LITERAL_G_PERSON) 1e-9
               = LITERAL_G_PERSON).
  { unfold py_max, LITERAL_G_PERSON. case_bool_decide; case_decide; lra. }
  assert (Hma : from_end 1 0 (_moving_average [900] 3) = 900).
  { unfold _moving_average, from_end. simpl. unfold py_sum. simpl. lra. }
  unfold compute_occupancy. simpl. rewrite Hg, Hma.
  assert (He : py_max 0.0 (DEFAULT_ACH * LITERAL_VOLUME_M3 / 3600.0
                           * (900 / 1e6 - DEFAULT_COUT_PPM / 1e6) / LITERAL_G_PERSON)
               = 25 / 3).
  { unfold py_max, DEFAULT_ACH, LITERAL_VOLUME_M3, DEFAULT_COUT_PPM, LITERAL_G_PERSON.
    destruct (decide (_ < _)); lra. }
  destruct allow; simpl; rewrite He; reflexivity.
Qed.

(** C2. The baseline computation on the single reading
    [{co2: 900, voc: 300, pm25: 10, temp_c: 22, rh: 45}] of device
    ["office_iaq"] with the default parameters succeeds; with one point
    there is no derivative, the estimate is the steady-state value
    [Q * (C_t - C_out) / g = 25 / 3], about 8.33 occupants, and the note
    is ["ach_source=default; ma3_co2_smoothing; steady_state_estimate"],
    which names the steady-state fallback. *)
Theorem office_scenario_occupancy :
  forall (t : datetime) (allow_update : bool),
  exists res upd,
    compute_baseline "office_iaq" [office_sample t] BaselineOptions_new None
                     "default" allow_update = Ok (res, upd) /\
    n_estimate (res_occupancy res) = 25 / 3 /\
    n_estimate (res_occupancy res) =
      DEFAULT_ACH * LITERAL_VOLUME_M3 / 3600
      * (900 / 1e6 - DEFAULT_COUT_PPM / 1e6) / LITERAL_G_PERSON /\
    note (res_occupancy res) =
      "ach_source=default; ma3_co2_smoothing; steady_state_estimate" /\
    contains "steady_state_estimate" (note (res_occupancy res)) = true.
Proof.
  intros t allow_update.
  destruct (compute_baseline_total "office_iaq" [office_sample t] BaselineOptions_new
              None "default" allow_update) as (res & upd & Hrun); [discriminate|].
  exists res, upd. split; [exact Hrun|].
  apply compute_baseline_occupancy in Hrun. simpl py_sorted in Hrun.
  rewrite office_occupancy in Hrun. rewrite Hrun. simpl.
  split; [reflexivity|]. split; [|split; reflexivity].
  unfold DEFAULT_ACH, LITERAL_VOLUME_M3, DEFAULT_COUT_PPM, LITERAL_G_PERSON. lra.
Qed.

(** The scenario at instant 0, with the decay re-estimate allowed: the
    computation succeeds and its occupancy estimate is not zero. *)
Lemma office_scenario_occupancy_not_zero :
  exists res upd,
    compute_baseline "office_iaq" [office_sample 0%Z] BaselineOptions_new None
                     "default" true = Ok (res, upd) /\
    n_estimate (res_occupancy res) <> 0.
Proof.
  destruct (compute_baseline_total "office_iaq" [office_sample 0%Z]
              BaselineOptions_new None "default" true)
    as (res & upd & Hrun); [discriminate|].
  exists res, upd. split; [exact Hrun|].
  apply compute_baseline_occupancy in Hrun. simpl py_sorted in Hrun.
  rewrite office_occupancy in Hrun. rewrite Hrun. simpl. lra.
Qed.
End Scenario.

(** ** NowCast smoothing *)

Section NowcastFacts.
Local Open Scope R_scope.

Lemma foldl_py_max_spec (xs : list R) : forall a,
  a <= foldl py_max a xs /\
  (forall x, x ∈ xs -> x <= foldl py_max a xs) /\
  (foldl py_max a xs = a \/ foldl py_max a xs ∈ xs).
Proof.
induction xs as [|y xs IH]; intros a; simpl.
- split; [lra|]. split; [|left; reflexivity].
  intros x Hx. apply elem_of_nil in Hx. contradiction.
- destruct (IH (py_max a y)) as (Hge & Hall & Hmem).
  pose proof (py_max_lower a y). pose proof (py_max_upper a y).
  split; [lra|]. split.
  + intros x Hx. apply elem_of_cons in Hx as [-> | Hx]; [lra | auto].
  + destruct Hmem as [Heq | Hin].
    * rewrite Heq. unfold py_max. case_decide; [right; left | left; reflexivity].
    * right. right. exact Hin.
Qed.

Lemma foldl_py_min_spec (xs : list R) : forall a,
  foldl py_min a xs <= a /\
  (forall x, x ∈ xs -> foldl py_min a xs <= x) /\
  (foldl py_min a xs = a \/ foldl py_min a xs ∈ xs).
Proof.
induction xs as [|y xs IH]; intros a; simpl.
- split; [lra|]. split; [|left; reflexivity].
  intros x Hx. apply elem_of_nil in Hx. contradiction.
- destruct (IH (py_min a y)) as (Hge & Hall & Hmem).
  assert (py_min a y <= a /\ py_min a y <= y) as [? ?]
    by (unfold py_min; case_decide; lra).
  split; [lra|]. split.
  + intros x Hx. apply elem_of_cons in Hx as [-> | Hx]; [lra | auto].
  + destruct Hmem as [Heq | Hin].
    * rewrite Heq. unfold py_min. case_decide; [right; left | left; reflexivity].
    * right. right. exact Hin.
Qed.

(** [max(xs)] is an element of [xs] above all the others. *)
Lemma py_list_max_spec d xs :
  xs <> [] ->
  py_list_max d xs ∈ xs /\ forall x, x ∈ xs -> x <= py_list_max d xs.
Proof.
destruct xs as [|a xs]; [congruence|]. intros _. simpl.
destruct (foldl_py_max_spec xs a) as (Hge & Hall & Hmem). split.
- destruct Hmem as [-> | Hin]; [left | right; exact Hin].
- intros x Hx. apply elem_of_cons in Hx as [-> | Hx]; auto.
Qed.

(** [min(xs)] is an element of [xs] below all the others. *)
Lemma py_list_min_spec d xs :
  xs <> [] ->
  py_list_min d xs ∈ xs /\ forall x, x ∈ xs -> py_list_min d xs <= x.
Proof.
destruct xs as [|a xs]; [congruence|]. intros _. simpl.
destruct (foldl_py_min_spec xs a) as (Hge & Hall & Hmem). split.
- destruct Hmem as [-> | Hin]; [left | right; exact Hin].
- intros x Hx. apply elem_of_cons in Hx as [-> | Hx]; auto.
Qed.

Lemma quotient_between lo hi num den :
  0 < den -> lo * den <= num -> num <= hi * den -> lo <= num / den <= hi.
Proof.
intros Hden Hlo Hhi.
assert (Hinv : 0 < / den) by (apply Rinv_0_lt_compat; exact Hden).
assert (Hone : den * / den = 1) by (apply Rinv_r; lra).
unfold Rdiv. split.
- replace lo with (lo * den * / den) by (rewrite Rmult_assoc, Hone; ring).
  apply Rmult_le_compat_r; lra.
- replace hi with (hi * den * / den) by (rewrite Rmult_assoc, Hone; ring).
  apply Rmult_le_compat_r; lra.
Qed.

(** The invariant of the accumulation loop: the numerator stays between
    [lo] and [hi] times the sum of the weights, which only grows. *)
Lemma nowcast_loop_invariant weight lo hi (rev_tail : list R) :
  0 < weight ->
  (forall v, v ∈ rev_tail -> lo <= v <= hi) ->
  forall i numerator denom_sum,
    0 <= denom_sum ->
    lo * denom_sum <= numerator <= hi * denom_sum ->
    let out := nowcast_loop weight i rev_tail numerator denom_sum in
    denom_sum <= snd out /\
    (rev_tail <> [] -> denom_sum + weight ^ i <= snd out) /\
    lo * snd out <= fst out <= hi * snd out.
Proof.
intros Hw. induction rev_tail as [|value rest IH]; intros Hvals i num den Hden Hnum.
- simpl. split; [lra|]. split; [congruence | exact Hnum].
- simpl.
  assert (Hwi : 0 < weight ^ i) by (apply pow_lt; exact Hw).
  assert (Hv : lo <= value <= hi) by (apply Hvals; left).
  destruct (IH (fun v Hin => Hvals v (list_elem_of_further _ _ _ Hin))
               (S i) (num + weight ^ i * value) (den + weight ^ i))
    as (Hmono & _ & Hbounds).
  + lra.
  + split; nra.
  + split; [lra|]. split; [intros _; lra | exact Hbounds].
Qed.

Lemma omap_Some_id (l : list R) : omap (fun v : option R => v) (Some <$> l) = l.
Proof. induction l as [|x l IH]; csimpl; [reflexivity | rewrite IH; reflexivity]. Qed.

Lemma last_n_nonempty {A} n (xs : list A) : (0 < n)%nat -> xs <> [] -> last_n n xs <> [].
Proof.
intros Hn Hxs Hnil. unfold last_n in Hnil.
apply (f_equal length) in Hnil. rewrite length_drop in Hnil. simpl in Hnil.
destruct xs; [congruence|]. simpl in Hnil. lia.
Qed.

Lemma last_n_short {A} n (xs : list A) : (length xs <= n)%nat -> last_n n xs = xs.
Proof.
intros H. unfold last_n. replace (length xs - n)%nat with 0%nat by lia. reflexivity.
Qed.

(** C10. In exact real arithmetic: for every non-empty sequence of PM2.5
    values, none of them null, [compute_nowcast_pm25] returns a value
    between the minimum [lo] and the maximum [hi] of the last (at most)
    twelve values; a single value comes back unchanged, and a constant
    series gives its constant.  In binary64 the bounds hold up to
    rounding only: the series [0.1, 0.1, 0.1] gives
    [0.10000000000000002]. *)
Theorem nowcast_within_window (l : list R) :
  l <> [] ->
  exists r lo hi,
    compute_nowcast_pm25 (Some <$> l) = Some r /\
    lo ∈ last_n 12 l /\ hi ∈ last_n 12 l /\
    (forall x, x ∈ last_n 12 l -> lo <= x <= hi) /\
    lo <= r <= hi /\
    (forall v, l = [v] -> r = v) /\
    (forall c, Forall (eq c) l -> r = c).
Proof.
intros Hne.
set (w := last_n 12 l).
assert (Hw : w <> []) by (apply last_n_nonempty; [lia | exact Hne]).
destruct (py_list_max_spec 0 w Hw) as [Hmax_in Hmax].
destruct (py_list_min_spec 0 w Hw) as [Hmin_in Hmin].
set (hi := py_list_max 0 w) in *. set (lo := py_list_min 0 w) in *.
assert (Hconst : forall r c, lo <= r <= hi -> Forall (eq c) l -> r = c).
{ intros r c Hr Hall.
  assert (Hsub : forall x, x ∈ w -> x = c).
  { intros x Hx. unfold w, last_n in Hx. apply list_elem_of_lookup in Hx as [k Hk].
    rewrite lookup_drop in Hk. rewrite Forall_lookup in Hall. symmetry. eauto. }
  rewrite (Hsub _ Hmax_in) in Hr. rewrite (Hsub _ Hmin_in) in Hr. lra. }
unfold compute_nowcast_pm25. rewrite omap_Some_id.
destruct l as [|a [|b rest]]; [congruence | |].
- (* a single value *)
  exists a, lo, hi.
  assert (Ha : a ∈ w) by (unfold w; rewrite last_n_short by (simpl; lia); left).
  assert (lo <= a <= hi) by (split; [apply Hmin | apply Hmax]; exact Ha).
  repeat split; try assumption; try (apply Hmin; assumption);
    try (apply Hmax; assumption); try lra.
  + intros v [= ->]. reflexivity.
  + intros c Hall. apply Hconst; assumption.
- (* at least two values *)
  fold w. fold hi. fold lo.
  set (weight := py_max 0.5 (1.0 - (hi - lo) / py_max hi 1e-6)).
  assert (Hweight : 0 < weight) by (pose proof (py_max_lower 0.5 (1.0 - (hi - lo) / py_max hi 1e-6)); unfold weight; lra).
  assert (Hvals : forall v, v ∈ reverse w -> lo <= v <= hi).
  { intros v Hv. rewrite elem_of_reverse in Hv. split; [apply Hmin | apply Hmax]; exact Hv. }
  assert (Hrev : reverse w <> []).
  { intros Hnil. apply Hw. apply (f_equal reverse) in Hnil.
    rewrite reverse_involutive in Hnil. exact Hnil. }
  pose proof (nowcast_loop_invariant weight lo hi (reverse w) Hweight Hvals
                0%nat 0.0 0.0 ltac:(lra) ltac:(lra)) as Hinv.
  simpl in Hinv.
  destruct (nowcast_loop weight 0 (reverse w) 0.0 0.0) as [numerator denom_sum].
  simpl in Hinv. destruct Hinv as (_ & Hgrow & Hbounds).
  specialize (Hgrow Hrev).
  assert (Hden : 0 < denom_sum) by lra.
  case_decide as Hnz; [|exfalso; lra].
  assert (Hr : lo <= numerator / denom_sum <= hi)
    by (apply quotient_between; [exact Hden | apply Hbounds | apply Hbounds]).
  exists (numerator / denom_sum), lo, hi.
  split; [reflexivity|]. split; [exact Hmin_in|]. split; [exact Hmax_in|].
  split; [intros x Hx; split; [apply Hmin | apply Hmax]; exact Hx|].
  split; [exact Hr|]. split.
  + intros v [=].
  + intros c Hall. apply Hconst; assumption.
Qed.

(** The bounds on the series [10; 20]. *)
Lemma nowcast_within_window_example :
  ([10; 20] : list R) <> [] /\
  exists r lo hi,
    compute_nowcast_pm25 (Some <$> [10; 20]) = Some r /\ lo <= r <= hi /\
    lo ∈ last_n 12 [10; 20] /\ hi ∈ last_n 12 [10; 20].
Proof.
split; [discriminate|].
destruct (nowcast_within_window [10; 20]) as (r & lo & hi & Hr & Hlo & Hhi & _ & Hb & _);
  [discriminate|].
exists r, lo, hi. repeat split; try assumption; apply Hb.
Defined.

(** A single value comes back unchanged in binary64 as well: no
    arithmetic is done on it. *)
Lemma nowcast_single_value_binary64 v :
  Binary64.compute_nowcast_pm25 [Some v] = Some v.
Proof. reflexivity. Qed.

(** In binary64 the constant series [0.1, 0.1, 0.1] gives
    [0.10000000000000002]: the sum of the three readings rounds up to
    [0.30000000000000004] before the division by [3.0], so the result is
    above the maximum of the window and is not the constant. *)
Lemma nowcast_constant_series_rounds_up :
  Binary64.compute_nowcast_pm25
    [Some Binary64.tenth; Some Binary64.tenth; Some Binary64.tenth]
    = Some Binary64.tenth_up /\
  PrimFloat.ltb Binary64.tenth Binary64.tenth_up = true.
Proof. split; vm_compute; reflexivity. Qed.
End NowcastFacts.

(** ** The smoke detector *)

Section SmokeFacts.
Context {cfg : Config}.
Local Open Scope R_scope.

(** An evaluation without any NowCast point leaves the state as it is. *)
Lemma assess_smoke_no_point state :
  snd (assess_smoke [] (Some state)) = state /\
  smoke_present (fst (assess_smoke [] (Some state))) = false /\
  reason (fst (assess_smoke [] (Some state))) = "insufficient".
Proof. repeat split. Qed.

(** The transition function, case by case. *)
Lemma smoke_step_cases state s :
  smoke_step state s =
  if bool_decide (trigger_met s) then
    {| active := true; consecutive_below := 0; last_reason := "rapid_rise" |}
  else if active state then
    if decide (below_clear s) then
      if decide (SMOKE_CONSECUTIVE <= consecutive_below state + 1)%Z then
        {| active := false; consecutive_below := 0; last_reason := "clearing" |}
      else
        {| active := true; consecutive_below := consecutive_below state + 1;
           last_reason := "hysteresis_hold" |}
    else {| active := true; consecutive_below := 0; last_reason := "hysteresis_hold" |}
  else {| active := false; consecutive_below := 0; last_reason := "below_threshold" |}.
Proof.
destruct s as [p rest].
unfold smoke_step, assess_smoke, trigger_met, below_clear, rise_of, latest_of,
  latest_point, clear_threshold, series_of.
cbn [fst snd default].
destruct (List.last (py_sorted fst (p :: rest)) (0%Z, 0)) as [latest_ts latest_val].
cbn [fst snd]. unfold Datatypes.id. rewrite bool_decide_and.
destruct (bool_decide (SMOKE_TRIGGER <= latest_val)), (bool_decide (SMOKE_MIN_RISE <= _));
  cbn [andb]; try reflexivity;
  destruct (active state); try reflexivity;
  repeat case_decide; try reflexivity; try contradiction; try lia.
Qed.

Lemma smoke_run_snoc state steps s :
  smoke_run state (steps ++ [s]) = smoke_step (smoke_run state steps) s.
Proof. unfold smoke_run. rewrite foldl_app. reflexivity. Qed.

(** A step that ends active either met the trigger or started active. *)
Lemma smoke_step_active state s :
  active (smoke_step state s) = true -> trigger_met s \/ active state = true.
Proof.
rewrite smoke_step_cases. case_bool_decide as Ht; [left; exact Ht|].
destruct (active state); [right; reflexivity | discriminate].
Qed.

(** A step from active to inactive is a step below the clear threshold
    that completes the required count. *)
Lemma smoke_step_clears state s :
  active state = true -> active (smoke_step state s) = false ->
  below_clear s /\ ~ trigger_met s /\
  (SMOKE_CONSECUTIVE <= consecutive_below state + 1)%Z.
Proof.
intros Hact. rewrite smoke_step_cases, Hact.
case_bool_decide as Ht; [discriminate|].
case_decide as Hb; [|discriminate]. case_decide as Hn; [|discriminate].
intros _. repeat split; assumption.
Qed.

(** A step above the clear threshold resets the counter. *)
Lemma smoke_step_resets state s :
  clear_threshold < latest_of s -> consecutive_below (smoke_step state s) = 0%Z.
Proof.
intros Habove. rewrite smoke_step_cases.
case_bool_decide; [reflexivity|]. destruct (active state); [|reflexivity].
case_decide as Hb; [|reflexivity]. unfold below_clear in Hb. lra.
Qed.

(** With a positive clear delta a step at or below the clear threshold is
    below the trigger threshold. *)
Lemma below_clear_not_trigger s :
  0 < SMOKE_CLEAR_DELTA -> below_clear s -> ~ trigger_met s.
Proof.
unfold below_clear, clear_threshold, trigger_met. intros Hd Hb [Ht _]. lra.
Qed.

(** From an inactive start, an active state carries in its counter the
    number of steps below the clear threshold taken since the counter
    was last zero, and that number is short of the required count. *)
Lemma smoke_run_invariant start steps :
  (1 <= SMOKE_CONSECUTIVE)%Z -> active start = false ->
  active (smoke_run start steps) = true ->
  exists pre blk,
    steps = pre ++ blk /\
    Z.of_nat (length blk) = consecutive_below (smoke_run start steps) /\
    Forall below_clear blk /\
    active (smoke_run start pre) = true /\
    consecutive_below (smoke_run start pre) = 0%Z /\
    (consecutive_below (smoke_run start steps) < SMOKE_CONSECUTIVE)%Z.
Proof.
intros HN Hstart.
induction steps as [|s steps IH] using rev_ind; intros Hact.
- simpl in Hact. congruence.
- rewrite smoke_run_snoc in *. rewrite smoke_step_cases in *.
  case_bool_decide as Ht.
  + exists (steps ++ [s]), []. rewrite app_nil_r, smoke_run_snoc, smoke_step_cases.
    rewrite bool_decide_eq_true_2 by exact Ht. simpl.
    repeat split; try constructor; lia.
  + destruct (active (smoke_run start steps)) eqn:Hprev; [|discriminate].
    case_decide as Hb.
    * case_decide as Hn; [discriminate|].
      destruct (IH eq_refl) as (pre & blk & -> & Hlen & Hblk & Hpa & Hpc & Hlt).
      exists pre, (blk ++ [s]). simpl.
      split; [rewrite app_assoc; reflexivity|].
      split; [rewrite length_app; simpl; lia|].
      split; [apply Forall_app; split; [exact Hblk | apply Forall_singleton; exact Hb]|].
      repeat split; try assumption. lia.
    * exists (steps ++ [s]), []. rewrite app_nil_r, smoke_run_snoc, smoke_step_cases.
      rewrite bool_decide_eq_false_2 by exact Ht. rewrite Hprev.
      case_decide; [contradiction|]. simpl. repeat split; try constructor; lia.
Qed.

(** An active state goes back to a trigger step taken from an inactive
    state, with nothing but active states since. *)
Lemma smoke_active_since_trigger start steps :
  active start = false ->
  active (smoke_run start steps) = true ->
  exists pre s post,
    steps = pre ++ s :: post /\
    active (smoke_run start pre) = false /\
    trigger_met s /\
    forall k, active (smoke_run start (pre ++ s :: take k post)) = true.
Proof.
intros Hstart.
induction steps as [|s steps IH] using rev_ind; intros Hact.
- simpl in Hact. congruence.
- rewrite smoke_run_snoc in Hact.
  destruct (active (smoke_run start steps)) eqn:Hprev.
  + destruct (IH eq_refl) as (pre & s0 & post & -> & Hpre & Ht & Hall).
    exists pre, s0, (post ++ [s]).
    split; [rewrite <- app_assoc; reflexivity|]. split; [exact Hpre|].
    split; [exact Ht|]. intros k.
    destruct (decide (k <= length post)%nat) as [Hk|Hk].
    * rewrite take_app_le by exact Hk. apply Hall.
    * rewrite take_ge by (rewrite length_app; simpl; lia).
      replace (pre ++ s0 :: post ++ [s]) with ((pre ++ s0 :: post) ++ [s])
        by (rewrite <- app_assoc; reflexivity).
      rewrite smoke_run_snoc. exact Hact.
  + destruct (smoke_step_active _ _ Hact) as [Ht | Habs]; [|congruence].
    exists steps, s, []. split; [reflexivity|]. split; [exact Hprev|].
    split; [exact Ht|]. intros k. rewrite take_nil, smoke_run_snoc. exact Hact.
Qed.

(** Fewer steps below the clear threshold than required hold the alarm. *)
Lemma smoke_holds_below_required state blk :
  0 < SMOKE_CLEAR_DELTA ->
  active state = true -> consecutive_below state = 0%Z ->
  Forall below_clear blk ->
  (Z.of_nat (length blk) < SMOKE_CONSECUTIVE)%Z ->
  active (smoke_run state blk) = true /\
  consecutive_below (smoke_run state blk) = Z.of_nat (length blk) /\
  (blk <> [] -> last_reason (smoke_run state blk) = "hysteresis_hold").
Proof.
intros Hd Hact Hzero.
induction blk as [|s blk IH] using rev_ind; intros Hblk Hlen.
- simpl. repeat split; [exact Hact | exact Hzero | congruence].
- apply Forall_app in Hblk as [Hblk Hs]. apply Forall_cons in Hs as [Hs _].
  rewrite length_app in Hlen. simpl in Hlen.
  destruct (IH Hblk ltac:(lia)) as (Ha & Hc & _).
  rewrite smoke_run_snoc, smoke_step_cases.
  rewrite bool_decide_eq_false_2 by (apply below_clear_not_trigger; assumption).
  rewrite Ha. case_decide; [|contradiction].
  case_decide; [lia|]. simpl. rewrite length_app. simpl.
  repeat split; lia.
Qed.

(** The required number of steps below the clear threshold clears it. *)
Lemma smoke_clears_at_required state blk :
  (1 <= SMOKE_CONSECUTIVE)%Z -> 0 < SMOKE_CLEAR_DELTA ->
  active state = true -> consecutive_below state = 0%Z ->
  Forall below_clear blk ->
  Z.of_nat (length blk) = SMOKE_CONSECUTIVE ->
  smoke_run state blk =
    {| active := false; consecutive_below := 0; last_reason := "clearing" |}.
Proof.
intros HN Hd Hact Hzero Hblk Hlen.
destruct blk as [|s blk _] using rev_ind; [simpl in Hlen; lia|].
apply Forall_app in Hblk as [Hblk Hs]. apply Forall_cons in Hs as [Hs _].
rewrite length_app in Hlen. simpl in Hlen.
destruct (smoke_holds_below_required state blk Hd Hact Hzero Hblk ltac:(lia))
  as (Ha & Hc & _).
rewrite smoke_run_snoc, smoke_step_cases.
rewrite bool_decide_eq_false_2 by (apply below_clear_not_trigger; assumption).
rewrite Ha. case_decide; [|contradiction].
case_decide; [reflexivity | lia].
Qed.

(** An active state whose counter is zero was reached by a step above the
    clear threshold: the block of steps counted after it cannot be
    extended to the left. *)
Lemma smoke_counter_zero_after start pre :
  (1 <= SMOKE_CONSECUTIVE)%Z -> 0 < SMOKE_CLEAR_DELTA ->
  active start = false ->
  active (smoke_run start pre) = true ->
  consecutive_below (smoke_run start pre) = 0%Z ->
  exists pre0 s0, pre = pre0 ++ [s0] /\ ~ below_clear s0.
Proof.
intros HN Hd Hstart Hact Hzero.
destruct pre as [|s0 pre0 _] using rev_ind; [simpl in Hact; congruence|].
exists pre0, s0. split; [reflexivity|]. intros Hb.
rewrite smoke_run_snoc, smoke_step_cases in Hact, Hzero.
rewrite bool_decide_eq_false_2 in Hact, Hzero
  by (apply below_clear_not_trigger; assumption).
destruct (active (smoke_run start pre0)) eqn:Hprev; [|discriminate].
destruct (smoke_run_invariant start pre0 HN Hstart Hprev)
  as (_ & blk & _ & Hlen & _).
case_decide; [|contradiction].
case_decide; [discriminate|]. simpl in Hzero. lia.
Qed.

(** C4. Over every sequence of smoke-detector steps that starts from an
    inactive state, with a required count of at least one and a positive
    clear delta:
    - an active state goes back to a step that met
      [latest >= trigger AND rise >= min_rise], taken from an inactive
      state and followed by active states only;
    - a step that returns from active to inactive completes a block of
      exactly [SMOKE_CONSECUTIVE] consecutive steps with
      [latest <= clear_threshold], counted from an active state whose
      counter was zero and preceded by a step above the clear threshold;
    - counted from such a state, fewer such steps than required keep the
      state active with reason [hysteresis_hold], and exactly the required
      number returns it to inactive with reason [clearing];
    - a step with [latest > clear_threshold] leaves the counter at 0. *)
Theorem smoke_hysteresis :
  (1 <= SMOKE_CONSECUTIVE)%Z -> 0 < SMOKE_CLEAR_DELTA ->
  (forall start steps,
     active start = false ->
     active (smoke_run start steps) = true ->
     exists pre s post,
       steps = pre ++ s :: post /\
       active (smoke_run start pre) = false /\
       trigger_met s /\
       forall k, active (smoke_run start (pre ++ s :: take k post)) = true) /\
  (forall start steps s,
     active start = false ->
     active (smoke_run start steps) = true ->
     active (smoke_run start (steps ++ [s])) = false ->
     exists pre blk,
       steps ++ [s] = pre ++ blk /\
       Z.of_nat (length blk) = SMOKE_CONSECUTIVE /\
       Forall below_clear blk /\
       active (smoke_run start pre) = true /\
       consecutive_below (smoke_run start pre) = 0%Z /\
       exists pre0 s0, pre = pre0 ++ [s0] /\ ~ below_clear s0) /\
  (forall state blk,
     active state = true -> consecutive_below state = 0%Z ->
     Forall below_clear blk ->
     ((Z.of_nat (length blk) < SMOKE_CONSECUTIVE)%Z ->
      active (smoke_run state blk) = true /\
      (blk <> [] -> last_reason (smoke_run state blk) = "hysteresis_hold")) /\
     (Z.of_nat (length blk) = SMOKE_CONSECUTIVE ->
      active (smoke_run state blk) = false /\
      last_reason (smoke_run state blk) = "clearing")) /\
  (forall state s,
     clear_threshold < latest_of s ->
     consecutive_below (smoke_step state s) = 0%Z).
Proof.
intros HN Hd. split; [|split; [|split]].
- intros start steps Hstart Hact. apply smoke_active_since_trigger; assumption.
- intros start steps s Hstart Hact Hoff.
  destruct (smoke_run_invariant start steps HN Hstart Hact)
    as (pre & blk & -> & Hlen & Hblk & Hpa & Hpc & Hlt).
  rewrite smoke_run_snoc in Hoff.
  destruct (smoke_step_clears _ _ Hact Hoff) as (Hb & _ & Hn).
  exists pre, (blk ++ [s]).
  split; [rewrite app_assoc; reflexivity|].
  split; [rewrite length_app; simpl; lia|].
  split; [apply Forall_app; split; [exact Hblk | apply Forall_singleton; exact Hb]|].
  split; [exact Hpa|]. split; [exact Hpc|].
  apply (smoke_counter_zero_after start pre HN Hd Hstart Hpa Hpc).
- intros state blk Hact Hzero Hblk. split.
  + intros Hlen.
    destruct (smoke_holds_below_required state blk Hd Hact Hzero Hblk Hlen)
      as (Ha & _ & Hr). split; assumption.
  + intros Hlen.
    rewrite (smoke_clears_at_required state blk HN Hd Hact Hzero Hblk Hlen).
    split; reflexivity.
- intros state s. apply smoke_step_resets.
Qed.
End SmokeFacts.

Section SmokeDefault.
Local Open Scope R_scope.
Local Existing Instance default_config.
Local Arguments IZR : simpl never.
Local Arguments Z.pow_pos : simpl never.

(** The default thresholds, on a device whose alarm has just been raised:
    a first step at 20 (below the clear threshold 30) holds the alarm with
    reason [hysteresis_hold], a second one at 25 clears it. *)
Lemma smoke_hysteresis_default :
  (1 <= SMOKE_CONSECUTIVE)%Z /\ 0 < SMOKE_CLEAR_DELTA /\
  let raised :=
    {| active := true; consecutive_below := 0; last_reason := "rapid_rise" |} in
  let s1 : Step := ((0%Z, 20), []) in
  let s2 : Step := ((60000000%Z, 25), []) in
  (active (smoke_run raised [s1]) = true /\
   last_reason (smoke_run raised [s1]) = "hysteresis_hold") /\
  (active (smoke_run raised [s1; s2]) = false /\
   last_reason (smoke_run raised [s1; s2]) = "clearing").
Proof.
assert (HN : (1 <= SMOKE_CONSECUTIVE)%Z) by (simpl; unfold DEFAULT_SMOKE_CONSECUTIVE; lia).
assert (Hd : 0 < SMOKE_CLEAR_DELTA) by (simpl; unfold DEFAULT_SMOKE_CLEAR_DELTA; lra).
split; [exact HN|]. split; [exact Hd|]. intros raised s1 s2.
destruct (smoke_hysteresis HN Hd) as (_ & _ & Hblock & _).
assert (H1 : below_clear s1).
{ unfold below_clear, latest_of, latest_point, clear_threshold. simpl.
  unfold DEFAULT_SMOKE_TRIGGER, DEFAULT_SMOKE_CLEAR_DELTA. lra. }
assert (H2 : below_clear s2).
{ unfold below_clear, latest_of, latest_point, clear_threshold. simpl.
  unfold DEFAULT_SMOKE_TRIGGER, DEFAULT_SMOKE_CLEAR_DELTA. lra. }
split.
- destruct (Hblock raised [s1] eq_refl eq_refl) as [Hhold _].
  + apply Forall_singleton. exact H1.
  + destruct Hhold as [Ha Hr].
    * simpl. unfold DEFAULT_SMOKE_CONSECUTIVE. lia.
    * split; [exact Ha | apply Hr; discriminate].
- destruct (Hblock raised [s1; s2] eq_refl eq_refl) as [_ Hclear].
  + apply Forall_cons. split; [exact H1 | apply Forall_singleton; exact H2].
  + apply Hclear. reflexivity.
Defined.

(** A run on the default thresholds, from a fresh device: a jump from 5
    to 40 within ten minutes raises the alarm, a reading of 32 (between
    the clear threshold and the trigger) holds it, two readings at or
    below 30 clear it. *)
Lemma smoke_default_run :
  let jump : Step := ((0%Z, 5), [(600000000%Z, 40)]) in
  let mid : Step := ((0%Z, 32), []) in
  let low : Step := ((0%Z, 30), []) in
  smoke_run SmokeState_new [jump] =
    {| active := true; consecutive_below := 0; last_reason := "rapid_rise" |} /\
  smoke_run SmokeState_new [jump; mid] =
    {| active := true; consecutive_below := 0; last_reason := "hysteresis_hold" |} /\
  smoke_run SmokeState_new [jump; mid; low] =
    {| active := true; consecutive_below := 1; last_reason := "hysteresis_hold" |} /\
  smoke_run SmokeState_new [jump; mid; low; low] =
    {| active := false; consecutive_below := 0; last_reason := "clearing" |}.
Proof.
intros jump mid low.
assert (Hjump : forall st, smoke_step st jump =
  {| active := true; consecutive_below := 0; last_reason := "rapid_rise" |}).
{ intros st. rewrite smoke_step_cases. rewrite bool_decide_eq_true_2; [reflexivity|].
  unfold trigger_met, rise_of, latest_of, latest_point, previous_of. simpl.
  unfold DEFAULT_SMOKE_TRIGGER, DEFAULT_SMOKE_MIN_RISE. lra. }
assert (Hmid : ~ trigger_met mid /\ ~ below_clear mid).
{ unfold trigger_met, below_clear, clear_threshold, rise_of, latest_of, latest_point,
    previous_of. simpl.
  unfold DEFAULT_SMOKE_TRIGGER, DEFAULT_SMOKE_MIN_RISE, DEFAULT_SMOKE_CLEAR_DELTA. lra. }
assert (Hlow : ~ trigger_met low /\ below_clear low).
{ unfold trigger_met, below_clear, clear_threshold, rise_of, latest_of, latest_point,
    previous_of. simpl.
  unfold DEFAULT_SMOKE_TRIGGER, DEFAULT_SMOKE_MIN_RISE, DEFAULT_SMOKE_CLEAR_DELTA. lra. }
destruct Hmid as [Hmt Hmb]. destruct Hlow as [Hlt Hlb].
unfold smoke_run. simpl foldl. rewrite !Hjump.
assert (E2 : smoke_step
  {| active := true; consecutive_below := 0; last_reason := "rapid_rise" |} mid =
  {| active := true; consecutive_below := 0; last_reason := "hysteresis_hold" |}).
{ rewrite smoke_step_cases. rewrite bool_decide_eq_false_2 by exact Hmt. simpl.
  case_decide; [contradiction | reflexivity]. }
rewrite !E2.
assert (E3 : smoke_step
  {| active := true; consecutive_below := 0; last_reason := "hysteresis_hold" |} low =
  {| active := true; consecutive_below := 1; last_reason := "hysteresis_hold" |}).
{ rewrite smoke_step_cases. rewrite bool_decide_eq_false_2 by exact Hlt. simpl.
  case_decide; [reflexivity | contradiction]. }
rewrite !E3.
assert (E4 : smoke_step
  {| active := true; consecutive_below := 1; last_reason := "hysteresis_hold" |} low =
  {| active := false; consecutive_below := 0; last_reason := "clearing" |}).
{ rewrite smoke_step_cases. rewrite bool_decide_eq_false_2 by exact Hlt. simpl.
  case_decide; [reflexivity | contradiction]. }
rewrite E4. repeat split.
Qed.
End SmokeDefault.

(** ** Mode control *)

Section ModeFacts.

Lemma fullmatch_Alt r1 r2 s :
  fullmatch (Alt r1 r2) s = fullmatch r1 s || fullmatch r2 s.
Proof.
revert r1 r2. induction s as [|c s IH]; intros r1 r2; simpl; [reflexivity | apply IH].
Qed.

Lemma fullmatch_Cat_Void r s : fullmatch (Cat Void r) s = false.
Proof. induction s as [|c s IH]; simpl; [reflexivity | exact IH]. Qed.

Lemma fullmatch_Cat_Eps r s : fullmatch (Cat Eps r) s = fullmatch r s.
Proof.
destruct s as [|c s]; simpl; [reflexivity|].
rewrite fullmatch_Alt, fullmatch_Cat_Void. reflexivity.
Qed.

(** A literal matches itself and nothing else. *)
Lemma fullmatch_lit t s : fullmatch (lit t) s = true <-> s = t.
Proof.
revert s. induction t as [|c t IH]; intros s.
- destruct s as [|a s]; simpl; [tauto|].
  split; [|discriminate].
  assert (H : forall u, fullmatch Void u = false)
    by (intros u; induction u; simpl; auto).
  rewrite H. discriminate.
- destruct s as [|a s]; simpl; [split; discriminate|].
  destruct (Ascii.eqb_spec a c) as [-> | Hne].
  + rewrite fullmatch_Cat_Eps, IH. split; [intros ->; reflexivity | intros [= ->]; reflexivity].
  + rewrite fullmatch_Cat_Void. split; [discriminate | intros [= -> _]; congruence].
Qed.

(** The pattern of [ModeRequest] accepts the two mode names only. *)
Lemma mode_pattern_matches s :
  fullmatch MODE_PATTERN s = true <-> s = "baseline" \/ s = "ml".
Proof.
unfold MODE_PATTERN. rewrite fullmatch_Alt, orb_true_iff, !fullmatch_lit. tauto.
Qed.

(** Called directly, [set_mode] does not reject anything: whatever is not
    ["baseline"] selects the model-driven mode ["ml"]. *)
Lemma set_mode_coerces mode st :
  mode <> "baseline" -> _MODE (snd (set_mode mode st)) = "ml".
Proof. intros H. unfold set_mode. simpl. case_decide; [contradiction | reflexivity]. Qed.

(** C6. The mode endpoint validates its input against exactly the two
    mode names, ["baseline"] and ["ml"] (the model-driven mode): either
    the input is one of the two and becomes the stored mode, or it is any
    other string, the request is rejected with a validation error before
    [set_mode] runs, and the store, the mode included, is left as it was. *)
Theorem mode_validated_at_boundary :
  forall (body_mode : string) (st : Store),
    ((body_mode = "baseline" \/ body_mode = "ml") /\
     update_mode body_mode st =
       (Ok body_mode, {| _MODE := body_mode; _HISTORY := _HISTORY st;
                         _DEVICE_STATE := _DEVICE_STATE st;
                         _LAST_RESULTS := _LAST_RESULTS st |})) \/
    (body_mode <> "baseline" /\ body_mode <> "ml" /\
     ModeRequest body_mode = Raise ValidationError /\
     update_mode body_mode st = (Raise ValidationError, st) /\
     _MODE (snd (update_mode body_mode st)) = _MODE st).
Proof.
intros body_mode st. unfold update_mode, ModeRequest, mbind, M_bind, lift.
destruct (fullmatch MODE_PATTERN body_mode) eqn:Hm.
- left. apply mode_pattern_matches in Hm. split; [exact Hm|].
  unfold set_mode. destruct Hm as [-> | ->]; reflexivity.
- right.
  assert (Hn : ~ (body_mode = "baseline" \/ body_mode = "ml")).
  { intros H. apply mode_pattern_matches in H. congruence. }
  repeat split; try reflexivity; intros ->; apply Hn; auto.
Qed.

(** The mode endpoint on an input that is not one of the two names:
    rejected, store untouched. *)
Lemma mode_validated_at_boundary_example :
  update_mode "eco" initial_store = (Raise ValidationError, initial_store).
Proof.
destruct (mode_validated_at_boundary "eco" initial_store)
  as [[[H | H] _] | (_ & _ & _ & Hrej & _)]; [discriminate H | discriminate H | exact Hrej].
Defined.

(** The second mode goes by the name ["ml"] in the code: the endpoint
    rejects ["model-driven"], the store untouched, and accepts ["ml"],
    which becomes the stored mode. *)
Lemma mode_model_driven_rejected :
  update_mode "model-driven" initial_store = (Raise ValidationError, initial_store) /\
  update_mode "ml" initial_store =
    (Ok "ml", {| _MODE := "ml"; _HISTORY := _HISTORY initial_store;
                 _DEVICE_STATE := _DEVICE_STATE initial_store;
                 _LAST_RESULTS := _LAST_RESULTS initial_store |}).
Proof. split; reflexivity. Qed.
End ModeFacts.

(** ** Resolution of the physical parameters *)

Section ResolveFacts.
Context {cfg : Config}.
Local Open Scope R_scope.

Lemma float_or_first_nonzero x d : float_or x d = first_nonzero [x] d.
Proof.
unfold float_or, truthy. destruct x as [v|]; simpl; [|reflexivity].
case_bool_decide; case_decide; try reflexivity; contradiction.
Qed.

Lemma first_nonzero_cons x rest d :
  first_nonzero (x :: rest) d = float_or x (first_nonzero rest d).
Proof.
unfold float_or, truthy. destruct x as [v|]; simpl; [|reflexivity].
case_bool_decide; case_decide; try reflexivity; contradiction.
Qed.

(** [_state_for] returns the cached state and makes it the store's entry. *)
Lemma state_for_spec device_id st :
  _state_for device_id st =
    (Ok (cached_state device_id st),
     set_device_state (<[device_id := cached_state device_id st]> (_DEVICE_STATE st)) st).
Proof.
unfold _state_for, cached_state.
destruct (_DEVICE_STATE st !! device_id) as [state|] eqn:Hl; simpl; [|reflexivity].
f_equal. destruct st as [m h d l]. unfold set_device_state. simpl in *.
rewrite insert_id by exact Hl. reflexivity.
Qed.

(** C7. The physical parameters are resolved per call in the order
    explicit override, request value, cached device value, global
    default. For [ach] the first source that is present wins, a zero
    included; for [volume_m3], [cout_ppm] and [g_person] the first source
    that is present and not zero wins, a zero counting as absent. *)
Theorem resolve_options_precedence :
  forall device_id request volume_m3 ach cout_ppm g_per_person st,
    let state := cached_state device_id st in
    exists options ach_origin st',
      _resolve_options device_id request volume_m3 ach cout_ppm g_per_person st
        = (Ok (options, ach_origin), st') /\
      bo_volume_m3 options =
        first_nonzero [volume_m3; rq_volume_m3 request; Some (ds_volume_m3 state)]
                      DEFAULT_VOLUME_M3 /\
      bo_cout_ppm options =
        first_nonzero [cout_ppm; rq_cout_ppm request; Some (ds_cout_ppm state)]
                      DEFAULT_DEVICE_COUT_PPM /\
      bo_g_person options =
        first_nonzero [g_per_person; rq_g_per_person_m3_s request] (ds_g_person state) /\
      bo_ach options =
        Some (first_present [ach; rq_ach request; ds_ach state] DEFAULT_DEVICE_ACH) /\
      (forall a, ach = Some a -> bo_ach options = Some a) /\
      (forall v, volume_m3 = Some v -> v <> 0 -> bo_volume_m3 options = v) /\
      (forall v, cout_ppm = Some v -> v <> 0 -> bo_cout_ppm options = v) /\
      (forall v, g_per_person = Some v -> v <> 0 -> bo_g_person options = v).
Proof.
intros device_id request volume_m3 ach cout_ppm g_per_person st state.
unfold _resolve_options, mbind, M_bind. rewrite state_for_spec. fold state.
assert (Hach : exists a o,
  match ach with
  | Some a => (a, "provided")
  | None =>
      match rq_ach request with
      | Some a => (a, "provided")
      | None =>
          match ds_ach state with
          | Some a => (a, str_or (Some (ds_ach_source state)) "cached")
          | None => (DEFAULT_DEVICE_ACH, "default")
          end
      end
  end = (a, o) /\
  a = first_present [ach; rq_ach request; ds_ach state] DEFAULT_DEVICE_ACH).
{ destruct ach as [a|]; [eauto|]. destruct (rq_ach request) as [a|]; [eauto|].
  destruct (ds_ach state) as [a|]; eauto. }
destruct Hach as (a & o & -> & Ha).
eexists _, _, _. split; [reflexivity|]. cbn [bo_volume_m3 bo_cout_ppm bo_g_person bo_ach].
rewrite !first_nonzero_cons. cbn [first_nonzero].
repeat split; try reflexivity.
- rewrite Ha. reflexivity.
- intros a' ->. rewrite Ha. reflexivity.
- intros v -> Hv. unfold float_or at 1, truthy.
  rewrite bool_decide_eq_true_2 by exact Hv. reflexivity.
- intros v -> Hv. unfold float_or at 1, truthy.
  rewrite bool_decide_eq_true_2 by exact Hv. reflexivity.
- intros v -> Hv. unfold float_or at 1, truthy.
  rewrite bool_decide_eq_true_2 by exact Hv. reflexivity.
Qed.
End ResolveFacts.

Section ResolveDefault.
Local Open Scope R_scope.
Local Existing Instance default_config.

(** A request that carries a volume of 100 m3, called with an explicit
    volume override of 0: the override does not win, the request's value
    does. *)
Lemma resolve_options_zero_override_loses :
  let request :=
    {| rq_device_id := Some "lab"; rq_readings := []; rq_volume_m3 := Some 100;
       rq_ach := None; rq_cout_ppm := None; rq_g_per_person_m3_s := None |} in
  exists options ach_origin st',
    _resolve_options "lab" request (Some 0) None None None initial_store
      = (Ok (options, ach_origin), st') /\
    bo_volume_m3 options = 100 /\ bo_volume_m3 options <> 0.
Proof.
intros request.
unfold _resolve_options, mbind, M_bind. rewrite state_for_spec.
eexists _, _, _. split; [reflexivity|]. cbn [bo_volume_m3].
assert (E : float_or (Some 0)
              (float_or (rq_volume_m3 request)
                 (float_or (Some (ds_volume_m3 (cached_state "lab" initial_store)))
                    DEFAULT_VOLUME_M3)) = 100).
{ unfold float_or, truthy, request. cbn [rq_volume_m3].
  rewrite (bool_decide_eq_false_2 (0 <> 0)) by (intros H; apply H; reflexivity).
  rewrite (bool_decide_eq_true_2 (100 <> 0)) by lra. reflexivity. }
rewrite E. split; [reflexivity | lra].
Qed.

(** The same request called with a volume override of 80 and a rate
    override of 0: both overrides win. *)
Lemma resolve_options_precedence_example :
  let request :=
    {| rq_device_id := Some "lab"; rq_readings := []; rq_volume_m3 := Some 100;
       rq_ach := Some 2; rq_cout_ppm := None; rq_g_per_person_m3_s := None |} in
  exists options ach_origin st',
    _resolve_options "lab" request (Some 80) (Some 0) None None initial_store
      = (Ok (options, ach_origin), st') /\
    bo_volume_m3 options = 80 /\ bo_ach options = Some 0.
Proof.
intros request.
destruct (resolve_options_precedence "lab" request (Some 80) (Some 0) None None
            initial_store)
  as (options & ach_origin & st' & Hrun & _ & _ & _ & _ & Hach & Hvol & _).
exists options, ach_origin, st'. split; [exact Hrun|]. split.
- apply Hvol; [reflexivity | lra].
- apply Hach. reflexivity.
Defined.
End ResolveDefault.

(** ** The orchestrator *)

Section ComputeFacts.
Context {cfg : Config} {lib : DatetimeLib} {pyd : Pydantic}.
Local Open Scope R_scope.

Lemma cached_state_after_state_for device_id st :
  cached_state device_id
    (set_device_state (<[device_id := cached_state device_id st]> (_DEVICE_STATE st)) st)
  = cached_state device_id st.
Proof.
unfold cached_state at 1. unfold set_device_state. cbn [_DEVICE_STATE].
rewrite lookup_insert_eq. reflexivity.
Qed.

Lemma state_for_idempotent device_id st :
  let st1 := snd (_state_for device_id st) in
  _state_for device_id st1 = (Ok (cached_state device_id st), st1).
Proof.
intros st1. unfold st1. rewrite !state_for_spec. cbn [snd].
rewrite cached_state_after_state_for. f_equal.
unfold set_device_state. cbn [_MODE _HISTORY _DEVICE_STATE _LAST_RESULTS].
rewrite insert_insert_eq. reflexivity.
Qed.

(** [_resolve_options] changes the store as [_state_for] does, and never
    raises. *)
Lemma resolve_options_store device_id request volume_m3 ach cout_ppm g_per_person st :
  exists resolved,
    _resolve_options device_id request volume_m3 ach cout_ppm g_per_person st
      = (Ok resolved, snd (_state_for device_id st)).
Proof.
unfold _resolve_options, mbind, M_bind. rewrite state_for_spec. cbn [snd].
destruct (match ach with Some a => _ | None => _ end) as [a o]. eexists. reflexivity.
Qed.

(** [_compute], step by step: the device's entry is created if missing,
    the options are resolved, the readings become samples, the baseline
    is computed, the context is committed under [update_state] only, and
    the result is stored as the device's last result. *)
Lemma compute_unfold request volume_m3 ach cout_ppm g_per_person update_state st :
  let device_id := str_or (rq_device_id request) "unknown" in
  let state := cached_state device_id st in
  let st1 := snd (_state_for device_id st) in
  exists options ach_origin,
    _resolve_options device_id request volume_m3 ach cout_ppm g_per_person st1
      = (Ok (options, ach_origin), st1) /\
    _compute request volume_m3 ach cout_ppm g_per_person update_state st =
      match _samples_from_request request with
      | Raise e => (Raise e, st1)
      | Ok [] => (Raise (ValueError "No valid readings provided"), st1)
      | Ok samples =>
          match compute_baseline device_id samples options (Some state)
                                 ach_origin update_state with
          | Raise e => (Raise e, st1)
          | Ok (result, updates) =>
              let st2 :=
                if update_state
                then snd (commit_updates device_id state options updates st1)
                else st1 in
              (Ok result,
               set_last_results (<[device_id := result]> (_LAST_RESULTS st2)) st2)
          end
      end.
Proof.
intros device_id state st1.
destruct (resolve_options_store device_id request volume_m3 ach cout_ppm
            g_per_person st1) as [[options ach_origin] Hres].
pose proof (state_for_idempotent device_id st) as Hidem. cbn zeta in Hidem.
fold st1 in Hidem. rewrite Hidem in Hres. cbn [snd] in Hres.
exists options, ach_origin. split; [exact Hres|].
assert (Hsf : _state_for device_id st = (Ok state, st1)).
{ unfold st1. rewrite state_for_spec. reflexivity. }
unfold _compute. fold device_id. unfold mbind.
unfold M_bind at 1. rewrite Hsf. unfold M_bind at 1. rewrite Hres.
unfold M_bind at 1. unfold lift at 1.
destruct (_samples_from_request request) as [[|s samples]|e]; try reflexivity.
unfold M_bind at 1. unfold lift at 1.
destruct (compute_baseline _ _ _ _ _ _) as [[result updates]|e]; [|reflexivity].
unfold M_bind, store_last_result, mret, M_ret.
destruct update_state; reflexivity.
Qed.

(** *** Readings that fail to parse *)

Lemma from_mapping_unparsable reading :
  unparsable reading -> exists msg, from_mapping reading = Raise (ValueError msg).
Proof. intros [msg H]. unfold from_mapping. rewrite H. eauto. Qed.

Lemma samples_loop_discard pre bad post : unparsable bad -> forall samples,
  samples_loop (pre ++ bad :: post) samples = samples_loop (pre ++ post) samples.
Proof.
intros Hbad. apply from_mapping_unparsable in Hbad as [msg Hbad].
induction pre as [|r pre IH]; intros samples; simpl.
- rewrite Hbad. reflexivity.
- destruct (from_mapping r) as [sample|[]]; try reflexivity; apply IH.
Qed.

Lemma samples_loop_none_valid readings : Forall unparsable readings -> forall samples,
  samples_loop readings samples = Ok samples.
Proof.
induction 1 as [|r readings Hr _ IH]; intros samples; simpl; [reflexivity|].
apply from_mapping_unparsable in Hr as [msg ->]. apply IH.
Qed.


(** *** Readings that parse *)

Lemma from_mapping_datetime r t :
  rd_timestamp r = PyDatetime t ->
  from_mapping r =
    Ok {| s_timestamp := t; s_device_id := str_or (rd_device_id r) "unknown";
          s_pm25 := rd_pm25 r; s_co2 := rd_co2 r; s_voc := rd_voc r;
          s_pm1 := rd_pm1 r; s_pm4 := rd_pm4 r; s_pm10 := rd_pm10 r;
          s_temp_c := rd_temp_c r; s_rh := rd_rh r |}.
Proof.
intros Ht. unfold from_mapping. rewrite Ht. cbn [_parse_timestamp].
unfold _to_float, opt_or. cbn [truthy].
destruct (rd_pm25 r), (rd_co2 r), (rd_voc r), (rd_pm1 r), (rd_pm4 r), (rd_pm10 r),
  (rd_temp_c r), (rd_rh r); reflexivity.
Qed.

Lemma samples_loop_all_valid readings :
  Forall (fun r => exists t, rd_timestamp r = PyDatetime t) readings ->
  forall acc, exists new,
    samples_loop readings acc = Ok (acc ++ new) /\
    Forall2 sample_matches readings new.
Proof.
induction 1 as [|r readings [t Ht] _ IH]; intros acc.
- exists []. rewrite app_nil_r. split; [reflexivity | constructor].
- cbn [samples_loop]. rewrite (from_mapping_datetime r t Ht).
  match goal with |- context [acc ++ [?s]] =>
    destruct (IH (acc ++ [s])) as (new & Hrun & Hall); exists (s :: new)
  end.
  split; [rewrite Hrun, <- app_assoc; reflexivity|].
  constructor; [|exact Hall].
  unfold sample_matches. cbn. rewrite Ht. repeat split.
Qed.

(** The loop keeps the readings that parse, in order, and skips the ones
    that are unparsable. *)
Lemma samples_loop_spec readings :
  Forall (fun r => unparsable r \/ exists t, _parse_timestamp (rd_timestamp r) = Ok t)
         readings ->
  forall acc, samples_loop readings acc = Ok (acc ++ omap parsed_sample readings).
Proof.
induction 1 as [|r readings Hr _ IH]; intros acc.
- cbn. rewrite app_nil_r. reflexivity.
- cbn [samples_loop]. unfold omap at 1. cbn [list_omap]. fold (omap parsed_sample readings).
  unfold parsed_sample at 1.
  destruct Hr as [Hbad | [t Ht]].
  + apply from_mapping_unparsable in Hbad as [msg ->]. apply IH.
  + unfold from_mapping at 1 2. rewrite Ht. rewrite IH, <- app_assoc. reflexivity.
Qed.

(** *** The streaming submission *)

Lemma str_or_fixed s d : d <> EmptyString -> str_or (Some (str_or s d)) d = str_or s d.
Proof.
intros Hd. unfold str_or. destruct s as [v|].
- destruct (decide (v = EmptyString)) as [->|Hv].
  + case_decide; reflexivity.
  + case_decide; [contradiction | reflexivity].
- case_decide; reflexivity.
Qed.

Lemma deque_append_nonempty maxlen buffer entry :
  (0 < maxlen)%nat -> deque_append maxlen buffer entry <> [].
Proof.
intros H. unfold deque_append. apply last_n_nonempty; [exact H|].
destruct buffer; discriminate.
Qed.

(** *** Validation *)

(** A reading that holds a [datetime] passes validation as it is. *)
Lemma validate_reading_datetime payload t :
  rd_timestamp payload = PyDatetime t -> validate_reading payload = Ok payload.
Proof.
intros Ht. unfold validate_reading. rewrite Ht, validate_datetime_object.
destruct payload. cbn in Ht. subst. reflexivity.
Qed.

(** A validated reading holds a [datetime], and differs from the payload
    in its timestamp only. *)
Lemma validate_reading_Ok payload reading :
  validate_reading payload = Ok reading ->
  exists t,
    validate_datetime (rd_timestamp payload) = Some t /\
    rd_timestamp reading = PyDatetime t /\
    rd_device_id reading = rd_device_id payload.
Proof.
unfold validate_reading.
destruct (validate_datetime (rd_timestamp payload)) as [t|]; [|discriminate].
intros [= <-]. exists t. repeat split.
Qed.

Lemma validate_readings_datetime payload :
  Forall (fun r => exists t, rd_timestamp r = PyDatetime t) payload ->
  validate_readings payload = Ok payload.
Proof.
induction 1 as [|r payload [t Ht] _ IH]; [reflexivity|].
cbn [validate_readings]. rewrite (validate_reading_datetime r t Ht), IH. reflexivity.
Qed.

Lemma validate_readings_Ok payload readings :
  validate_readings payload = Ok readings ->
  Forall (fun r => exists t, rd_timestamp r = PyDatetime t) readings /\
  length readings = length payload.
Proof.
revert readings. induction payload as [|p payload IH]; intros readings.
- intros [= <-]. split; [constructor | reflexivity].
- cbn [validate_readings].
  destruct (validate_reading p) as [r|] eqn:Hr; [|discriminate].
  destruct (validate_readings payload) as [rest|]; [|discriminate].
  intros [= <-]. destruct (IH rest eq_refl) as [Hall Hlen].
  apply validate_reading_Ok in Hr as (t & _ & Ht & _).
  split; [apply Forall_cons; split; [exists t; exact Ht | exact Hall]|].
  cbn [length]. rewrite Hlen. reflexivity.
Qed.

(** One reading that does not validate fails the list. *)
Lemma validate_readings_invalid payload bad :
  bad ∈ payload -> validate_datetime (rd_timestamp bad) = None ->
  validate_readings payload = Raise ValidationError.
Proof.
intros Hin Hbad. induction payload as [|p payload IH]; [inversion Hin|].
cbn [validate_readings]. apply elem_of_cons in Hin as [<- | Hin].
- unfold validate_reading. rewrite Hbad. reflexivity.
- rewrite (IH Hin). destruct (validate_reading p); reflexivity.
Qed.

(** A request whose readings hold a [datetime] passes validation as it
    is. *)
Lemma validate_request_datetime request :
  Forall (fun r => exists t, rd_timestamp r = PyDatetime t) (rq_readings request) ->
  validate_request request = Ok request.
Proof.
intros Hall. unfold validate_request. rewrite (validate_readings_datetime _ Hall).
destruct request. reflexivity.
Qed.

(** A validated request holds a [datetime] in every reading, and differs
    from the payload in the timestamps only. *)
Lemma validate_request_Ok payload request :
  validate_request payload = Ok request ->
  Forall (fun r => exists t, rd_timestamp r = PyDatetime t) (rq_readings request) /\
  length (rq_readings request) = length (rq_readings payload) /\
  rq_device_id request = rq_device_id payload /\
  rq_volume_m3 request = rq_volume_m3 payload /\
  rq_ach request = rq_ach payload /\
  rq_cout_ppm request = rq_cout_ppm payload /\
  rq_g_per_person_m3_s request = rq_g_per_person_m3_s payload.
Proof.
unfold validate_request.
destruct (validate_readings (rq_readings payload)) as [readings|] eqn:Hr; [|discriminate].
intros [= <-]. apply validate_readings_Ok in Hr as [Hall Hlen].
cbn. repeat split; assumption.
Qed.

(** A streaming submission whose timestamp is a [datetime]: the reading
    is appended to the device's buffer, and the buffer is computed on
    without commit. *)
Lemma compute_from_payload_unfold payload t volume_m3 ach cout_ppm g_per_person st :
  rd_timestamp payload = PyDatetime t ->
  let device_id := str_or (rd_device_id payload) "unknown" in
  let buffer :=
    deque_append HISTORY_MAXLEN (default [] (_HISTORY st !! device_id)) payload in
  let request :=
    {| rq_device_id := Some device_id; rq_readings := buffer;
       rq_volume_m3 := None; rq_ach := None; rq_cout_ppm := None;
       rq_g_per_person_m3_s := None |} in
  compute_from_payload payload volume_m3 ach cout_ppm g_per_person st =
    _compute request volume_m3 ach cout_ppm g_per_person false
             (set_history (<[device_id := buffer]> (_HISTORY st)) st).
Proof.
intros Hts device_id buffer request.
assert (Hbuf : buffer <> []) by (apply deque_append_nonempty; unfold HISTORY_MAXLEN; lia).
unfold request. clear request.
unfold compute_from_payload. rewrite (validate_reading_datetime payload t Hts).
unfold mbind at 1. unfold M_bind at 1, lift at 1.
unfold record_history, history_entry. fold device_id.
rewrite Hts. unfold mbind, M_bind at 1. unfold M_bind at 1. unfold M_bind at 1.
unfold lift. unfold M_bind at 1. unfold _history_for, get_store, put_store.
unfold buffer in *. clear buffer.
destruct (_HISTORY st !! device_id) as [old|] eqn:Hold;
  cbn [default from_option] in *; unfold Datatypes.id in *.
- unfold M_bind at 1. unfold build_request_from_history, mbind. unfold M_bind at 1.
  unfold _history_for. unfold set_history at 1. cbn [_HISTORY]. rewrite lookup_insert_eq.
  destruct (deque_append HISTORY_MAXLEN old payload) as [|b buffer']; [congruence|].
  unfold mret, M_ret. cbn [default from_option]. reflexivity.
- unfold M_bind at 1. unfold build_request_from_history, mbind. unfold M_bind at 1.
  unfold _history_for. unfold set_history at 1. cbn [_HISTORY]. rewrite lookup_insert_eq.
  unfold set_history. cbn [_MODE _HISTORY _DEVICE_STATE _LAST_RESULTS].
  rewrite insert_insert_eq.
  destruct (deque_append HISTORY_MAXLEN [] payload) as [|b buffer']; [congruence|].
  unfold mret, M_ret. cbn [default from_option]. reflexivity.
Qed.

(** A streaming submission whose timestamp does not validate is rejected
    before anything is stored. *)
Lemma compute_from_payload_invalid payload volume_m3 ach cout_ppm g_per_person st :
  validate_datetime (rd_timestamp payload) = None ->
  compute_from_payload payload volume_m3 ach cout_ppm g_per_person st
    = (Raise ValidationError, st).
Proof.
intros Hts. unfold compute_from_payload, validate_reading. rewrite Hts. reflexivity.
Qed.

End ComputeFacts.

Section ScenarioStreamed.
Context {lib : DatetimeLib} {pyd : Pydantic}.
Local Open Scope R_scope.
Local Existing Instance default_config.
Local Arguments IZR : simpl never.
Local Arguments Z.pow_pos : simpl never.

Lemma float_or_same d : float_or (Some d) d = d.
Proof. unfold float_or. destruct (truthy (Some d)); reflexivity. Qed.

(** The options of a device met for the first time, with no override and
    nothing in the request: the defaults, with the default rate. *)
Lemma resolve_options_fresh device_id request st :
  cached_state device_id st = DeviceState_new device_id ->
  rq_volume_m3 request = None -> rq_ach request = None ->
  rq_cout_ppm request = None -> rq_g_per_person_m3_s request = None ->
  fst (_resolve_options device_id request None None None None st) =
    Ok ({| bo_volume_m3 := LITERAL_VOLUME_M3; bo_ach := Some DEFAULT_ACH;
           bo_cout_ppm := DEFAULT_COUT_PPM; bo_g_person := LITERAL_G_PERSON |},
        "default").
Proof.
intros Hnew Hv Ha Hc Hg.
unfold _resolve_options, mbind, M_bind. rewrite state_for_spec.
rewrite Hnew, Hv, Ha, Hc, Hg.
cbn [default from_option DeviceState_new ds_volume_m3 ds_cout_ppm ds_ach ds_g_person
     float_or truthy fst mret M_ret].
change (@DEFAULT_VOLUME_M3 default_config) with LITERAL_VOLUME_M3.
change (@DEFAULT_DEVICE_COUT_PPM default_config) with DEFAULT_COUT_PPM.
change (@DEFAULT_G_PERSON default_config) with LITERAL_G_PERSON.
change (if bool_decide (LITERAL_VOLUME_M3 <> 0) then LITERAL_VOLUME_M3
        else LITERAL_VOLUME_M3) with (float_or (Some LITERAL_VOLUME_M3) LITERAL_VOLUME_M3).
change (if bool_decide (DEFAULT_COUT_PPM <> 0) then DEFAULT_COUT_PPM
        else DEFAULT_COUT_PPM) with (float_or (Some DEFAULT_COUT_PPM) DEFAULT_COUT_PPM).
rewrite !float_or_same. reflexivity.
Qed.

Lemma office_occupancy_resolved t allow cached :
  compute_occupancy [office_sample t]
    {| bo_volume_m3 := LITERAL_VOLUME_M3; bo_ach := Some DEFAULT_ACH;
       bo_cout_ppm := DEFAULT_COUT_PPM; bo_g_person := LITERAL_G_PERSON |}
    "default" allow cached =
  ({| n_estimate := 25 / 3; ach_used := 1.0; ach_source := "default";
      note := "ach_source=default; ma3_co2_smoothing; steady_state_estimate" |},
   (None, None)).
Proof.
assert (Hg : py_max (if bool_decide (LITERAL_G_PERSON <> 0)
                     then LITERAL_G_PERSON else LITERAL_G_PERSON) 1e-9
             = LITERAL_G_PERSON).
{ unfold py_max, LITERAL_G_PERSON. case_bool_decide; case_decide; lra. }
assert (Hma : from_end 1 0 (_moving_average [900] 3) = 900).
{ unfold _moving_average, from_end. simpl. unfold py_sum. simpl. lra. }
unfold compute_occupancy. simpl. rewrite Hg, Hma.
assert (He : py_max 0.0 (DEFAULT_ACH * LITERAL_VOLUME_M3 / 3600.0
                         * (900 / 1e6 - DEFAULT_COUT_PPM / 1e6) / LITERAL_G_PERSON)
             = 25 / 3).
{ unfold py_max, DEFAULT_ACH, LITERAL_VOLUME_M3, DEFAULT_COUT_PPM, LITERAL_G_PERSON.
  destruct (decide (_ < _)); lra. }
destruct allow; simpl; rewrite He; reflexivity.
Qed.

(** The scenario through the orchestrator: the reading streamed to a fresh
    process, whatever the datetime library, yields the same occupancy. *)
Lemma office_scenario_streamed (t : datetime) :
  exists result st',
    compute_from_payload (office_reading (PyDatetime t)) None None None None
                         initial_store = (Ok result, st') /\
    n_estimate (res_occupancy result) = 25 / 3 /\
    note (res_occupancy result) =
      "ach_source=default; ma3_co2_smoothing; steady_state_estimate".
Proof.
rewrite (compute_from_payload_unfold _ t) by reflexivity.
match goal with |- context [_compute ?rq _ _ _ _ _ ?s] =>
  destruct (compute_unfold rq None None None None false s)
    as (options & ach_origin & Hres & Hrun);
  pose proof (resolve_options_fresh "office_iaq" rq (snd (_state_for "office_iaq" s)))
    as Hfresh
end.
pose proof (f_equal fst Hres) as Hres1. cbn [fst] in Hres1.
assert (Hopt : Ok (options, ach_origin)
               = Ok ({| bo_volume_m3 := LITERAL_VOLUME_M3; bo_ach := Some DEFAULT_ACH;
                        bo_cout_ppm := DEFAULT_COUT_PPM;
                        bo_g_person := LITERAL_G_PERSON |}, "default"))
  by exact (eq_trans (eq_sym Hres1)
              (Hfresh eq_refl eq_refl eq_refl eq_refl eq_refl)).
injection Hopt as -> ->. clear Hfresh Hres1.
rewrite Hrun. clear Hrun Hres.
match goal with |- context [_samples_from_request ?rq] =>
  assert (Hs : _samples_from_request rq = Ok [office_sample t]) by reflexivity
end.
rewrite Hs.
match goal with |- context [compute_baseline ?d ?l ?o ?s ?a ?u] =>
  destruct (compute_baseline_total d l o s a u) as (result & updates & Hbase);
    [discriminate|];
  rewrite Hbase; apply compute_baseline_occupancy in Hbase
end.
simpl py_sorted in Hbase. rewrite office_occupancy_resolved in Hbase.
eexists result, _. split; [reflexivity|]. rewrite Hbase. split; reflexivity.
Qed.
End ScenarioStreamed.

Section ComputeExamples.
Local Open Scope R_scope.
Local Existing Instance default_config.
Local Existing Instance strict_lib.
Local Existing Instance strict_pydantic.
Local Arguments IZR : simpl never.
Local Arguments Z.pow_pos : simpl never.



End ComputeExamples.

(** * Further properties of the engine *)

(** ** Clamping and smoothing *)

Section ClampFacts.
Local Open Scope R_scope.

Lemma clamp_bounds value low high :
  low <= high ->
  low <= clamp value low high <= high /\
  (low <= value <= high -> clamp value low high = value).
Proof.
intros Hb. unfold clamp, py_max, py_min.
repeat (destruct (decide _)); split; try lra; intros; lra.
Qed.

(** X1. For bounds in order, [clamp] returns a value within the bounds,
    and returns its argument when that already lies within them. *)
Theorem clamp_within value low high :
  low <= high ->
  low <= clamp value low high <= high /\
  (low <= value <= high -> clamp value low high = value).
Proof. exact (clamp_bounds value low high). Qed.

Lemma clamp_within_example :
  0 <= 100 /\ clamp 250 0 100 = 100 /\ clamp (-3) 0 100 = 0 /\ clamp 42 0 100 = 42.
Proof.
assert (H : 0 <= 100) by lra. split; [exact H|].
destruct (clamp_within 250 0 100 H) as [[Hlo Hhi] _].
destruct (clamp_within (-3) 0 100 H) as [[Hlo' Hhi'] _].
destruct (clamp_within 42 0 100 H) as [_ Hid].
split; [|split].
- unfold clamp, py_max, py_min in *. repeat (destruct (decide _)); lra.
- unfold clamp, py_max, py_min in *. repeat (destruct (decide _)); lra.
- apply Hid. lra.
Defined.

Lemma py_sum_bounds lo hi (xs : list R) :
  Forall (fun v => lo <= v <= hi) xs ->
  lo * INR (length xs) <= py_sum xs <= hi * INR (length xs).
Proof.
induction 1 as [|x xs Hx _ IH].
- unfold py_sum. simpl. lra.
- rewrite py_sum_cons. change (length (x :: xs)) with (S (length xs)).
  rewrite S_INR. nra.
Qed.

Lemma average_bounds lo hi (xs : list R) :
  xs <> [] -> Forall (fun v => lo <= v <= hi) xs ->
  lo <= py_sum xs / INR (length xs) <= hi.
Proof.
intros Hne Hall. pose proof (py_sum_bounds lo hi xs Hall) as [H1 H2].
apply quotient_between; try assumption.
destruct xs; [congruence|]. change (length (r :: xs)) with (S (length xs)).
rewrite S_INR. pose proof (pos_INR (length xs)). lra.
Qed.

(** X2. The trailing moving average keeps the length of the series, and
    with a window of at most one the series comes back as it is; in exact
    real arithmetic, when every value lies in an interval so does every
    average.  In binary64 an average can leave the interval by rounding,
    see [moving_average_rounds_up]. *)
Theorem moving_average_bounded lo hi (values : list R) (window : Z) :
  Forall (fun v => lo <= v <= hi) values ->
  length (_moving_average values window) = length values /\
  Forall (fun v => lo <= v <= hi) (_moving_average values window) /\
  ((window <= 1)%Z -> _moving_average values window = values).
Proof.
intros Hall. unfold _moving_average. case_decide as Hw.
- split; [reflexivity|]. split; [exact Hall | reflexivity].
- split; [apply length_imap|]. split; [|lia].
  apply Forall_lookup. intros idx avg Hlook.
  rewrite list_lookup_imap in Hlook.
  destruct (values !! idx) as [v|] eqn:Hv; [|discriminate].
  simpl in Hlook. injection Hlook as <-.
  apply lookup_lt_Some in Hv.
  set (start := Z.to_nat (Z.max 0 (Z.of_nat idx - window + 1))).
  assert (Hstart : (start <= idx)%nat) by (unfold start; lia).
  apply average_bounds.
  + intros Hnil. apply (f_equal length) in Hnil. unfold segment_of in Hnil.
    rewrite length_take, length_drop in Hnil. simpl in Hnil. lia.
  + unfold segment_of. apply Forall_take, Forall_drop. exact Hall.
Qed.

Lemma moving_average_bounded_example :
  Forall (fun v => 400 <= v <= 900) [400; 900; 500; 600] /\
  length (_moving_average [400; 900; 500; 600] 3) = 4%nat /\
  Forall (fun v => 400 <= v <= 900) (_moving_average [400; 900; 500; 600] 3).
Proof.
assert (H : Forall (fun v => 400 <= v <= 900) [400; 900; 500; 600])
  by (repeat (apply Forall_cons; split; [lra|]); constructor).
split; [exact H|].
destruct (moving_average_bounded 400 900 [400; 900; 500; 600] 3 H) as (Hlen & Hb & _).
split; [exact Hlen | exact Hb].
Defined.

(** In binary64 the third average of [0.1, 0.1, 0.1] with a window of 3
    is [0.10000000000000002]: the sum rounds up before the division. *)
Lemma moving_average_rounds_up :
  Binary64._moving_average [Binary64.tenth; Binary64.tenth; Binary64.tenth] 3
    = [Binary64.tenth; Binary64.tenth; Binary64.tenth_up].
Proof. vm_compute. reflexivity. Qed.
End ClampFacts.

(** ** Penalty curves and the IAQ score *)

Section PenaltyFacts.
Context {cfg : Config}.
Local Open Scope R_scope.

Lemma inv_above_one d : 1 < d -> 0 < / d < 1.
Proof.
intros Hd. split; [apply Rinv_0_lt_compat; lra|].
rewrite <- Rinv_1. apply Rinv_lt_contravar; lra.
Qed.

Lemma unit_fraction n d : 0 <= n -> n <= d -> 0 < d -> 0 <= n / d <= 1.
Proof. intros Hn Hnd Hd. apply quotient_between; lra. Qed.

Lemma co2_penalty_value c :
  co2_penalty (Some c) = 100 / (1 + exp (- 0.018 * (c - 800))) /\
  0 < 100 / (1 + exp (- 0.018 * (c - 800))) < 100.
Proof.
set (e := exp (- 0.018 * (c - 800))).
assert (He : 0 < e) by apply exp_pos.
destruct (inv_above_one (1 + e) ltac:(lra)) as [H0 H1].
assert (Hp : 0 < 100 / (1 + e) < 100) by (unfold Rdiv; split; nra).
split; [|exact Hp].
unfold co2_penalty.
replace (exp (- 0.018 * (c - 800.0))) with e by (unfold e; f_equal; lra).
replace (100.0 / (1.0 + e)) with (100 / (1 + e)) by (f_equal; lra).
destruct (clamp_bounds (100 / (1 + e)) 0.0 100.0 ltac:(lra)) as [_ Hid].
apply Hid. lra.
Qed.

(** X3. The CO2 penalty is the logistic curve centred at 800 ppm, clamped
    to the range from 0 to 100: it is 0 for an absent reading and 50 at
    800 ppm, it lies between 0 and 100 for every reading, and, in exact
    real arithmetic, it never decreases when the concentration rises.
    (In binary64 the curve reaches 100.0 itself from about 2850 ppm on,
    and for readings below about -38600 ppm [math.exp] overflows and the
    source raises instead of returning; both are outside the model.) *)
Theorem co2_penalty_logistic :
  co2_penalty None = 0 /\
  co2_penalty (Some 800) = 50 /\
  (forall c, 0 <= co2_penalty (Some c) <= 100) /\
  (forall c1 c2, c1 <= c2 -> co2_penalty (Some c1) <= co2_penalty (Some c2)).
Proof.
split; [unfold co2_penalty; lra|]. split; [|split].
- destruct (co2_penalty_value 800) as [-> _].
  replace (- 0.018 * (800 - 800)) with 0 by lra. rewrite exp_0. lra.
- intros c. destruct (co2_penalty_value c) as [-> H]. lra.
- intros c1 c2 Hle.
  destruct (co2_penalty_value c1) as [-> _]. destruct (co2_penalty_value c2) as [-> _].
  set (x1 := - 0.018 * (c1 - 800)). set (x2 := - 0.018 * (c2 - 800)).
  assert (Hx : x2 <= x1) by (unfold x1, x2; lra).
  assert (He : exp x2 <= exp x1).
  { destruct Hx as [Hlt | ->]; [left; apply exp_increasing; exact Hlt | right; reflexivity]. }
  pose proof (exp_pos x1). pose proof (exp_pos x2).
  unfold Rdiv. apply Rmult_le_compat_l; [lra|].
  apply Rinv_le_contravar; lra.
Qed.

Lemma co2_penalty_logistic_example :
  (700 <= 1000) /\ co2_penalty (Some 700) <= co2_penalty (Some 1000).
Proof.
assert (H : 700 <= 1000) by lra. split; [exact H|].
destruct co2_penalty_logistic as (_ & _ & _ & Hmono). apply Hmono. exact H.
Defined.

(** X4. With a non-negative cap the TVOC penalty lies between 0 and the
    cap, for a reading or none: it is 0 up to the first breakpoint, and
    the cap beyond all three breakpoints. *)
Theorem tvoc_penalty_range :
  0 <= VOC_RISK_CAP ->
  (forall voc, 0 <= tvoc_penalty voc <= VOC_RISK_CAP) /\
  (forall v, v <= fst (fst VOC_BREAKPOINTS) -> tvoc_penalty (Some v) = 0) /\
  (forall v, fst (fst VOC_BREAKPOINTS) < v -> snd (fst VOC_BREAKPOINTS) < v ->
             snd VOC_BREAKPOINTS < v -> tvoc_penalty (Some v) = VOC_RISK_CAP).
Proof.
intros Hcap. unfold tvoc_penalty.
destruct VOC_BREAKPOINTS as [[b1 b2] b3]. cbn [fst snd].
split; [|split].
- intros [v|]; [|lra].
  destruct (decide (v <= b1)) as [H1|H1]; [lra|].
  destruct (decide (v <= b2)) as [H2|H2].
  + pose proof (py_max_lower (b2 - b1) 1e-6). pose proof (py_max_upper (b2 - b1) 1e-6).
    destruct (unit_fraction (v - b1) (py_max (b2 - b1) 1e-6)) as [F0 F1]; try lra.
    set (f := (v - b1) / py_max (b2 - b1) 1e-6) in *.
    assert (0 <= f ^ 2 <= 1) by (simpl; nra). nra.
  + destruct (decide (v <= b3)) as [H3|H3]; [|lra].
    pose proof (py_max_lower (b3 - b2) 1e-6). pose proof (py_max_upper (b3 - b2) 1e-6).
    destruct (unit_fraction (v - b2) (py_max (b3 - b2) 1e-6)) as [F0 F1]; try lra.
    set (f := (v - b2) / py_max (b3 - b2) 1e-6) in *.
    assert (0 <= f ^ 2 <= 1) by (simpl; nra). nra.
- intros v Hv. destruct (decide (v <= b1)); lra.
- intros v H1 H2 H3.
  destruct (decide (v <= b1)); [lra|]. destruct (decide (v <= b2)); [lra|].
  destruct (decide (v <= b3)); [lra | reflexivity].
Qed.

(** X5. The comfort penalty lies between 0 and 100, and it is 0 when
    temperature and humidity are absent or inside their comfort ranges. *)
Theorem comfort_penalty_range :
  (forall temp_c rh, 0 <= comfort_penalty temp_c rh <= 100) /\
  (forall temp_c rh,
     (forall t, temp_c = Some t ->
                fst COMFORT_TEMP_RANGE <= t <= snd COMFORT_TEMP_RANGE) ->
     (forall h, rh = Some h ->
                fst COMFORT_RH_RANGE <= h <= snd COMFORT_RH_RANGE) ->
     comfort_penalty temp_c rh = 0).
Proof.
split.
- intros temp_c rh. unfold comfort_penalty.
  destruct COMFORT_TEMP_RANGE as [tl th], COMFORT_RH_RANGE as [hl hh].
  match goal with |- _ <= clamp ?p _ _ <= _ =>
    destruct (clamp_bounds p 0.0 100.0 ltac:(lra)) as [Hb _] end.
  lra.
- intros temp_c rh Ht Hh. unfold comfort_penalty.
  destruct COMFORT_TEMP_RANGE as [tl th], COMFORT_RH_RANGE as [hl hh].
  cbn [fst snd] in *.
  assert (E1 : match temp_c with
               | Some t => if decide (t < tl) then 0.0 + (tl - t) ^ 2 * 2.0
                           else if decide (th < t) then 0.0 + (t - th) ^ 2 * 2.0
                           else 0.0
               | None => 0.0 end = 0.0).
  { destruct temp_c as [t|]; [|reflexivity]. specialize (Ht t eq_refl).
    destruct (decide (t < tl)); [lra|]. destruct (decide (th < t)); [lra | reflexivity]. }
  rewrite E1.
  assert (E2 : match rh with
               | Some h => if decide (h < hl) then 0.0 + Rpower (hl - h) 1.5
                           else if decide (hh < h) then 0.0 + Rpower (h - hh) 1.5
                           else 0.0
               | None => 0.0 end = 0.0).
  { destruct rh as [h|]; [|reflexivity]. specialize (Hh h eq_refl).
    destruct (decide (h < hl)); [lra|]. destruct (decide (hh < h)); [lra | reflexivity]. }
  rewrite E2.
  destruct (clamp_bounds 0.0 0.0 100.0 ltac:(lra)) as [_ Hid]. rewrite Hid; lra.
Qed.

(** X6. The IAQ score and the weighted risk lie between 0 and 100, the
    score is 100 minus the weighted risk, the dominant risk is at least
    each of the four component risks, and the weights are echoed. *)
Theorem build_iaq_score_range nowcast_pm25 co2_ppm voc temp_c rh :
  let iaq := build_iaq nowcast_pm25 co2_ppm voc temp_c rh in
  0 <= iaq_score iaq <= 100 /\
  0 <= risk_weighted iaq <= 100 /\
  iaq_score iaq = 100 - risk_weighted iaq /\
  risk_co2 iaq <= dominant_risk iaq /\ risk_pm25 iaq <= dominant_risk iaq /\
  risk_tvoc iaq <= dominant_risk iaq /\ risk_comfort iaq <= dominant_risk iaq /\
  risk_pm25 iaq <= 100 /\
  weights iaq = IAQ_WEIGHTS.
Proof.
intros iaq. unfold iaq, build_iaq.
cbn [iaq_score risk_weighted dominant_risk risk_co2 risk_pm25 risk_tvoc risk_comfort
     weights].
match goal with |- context [clamp ?w 0.0 100.0] =>
  match w with
  | context [clamp] => fail 1
  | _ => destruct (clamp_bounds w 0.0 100.0 ltac:(lra)) as [Hw _]; set (wr := clamp w 0.0 100.0) in *
  end
end.
destruct (clamp_bounds (100.0 - wr) 0.0 100.0 ltac:(lra)) as [Hs Hid].
rewrite Hid by lra.
match goal with |- context [foldl py_max ?a ?l] =>
  destruct (foldl_py_max_spec l a) as (Hd0 & Hd & _)
end.
repeat match goal with |- _ /\ _ => split end; try lra; try reflexivity.
- apply Hd. left.
- apply Hd. right. left.
- apply Hd. right. right. left.
- destruct (pm25_aqi nowcast_pm25); [|lra].
  unfold py_min. destruct (decide _); lra.
Qed.
End PenaltyFacts.

Section PenaltyExamples.
Local Open Scope R_scope.
Local Existing Instance default_config.

Lemma tvoc_penalty_range_example :
  0 <= VOC_RISK_CAP /\ tvoc_penalty (Some 100) = 0 /\ tvoc_penalty (Some 5000) = 65.
Proof.
assert (H : 0 <= VOC_RISK_CAP) by (simpl; unfold DEFAULT_VOC_RISK_CAP; lra).
split; [exact H|]. destruct (tvoc_penalty_range H) as (_ & Hlow & Hhigh). split.
- apply Hlow. simpl. lra.
- rewrite Hhigh; simpl; unfold DEFAULT_VOC_RISK_CAP; lra.
Defined.

Lemma comfort_penalty_range_example :
  comfort_penalty (Some 22) (Some 45) = 0.
Proof.
destruct comfort_penalty_range as [_ Hin]. apply Hin.
- intros t [= <-]. simpl. lra.
- intros h [= <-]. simpl. lra.
Defined.
End PenaltyExamples.

(** ** The smoke report *)

Section SmokeReportFacts.
Context {cfg : Config}.
Local Open Scope R_scope.

Lemma List_last_elem_of {A} (l : list A) d : l <> [] -> List.last l d ∈ l.
Proof.
induction l as [|x l IH]; [congruence|]. intros _.
destruct l as [|y l]; [left|]. right. apply IH. discriminate.
Qed.

Lemma py_sorted_nonempty {A} (key : A -> Z) l : l <> [] -> py_sorted key l <> [].
Proof.
intros Hne Hnil. apply Hne. apply Permutation_nil_r.
rewrite <- Hnil. symmetry. apply py_sorted_Permutation.
Qed.

(** X7. The report of [assess_smoke]: the raw probability lies between 0
    and 1; on a series with at least one point the report shows the state
    it returns (presence and reason) and a value of the series as the last
    NowCast; on an empty series the report says no smoke with reason
    [insufficient] whatever the cached state is, which is returned as it
    was. *)
Theorem assess_smoke_report series state :
  let info := fst (assess_smoke series state) in
  let state' := snd (assess_smoke series state) in
  0 <= raw_probability info <= 1 /\
  thresholds_used info = thresholds /\
  (series <> [] ->
     smoke_present info = active state' /\
     reason info = last_reason state' /\
     exists p, p ∈ series /\ last_nowcast_pm25 info = Some (snd p)) /\
  (series = [] ->
     state' = default SmokeState_new state /\
     smoke_present info = false /\ reason info = "insufficient" /\
     last_nowcast_pm25 info = None).
Proof.
destruct series as [|p rest].
- cbn. repeat split; try lra; congruence.
- cbv zeta. unfold assess_smoke.
  pose proof (List_last_elem_of (py_sorted fst (p :: rest)) (0%Z, 0)
                (py_sorted_nonempty fst (p :: rest) ltac:(discriminate))) as Hin.
  assert (Hsub : forall x, x ∈ py_sorted fst (p :: rest) -> x ∈ p :: rest)
    by (intros x Hx; rewrite py_sorted_Permutation in Hx; exact Hx).
  apply Hsub in Hin. clear Hsub.
  destruct (List.last (py_sorted fst (p :: rest)) (0%Z, 0)) as [latest_ts latest_val].
  match goal with |- context [if ?b then (true, 0%Z, "rapid_rise") else ?e] =>
    destruct (if b then (true, 0%Z, "rapid_rise") else e) as [[a c] r] end.
  cbn [fst snd raw_probability thresholds_used smoke_present reason last_nowcast_pm25
       active last_reason].
  match goal with |- context [clamp ?v 0.0 1.0] =>
    destruct (clamp_bounds v 0.0 1.0 ltac:(lra)) as [Hb _] end.
  split; [lra|]. split; [reflexivity|]. split; [|congruence].
  intros _. split; [reflexivity|]. split; [reflexivity|].
  exists (latest_ts, latest_val). split; [exact Hin | reflexivity].
Qed.

End SmokeReportFacts.

Section SmokeReportExamples.
Local Open Scope R_scope.
Local Existing Instance default_config.

Lemma assess_smoke_report_example :
  let raised :=
    {| active := true; consecutive_below := 0; last_reason := "rapid_rise" |} in
  smoke_present (fst (assess_smoke [] (Some raised))) = false /\
  snd (assess_smoke [] (Some raised)) = raised.
Proof.
intros raised.
destruct (assess_smoke_report [] (Some raised)) as (_ & _ & _ & Hempty).
destruct (Hempty eq_refl) as (Hst & Hp & _). split; [exact Hp | exact Hst].
Defined.
End SmokeReportExamples.

(** ** The NowCast series *)

Section NowcastSeriesFacts.
Local Open Scope R_scope.

Lemma last_n_length {A} n (xs : list A) : length (last_n n xs) = Nat.min n (length xs).
Proof. unfold last_n. rewrite length_drop. lia. Qed.

Lemma last_n_snoc {A} n (xs : list A) v :
  last_n n (last_n n xs ++ [v]) = last_n n (xs ++ [v]).
Proof.
unfold last_n. rewrite <- drop_app_le by lia. rewrite drop_drop.
rewrite length_drop, !length_app. simpl. f_equal. lia.
Qed.

Lemma last_n_idem {A} n (xs : list A) : last_n n (last_n n xs) = last_n n xs.
Proof. apply last_n_short. rewrite last_n_length. lia. Qed.

(** Only the last twelve values count. *)
Lemma nowcast_last_twelve (l : list R) :
  compute_nowcast_pm25 (Some <$> last_n 12 l) = compute_nowcast_pm25 (Some <$> l).
Proof.
unfold compute_nowcast_pm25. rewrite !omap_Some_id.
destruct l as [|a [|b l']]; [reflexivity | reflexivity |].
pose proof (last_n_length 12 (a :: b :: l')) as Hlen.
pose proof (last_n_idem 12 (a :: b :: l')) as Hidem.
destruct (last_n 12 (a :: b :: l')) as [|a' [|b' w]] eqn:Hw;
  [simpl in Hlen; lia | simpl in Hlen; lia |].
rewrite Hidem. reflexivity.
Qed.

Lemma nowcast_defined (l : list R) :
  l <> [] -> exists r, compute_nowcast_pm25 (Some <$> l) = Some r.
Proof.
intros Hne. unfold compute_nowcast_pm25. rewrite omap_Some_id.
destruct l as [|a [|b l']]; [congruence | eauto |].
destruct (nowcast_loop _ _ _ _ _). eauto.
Qed.

(** X14. [compute_nowcast_pm25] ignores the null readings, and its result
    is absent exactly when no reading is non-null. *)
Theorem nowcast_ignores_nulls (values : list (option R)) :
  compute_nowcast_pm25 values
    = compute_nowcast_pm25 (Some <$> omap (fun v : option R => v) values) /\
  (compute_nowcast_pm25 values = None <-> Forall (fun v => v = None) values).
Proof.
split.
- unfold compute_nowcast_pm25. rewrite omap_Some_id. reflexivity.
- assert (Hnil : omap (fun v : option R => v) values = []
                 <-> Forall (fun v => v = None) values).
  { induction values as [|[v|] values IH]; csimpl.
    - split; constructor.
    - split; [discriminate|]. intros H. inversion H. discriminate.
    - rewrite IH. split; [constructor; auto|]. intros H. inversion H. assumption. }
  rewrite <- Hnil. unfold compute_nowcast_pm25.
  destruct (omap _ values) as [|a [|b l']]; [tauto | split; discriminate |].
  destruct (nowcast_loop _ _ _ _ _). split; discriminate.
Qed.

Lemma insert_by_fmap {A B} (f : A -> B) (key : A -> Z) (key' : B -> Z) x xs :
  (forall a, key' (f a) = key a) ->
  insert_by key' (f x) (f <$> xs) = f <$> insert_by key x xs.
Proof.
intros Hk. induction xs as [|y xs IH]; csimpl; [reflexivity|].
rewrite !Hk. case_decide; csimpl; [reflexivity|]. rewrite IH. reflexivity.
Qed.

Lemma py_sorted_fmap {A B} (f : A -> B) (key : A -> Z) (key' : B -> Z) xs :
  (forall a, key' (f a) = key a) ->
  py_sorted key' (f <$> xs) = f <$> py_sorted key xs.
Proof.
intros Hk. induction xs as [|x xs IH]; csimpl; [reflexivity|].
rewrite IH. apply insert_by_fmap. exact Hk.
Qed.

(** The loop of the series, entered with the values [seen] so far. *)
Lemma nowcast_series_loop_spec (pts : list (datetime * R)) : forall seen history,
  exists ext,
    nowcast_series_loop ((fun p => (fst p, Some (snd p))) <$> pts)
                        (last_n 12 seen) history = history ++ ext /\
    length ext = length pts /\
    forall i t v, pts !! i = Some (t, v) ->
      exists r, ext !! i = Some (t, r) /\
        compute_nowcast_pm25 (Some <$> (seen ++ take (S i) (map snd pts))) = Some r.
Proof.
induction pts as [|[t v] pts IH]; intros seen history.
- exists []. rewrite app_nil_r. repeat split. intros i t v Hl. discriminate.
- csimpl.
  assert (Htail : (if decide (12 < length (last_n 12 seen ++ [v]))%nat
                   then last_n 12 (last_n 12 seen ++ [v])
                   else last_n 12 seen ++ [v]) = last_n 12 (seen ++ [v])).
  { case_decide.
    - apply last_n_snoc.
    - rewrite <- (last_n_snoc 12 seen v). symmetry. apply last_n_short. lia. }
  rewrite Htail. rewrite nowcast_last_twelve.
  destruct (nowcast_defined (seen ++ [v])) as [r0 Hr0]; [destruct seen; discriminate|].
  rewrite Hr0.
  destruct (IH (seen ++ [v]) (history ++ [(t, r0)])) as (ext & Hrun & Hlen & Hext).
  exists ((t, r0) :: ext). split; [rewrite Hrun, <- app_assoc; reflexivity|].
  split; [simpl; lia|].
  intros [|i] t' v' Hl.
  + injection Hl as <- <-. exists r0. split; [reflexivity | exact Hr0].
  + destruct (Hext i t' v' Hl) as (r & Hr & Hnow). exists r. split; [exact Hr|].
    rewrite <- Hnow. rewrite <- app_assoc. reflexivity.
Qed.

(** X8. On a series without nulls [compute_nowcast_series] returns one
    point per input point, in time order; the value at position [i] is the
    NowCast of the first [i + 1] values in time order, so the last value
    is the NowCast of the whole series. *)
Theorem nowcast_series_rolling (pts : list (datetime * R)) :
  let sorted := py_sorted fst pts in
  let out := compute_nowcast_series ((fun p => (fst p, Some (snd p))) <$> pts) in
  length out = length pts /\
  map fst out = map fst sorted /\
  (forall i t v, sorted !! i = Some (t, v) ->
     exists r, out !! i = Some (t, r) /\
       compute_nowcast_pm25 (Some <$> take (S i) (map snd sorted)) = Some r) /\
  snd <$> last out = compute_nowcast_pm25 (Some <$> map snd sorted).
Proof.
cbv zeta. unfold compute_nowcast_series.
rewrite (py_sorted_fmap (fun p : datetime * R => (fst p, Some (snd p))) fst fst)
  by reflexivity.
assert (Hperm : length (py_sorted fst pts) = length pts)
  by (rewrite py_sorted_Permutation; reflexivity).
pose proof (nowcast_series_loop_spec (py_sorted fst pts) [] []) as Hspec.
unfold datetime in *.
generalize dependent (py_sorted fst pts). intros sorted Hperm Hspec.
destruct Hspec as (ext & Hrun & Hlen & Hext).
change (last_n 12 []) with (@nil R) in Hrun. rewrite Hrun. cbn [app].
cbn [app] in Hext.
split; [lia|]. split; [|split].
- apply list_eq. intros i. change map with (@fmap list _) at 1 2.
  rewrite !list_lookup_fmap.
  destruct (sorted !! i) as [[t v]|] eqn:Hs.
  + destruct (Hext i t v Hs) as (r & -> & _). reflexivity.
  + apply lookup_ge_None in Hs. rewrite (proj2 (lookup_ge_None ext i)) by lia. reflexivity.
- exact Hext.
- rewrite last_lookup.
  destruct sorted as [|p0 sorted'] eqn:Es.
  + destruct ext; [reflexivity | simpl in Hlen; lia].
  + rewrite Hlen. simpl length. simpl pred.
    destruct (lookup_lt_is_Some_2 (p0 :: sorted') (length sorted') ltac:(simpl; lia))
      as [[t v] Hs].
    destruct (Hext _ t v Hs) as (r & -> & Hnow). cbn [fmap option_fmap option_map snd].
    rewrite <- Hnow. rewrite take_ge by (rewrite length_map; simpl; lia). reflexivity.
Qed.
End NowcastSeriesFacts.

(** ** Regression and decay *)

Section RegressionFacts.
Local Open Scope R_scope.

Lemma py_sum_affine a b (x : list R) :
  py_sum (map (fun t => a * t + b) x) = a * py_sum x + b * INR (length x).
Proof.
induction x as [|t x IH].
- unfold py_sum. simpl. lra.
- cbn [map]. rewrite !py_sum_cons, IH.
  change (length (t :: x)) with (S (length x)). rewrite S_INR. lra.
Qed.

Lemma py_sum_cross a b (x : list R) :
  py_sum (zip_with Rmult x (map (fun t => a * t + b) x))
    = a * py_sum (map (fun t => t * t) x) + b * py_sum x.
Proof.
induction x as [|t x IH].
- unfold py_sum. simpl. lra.
- cbn [map zip_with]. rewrite !py_sum_cons, IH. lra.
Qed.

Lemma regression_slope_line a b (x : list R) :
  (2 <= length x)%nat ->
  INR (length x) * py_sum (map (fun t => t * t) x) - py_sum x * py_sum x <> 0 ->
  _regression_slope x (map (fun t => a * t + b) x) = Some a.
Proof.
intros Hlen Hvar. unfold _regression_slope.
case_decide; [lia|]. case_decide; [contradiction|].
f_equal. rewrite py_sum_cross, py_sum_affine.
set (n := INR (length x)) in *. set (sx := py_sum x) in *.
set (sxx := py_sum (map (fun t => t * t) x)) in *.
field. exact Hvar.
Qed.

(** X9. On points that lie on a line [y = a * x + b], at least two of
    them and with a denominator [n * sum x^2 - (sum x)^2] other than 0
    (the abscissas are not all the same), [_regression_slope] returns the
    slope [a] of the line. *)
Theorem regression_slope_exact a b (x : list R) :
  (2 <= length x)%nat ->
  INR (length x) * py_sum (map (fun t => t * t) x) - py_sum x * py_sum x <> 0 ->
  _regression_slope x (map (fun t => a * t + b) x) = Some a.
Proof. exact (regression_slope_line a b x). Qed.

Lemma regression_slope_short (x y : list R) :
  (length x < 2)%nat -> _regression_slope x y = None.
Proof. intros H. unfold _regression_slope. case_decide; [reflexivity | lia]. Qed.

Lemma regression_slope_exact_example :
  (2 <= length [0; 1; 2])%nat /\
  _regression_slope [0; 1; 2] (map (fun t => - (1/2) * t + 3) [0; 1; 2]) = Some (- (1/2)).
Proof.
split; [simpl; lia|]. apply regression_slope_exact; [simpl; lia|].
cbn [map length]. rewrite !py_sum_cons. unfold py_sum. cbn [foldl].
replace (INR 3) with 3 by (simpl; lra). lra.
Defined.

(** X10. On an exact exponential decay
    [C(t) = cout + A * exp (- k * t)] with [k > 0], sampled at least three
    times, not all at the same instant, whose excess stays at or above
    [1e-6], [estimate_ach] recovers the rate: it returns [k * 3600]. *)
Theorem estimate_ach_recovers_decay k A cout_ppm (times : list datetime) :
  let seconds := map (fun t => total_seconds t (hd 0%Z times)) times in
  let co2_ppm := map (fun s => cout_ppm + A * exp (- k * s)) seconds in
  (3 <= length times)%nat ->
  0 < k ->
  Forall (fun s => 1e-6 <= A * exp (- k * s)) seconds ->
  INR (length seconds) * py_sum (map (fun t => t * t) seconds)
    - py_sum seconds * py_sum seconds <> 0 ->
  estimate_ach times co2_ppm cout_ppm = Some (k * 3600).
Proof.
intros seconds co2_ppm Hlen Hk Hexcess Hvar.
assert (HA : 0 < A).
{ destruct seconds as [|s0 rest] eqn:Es.
  - unfold seconds in Es. destruct times; [simpl in Hlen; lia | discriminate].
  - apply Forall_cons in Hexcess as [H0 _]. pose proof (exp_pos (- k * s0)). nra. }
rewrite estimate_ach_unfold. case_decide; [lia|]. fold seconds.
assert (Hlogs : map ln (map (fun v => py_max (v - cout_ppm) 1e-6) co2_ppm)
                = map (fun s => (- k) * s + ln A) seconds).
{ unfold co2_ppm. rewrite !map_map. apply map_ext_Forall.
  eapply Forall_impl; [exact Hexcess|]. intros s Hs. cbn beta in *.
  replace (cout_ppm + A * exp (- k * s) - cout_ppm) with (A * exp (- k * s)) by lra.
  unfold py_max. case_decide; [lra|].
  rewrite ln_mult by (try apply exp_pos; exact HA). rewrite ln_exp. lra. }
rewrite Hlogs.
rewrite regression_slope_line;
  [| unfold seconds; rewrite length_map; lia | exact Hvar].
case_decide; [lra|]. f_equal. lra.
Qed.

Lemma estimate_ach_recovers_decay_example :
  estimate_ach [0; 1000000; 2000000]%Z
    (map (fun s => 420 + 580 * exp (- (1/3600) * s)) [0; 1; 2]) 420
  = Some (1/3600 * 3600).
Proof.
assert (Hsec : map (fun t => total_seconds t (hd 0%Z [0; 1000000; 2000000]%Z))
                   [0; 1000000; 2000000]%Z = [0; 1; 2]).
{ unfold total_seconds. cbn [map hd].
  change (0 - 0)%Z with 0%Z. change (1000000 - 0)%Z with 1000000%Z.
  change (2000000 - 0)%Z with 2000000%Z.
  repeat (f_equal; try lra). }
pose proof (estimate_ach_recovers_decay (1/3600) 580 420 [0; 1000000; 2000000]%Z) as H.
cbv zeta in H. rewrite Hsec in H. apply H.
- simpl. lia.
- lra.
- assert (Hb : forall s, 0 <= s <= 2 -> 1e-6 <= 580 * exp (- (1/3600) * s)).
  { intros s Hs. pose proof (exp_ineq1_le (- (1/3600) * s)). nra. }
  repeat (apply Forall_cons; split; [apply Hb; lra|]). constructor.
- cbn [map length]. rewrite !py_sum_cons. unfold py_sum. cbn [foldl].
  replace (INR 3) with 3 by (simpl; lra). lra.
Defined.
End RegressionFacts.

(** ** Occupancy and the baseline result *)

Section OccupancyEdgeFacts.
Context {cfg : Config}.
Local Open Scope R_scope.

(** X11. Without any CO2 reading in the batch, [compute_occupancy]
    estimates nobody: the estimate is 0, the note is
    ["insufficient CO2 data"], the resolved rate is reported (the default
    one in place of an absent or zero rate) and nothing is proposed for
    the cache. *)
Theorem occupancy_without_co2 samples options ach_origin allow_estimate cached_state :
  Forall (fun s => s_co2 s = None) samples ->
  compute_occupancy samples options ach_origin allow_estimate cached_state =
    ({| n_estimate := 0;
        ach_used := float_or (bo_ach options) DEFAULT_DEVICE_ACH;
        ach_source := ach_origin;
        note := "insufficient CO2 data" |}, (None, None)).
Proof.
intros Hall. unfold compute_occupancy.
assert (Hnil : omap (fun s => match s_co2 s with
                              | Some c => Some (s_timestamp s, c)
                              | None => None
                              end) samples = []).
{ induction Hall as [|s samples Hs _ IH]; csimpl; [reflexivity|].
  rewrite Hs. exact IH. }
rewrite Hnil. cbn [length]. case_decide; [|lia].
repeat f_equal. lra.
Qed.

(** X12. What [compute_occupancy] proposes for the cache: either nothing,
    or a rate together with the source ["decay_estimate"], and the latter
    only when the estimate is allowed, the rate exceeds 0.1, and the same
    rate and source are the ones reported as used. When the estimate is
    not allowed the reported source is the one passed in. *)
Theorem occupancy_updates_invariant samples options ach_origin allow_estimate cached_state :
  let occ := fst (compute_occupancy samples options ach_origin allow_estimate cached_state) in
  let upd := snd (compute_occupancy samples options ach_origin allow_estimate cached_state) in
  (upd = (None, None) \/
   exists est,
     upd = (Some est, Some "decay_estimate") /\ allow_estimate = true /\
     0.1 < est /\ ach_used occ = est /\ ach_source occ = "decay_estimate") /\
  (allow_estimate = false -> upd = (None, None) /\ ach_source occ = ach_origin).
Proof.
cbv zeta. unfold compute_occupancy.
case_decide; [split; [left; reflexivity | intros _; split; reflexivity]|].
destruct allow_estimate.
- destruct (estimate_ach _ _ _) as [est|] eqn:Hest.
  + destruct (truthy (Some est) && bool_decide (0.1 < est)) eqn:Hcond.
    * apply andb_true_iff in Hcond as [_ Hgt]. apply bool_decide_eq_true in Hgt.
      repeat (case_match || case_decide); cbn [fst snd ach_used ach_source];
        (split; [right; exists est; repeat split; assumption | discriminate]).
    * repeat (case_match || case_decide); cbn [fst snd];
        (split; [left; reflexivity | discriminate]).
  + repeat (case_match || case_decide); cbn [fst snd];
      (split; [left; reflexivity | discriminate]).
- repeat (case_match || case_decide); cbn [fst snd ach_source];
    (split; [left; reflexivity | intros _; split; reflexivity]).
Qed.

Lemma sorted_last_is_max {A} (key : A -> Z) (l : list A) x :
  StronglySorted (fun a b => (key a <= key b)%Z) l ->
  last l = Some x -> forall y, y ∈ l -> (key y <= key x)%Z.
Proof.
intros Hs Hlast. apply last_Some in Hlast as [l' ->].
induction l' as [|z l' IH]; intros y Hy.
- apply list_elem_of_singleton in Hy. subst. lia.
- cbn in Hs. inversion Hs as [|? ? Hs' Hall]; subst.
  apply elem_of_cons in Hy as [-> | Hy].
  + rewrite Forall_forall in Hall. apply Hall. apply elem_of_app. right. left.
  + apply IH; assumption.
Qed.

(** X13. [compute_baseline] raises [IndexError] exactly on an empty
    batch. On any other batch, in whatever order its samples come, the
    result names the device it was asked for, the timestamp of the updates
    is the latest timestamp of the batch, and the volume and the outdoor
    baseline of the updates are those of the options. *)
Theorem compute_baseline_latest device_id samples options device_state ach_origin
    allow_update :
  (samples = [] <->
   compute_baseline device_id samples options device_state ach_origin allow_update
     = Raise IndexError) /\
  (forall res upd,
     compute_baseline device_id samples options device_state ach_origin allow_update
       = Ok (res, upd) ->
     res_device_id res = device_id /\
     (exists s, s ∈ samples /\ upd_timestamp upd = s_timestamp s) /\
     (forall s, s ∈ samples -> (s_timestamp s <= upd_timestamp upd)%Z) /\
     upd_volume_m3 upd = bo_volume_m3 options /\
     upd_cout_ppm upd = bo_cout_ppm options).
Proof.
split.
- split.
  + intros ->. reflexivity.
  + intros Hraise. destruct samples as [|s samples]; [reflexivity|].
    destruct (compute_baseline_total device_id (s :: samples) options device_state
                ach_origin allow_update) as (res & upd & Hok); [discriminate|].
    congruence.
- intros res upd. unfold compute_baseline.
  destruct (last (py_sorted s_timestamp samples)) as [latest|] eqn:Hlast; [|discriminate].
  destruct (assess_smoke _ _) as [smoke_info smoke_state].
  destruct (compute_occupancy _ _ _ _ _) as [occ occ_upd].
  intros [= <- <-]. cbn [res_device_id upd_timestamp upd_volume_m3 upd_cout_ppm].
  split; [reflexivity|].
  assert (Hsub : forall x, x ∈ py_sorted s_timestamp samples <-> x ∈ samples)
    by (intros x; rewrite py_sorted_Permutation; reflexivity).
  split; [|split; [|split; reflexivity]].
  + exists latest. split; [|reflexivity]. apply Hsub.
    apply last_Some_elem_of. exact Hlast.
  + intros s Hs.
    apply (sorted_last_is_max s_timestamp (py_sorted s_timestamp samples) latest
             (py_sorted_sorted _ _) Hlast). apply Hsub. exact Hs.
Qed.
End OccupancyEdgeFacts.

Section OccupancyEdgeExamples.
Local Open Scope R_scope.
Local Existing Instance default_config.

Lemma occupancy_updates_invariant_example :
  snd (compute_occupancy [office_sample 0%Z] BaselineOptions_new "cached" false None)
    = (None, None).
Proof.
destruct (occupancy_updates_invariant [office_sample 0%Z] BaselineOptions_new "cached"
            false None) as [_ H].
apply H. reflexivity.
Defined.

Lemma occupancy_without_co2_example :
  n_estimate (fst (compute_occupancy [] BaselineOptions_new "default" true None)) = 0.
Proof.
rewrite (occupancy_without_co2 [] BaselineOptions_new "default" true None);
  [reflexivity | constructor].
Defined.
End OccupancyEdgeExamples.

(** ** Readings, timestamps and samples *)

Section SampleFacts.
Context {lib : DatetimeLib}.



(** X15. Of a request whose readings all carry a [datetime],
    [_samples_from_request] drops none: it returns one sample per
    reading, in the order of the readings, each with the reading's
    instant and values and with ["unknown"] in place of an absent or
    empty device id. *)
Theorem samples_of_validated_request request :
  Forall (fun r => exists t, rd_timestamp r = PyDatetime t) (rq_readings request) ->
  exists samples,
    _samples_from_request request = Ok samples /\
    length samples = length (rq_readings request) /\
    Forall2 sample_matches (rq_readings request) samples.
Proof.
intros Hall. unfold _samples_from_request.
destruct (samples_loop_all_valid _ Hall []) as (new & Hrun & Hnew).
exists new. split; [exact Hrun|].
split; [symmetry; eapply Forall2_length; exact Hnew | exact Hnew].
Qed.

Lemma append_assoc_str (a b c : string) : (a +:+ b) +:+ c = a +:+ (b +:+ c).
Proof.
induction a as [|x a IH]; [reflexivity|].
exact (f_equal (String x) IH).
Qed.

Lemma lstrip_all_space pad : all_space pad = true -> lstrip pad = EmptyString.
Proof.
induction pad as [|c pad IH]; cbn [all_space lstrip]; [reflexivity|].
intros H. apply andb_true_iff in H as [-> H]. apply IH. exact H.
Qed.

Lemma lstrip_app s t :
  lstrip (s +:+ t) =
  match lstrip s with EmptyString => lstrip t | String c r => String c r +:+ t end.
Proof.
induction s as [|a s IH]; [reflexivity|].
change (String a s +:+ t) with (String a (s +:+ t)).
cbn [lstrip]. destruct (is_space a); [exact IH | reflexivity].
Qed.

Lemma rstrip_all_space pad : all_space pad = true -> rstrip pad = EmptyString.
Proof.
induction pad as [|c pad IH]; cbn [all_space rstrip]; [reflexivity|].
intros H. apply andb_true_iff in H as [Hc H]. rewrite (IH H), Hc. reflexivity.
Qed.

Lemma rstrip_app_space x pad : all_space pad = true -> rstrip (x +:+ pad) = rstrip x.
Proof.
intros H. induction x as [|a x IH].
- apply rstrip_all_space. exact H.
- change (String a x +:+ pad) with (String a (x +:+ pad)).
  cbn [rstrip]. rewrite IH. reflexivity.
Qed.

(** Appending a character leaves no empty string. *)
Lemma app_last_nonempty x c : x +:+ String c EmptyString <> EmptyString.
Proof. destruct x; discriminate. Qed.

(** A string that ends with a character [strip] keeps is not shortened
    on the right. *)
Lemma rstrip_keeps x c :
  is_space c = false -> rstrip (x +:+ String c EmptyString) = x +:+ String c EmptyString.
Proof.
intros Hc. induction x as [|a x IH].
- change (EmptyString +:+ String c EmptyString) with (String c EmptyString).
  cbn [rstrip]. rewrite Hc. reflexivity.
- change (String a x +:+ String c EmptyString)
    with (String a (x +:+ String c EmptyString)).
  cbn [rstrip]. rewrite IH.
  destruct (x +:+ String c EmptyString) eqn:E; [|reflexivity].
  exfalso. exact (app_last_nonempty _ _ E).
Qed.

Lemma utc_suffix_Z x : utc_suffix (x +:+ "Z") = x +:+ "+00:00".
Proof.
induction x as [|a x IH]; [reflexivity|].
change (String a x +:+ "Z") with (String a (x +:+ "Z")).
change (String a x +:+ "+00:00") with (String a (x +:+ "+00:00")).
cbn [utc_suffix]. rewrite IH.
destruct (x +:+ "Z") eqn:E; [|reflexivity].
exfalso. exact (app_last_nonempty _ _ E).
Qed.

Lemma utc_suffix_other x c :
  Ascii.eqb c "Z" = false ->
  utc_suffix (x +:+ String c EmptyString) = x +:+ String c EmptyString.
Proof.
intros Hc. induction x as [|a x IH].
- change (EmptyString +:+ String c EmptyString) with (String c EmptyString).
  cbn [utc_suffix]. rewrite Hc. reflexivity.
- change (String a x +:+ String c EmptyString)
    with (String a (x +:+ String c EmptyString)).
  cbn [utc_suffix]. rewrite IH.
  destruct (x +:+ String c EmptyString) eqn:E; [|reflexivity].
  exfalso. exact (app_last_nonempty _ _ E).
Qed.

(** The text the parsers receive. *)
Lemma normalized_Z s :
  utc_suffix (strip (s +:+ "Z")) = utc_suffix (strip (s +:+ "+00:00")).
Proof.
unfold strip. rewrite !lstrip_app.
destruct (lstrip s) as [|c r].
- reflexivity.
- rewrite (rstrip_keeps (String c r) "Z") by reflexivity.
  replace (String c r +:+ "+00:00") with ((String c r +:+ "+00:0") +:+ "0")
    by (rewrite append_assoc_str; reflexivity).
  rewrite (rstrip_keeps (String c r +:+ "+00:0") "0") by reflexivity.
  rewrite utc_suffix_Z. rewrite (utc_suffix_other _ "0") by reflexivity.
  rewrite append_assoc_str. reflexivity.
Qed.

Lemma normalized_padding pad1 s pad2 :
  all_space pad1 = true -> all_space pad2 = true ->
  strip (pad1 +:+ s +:+ pad2) = strip s.
Proof.
intros H1 H2. unfold strip. rewrite lstrip_app, (lstrip_all_space pad1 H1).
rewrite lstrip_app. destruct (lstrip s) as [|c r].
- rewrite (lstrip_all_space pad2 H2). reflexivity.
- apply rstrip_app_space. exact H2.
Qed.

(** Whether a text parses, and to what, depends on the normalized text
    only. *)
Lemma parse_text_normalized s s' t :
  utc_suffix (strip s) = utc_suffix (strip s') ->
  _parse_timestamp (PyStr s) = Ok t -> _parse_timestamp (PyStr s') = Ok t.
Proof.
intros Hn. cbn [_parse_timestamp]. rewrite Hn. unfold or_next.
destruct (fromisoformat _) as [?|[]]; try (intros; assumption || discriminate);
  destruct (strptime _ "%Y-%m-%d %H:%M:%S") as [?|[]];
  try (intros; assumption || discriminate);
  destruct (strptime _ "%Y-%m-%d %H:%M:%S.%f") as [?|[]];
  try (intros; assumption || discriminate).
Qed.
(** X16. How [_parse_timestamp] normalizes a text before the parsers
    see it: white space around the text is ignored, and a final ["Z"]
    counts as the offset ["+00:00"]; the text parses to an instant in
    one form exactly when it parses to the same instant in the other. *)
Theorem parse_timestamp_normalizes pad1 s pad2 t :
  all_space pad1 = true -> all_space pad2 = true ->
  (_parse_timestamp (PyStr (pad1 +:+ s +:+ pad2)) = Ok t <->
   _parse_timestamp (PyStr s) = Ok t) /\
  (_parse_timestamp (PyStr (s +:+ "Z")) = Ok t <->
   _parse_timestamp (PyStr (s +:+ "+00:00")) = Ok t).
Proof.
intros H1 H2. split.
- pose proof (normalized_padding pad1 s pad2 H1 H2) as Hs.
  split; apply parse_text_normalized; rewrite Hs; reflexivity.
- split; apply parse_text_normalized;
    [apply normalized_Z | symmetry; apply normalized_Z].
Qed.
End SampleFacts.

Section SampleExamples.
Local Open Scope R_scope.

Lemma samples_of_validated_request_example :
  exists samples,
    @_samples_from_request strict_lib
      {| rq_device_id := None; rq_readings := [office_reading (PyDatetime 0%Z)];
         rq_volume_m3 := None; rq_ach := None; rq_cout_ppm := None;
         rq_g_per_person_m3_s := None |} = Ok samples /\
    length samples = 1%nat.
Proof.
destruct (@samples_of_validated_request strict_lib
            {| rq_device_id := None; rq_readings := [office_reading (PyDatetime 0%Z)];
               rq_volume_m3 := None; rq_ach := None; rq_cout_ppm := None;
               rq_g_per_person_m3_s := None |}) as (samples & Hrun & Hlen & _).
- apply Forall_singleton. exists 0%Z. reflexivity.
- exists samples. split; [exact Hrun | exact Hlen].
Defined.

Lemma parse_timestamp_normalizes_example :
  @_parse_timestamp epoch_lib (PyStr "  1970-01-01T00:00:00Z ") = Ok 0%Z.
Proof.
destruct (@parse_timestamp_normalizes epoch_lib "  " "1970-01-01T00:00:00Z" " " 0%Z)
  as [Hpad _]; [reflexivity | reflexivity |].
apply Hpad. reflexivity.
Defined.
End SampleExamples.

(** ** The batch entry and the endpoints *)

Section BatchFacts.
Context {cfg : Config} {lib : DatetimeLib} {pyd : Pydantic}.
Local Open Scope R_scope.

Lemma last_n_app_last_n {A} n (l l' : list A) :
  last_n n (last_n n l ++ l') = last_n n (l ++ l').
Proof.
unfold last_n. rewrite <- drop_app_le by lia. rewrite drop_drop.
rewrite length_drop, !length_app. f_equal. lia.
Qed.

Lemma set_history_same st : set_history (_HISTORY st) st = st.
Proof. destruct st. reflexivity. Qed.

Lemma refill_history_spec device_id readings :
  Forall (fun r => exists t, rd_timestamp r = PyDatetime t) readings ->
  forall st buffer,
    _HISTORY st !! device_id = Some buffer ->
    (length buffer <= HISTORY_MAXLEN)%nat ->
    refill_history device_id readings st =
      (Ok tt,
       set_history (<[device_id := last_n HISTORY_MAXLEN (buffer ++ readings)]>
                      (_HISTORY st)) st).
Proof.
induction 1 as [|r readings [t Ht] _ IH]; intros st buffer Hb Hlen.
- cbn [refill_history]. rewrite app_nil_r, last_n_short by exact Hlen.
  rewrite insert_id by exact Hb. rewrite set_history_same. reflexivity.
- cbn [refill_history]. unfold history_entry. rewrite Ht.
  unfold mbind. unfold M_bind at 1. unfold lift.
  unfold M_bind at 1. unfold get_store. unfold M_bind at 1. unfold put_store.
  rewrite Hb. cbn [default from_option]. unfold Datatypes.id.
  rewrite (IH _ (deque_append HISTORY_MAXLEN buffer r)).
  + unfold set_history. cbn [_MODE _HISTORY _DEVICE_STATE _LAST_RESULTS].
    rewrite insert_insert_eq. unfold deque_append. rewrite last_n_app_last_n.
    rewrite <- app_assoc. reflexivity.
  + unfold set_history. cbn [_HISTORY]. apply lookup_insert_eq.
  + unfold deque_append. rewrite last_n_length. lia.
Qed.

Lemma record_manual_request_spec request result st :
  Forall (fun r => exists t, rd_timestamp r = PyDatetime t) (rq_readings request) ->
  let device_id :=
    str_or (rq_device_id request) (str_or (Some (res_device_id result)) "unknown") in
  record_manual_request request result st =
    (Ok tt,
     set_last_results (<[device_id := result]> (_LAST_RESULTS st))
       (set_history (<[device_id := last_n HISTORY_MAXLEN (rq_readings request)]>
                       (_HISTORY st)) st)).
Proof.
intros Hall device_id. unfold record_manual_request. fold device_id.
unfold mbind. unfold M_bind at 1.
assert (Hh : exists st0, _history_for device_id st = (Ok (default [] (_HISTORY st !! device_id)), st0)
          /\ set_history (<[device_id := []]> (_HISTORY st0)) st0
             = set_history (<[device_id := []]> (_HISTORY st)) st).
{ unfold _history_for. destruct (_HISTORY st !! device_id) as [b|] eqn:E.
  - exists st. split; reflexivity.
  - eexists. split; [reflexivity|]. unfold set_history.
    cbn [_MODE _HISTORY _DEVICE_STATE _LAST_RESULTS]. rewrite insert_insert_eq.
    reflexivity. }
destruct Hh as (st0 & -> & Hst0).
unfold M_bind at 1. unfold get_store. unfold M_bind at 1. unfold put_store.
rewrite Hst0. unfold M_bind at 1.
rewrite (refill_history_spec device_id _ Hall _ []);
  [| unfold set_history; cbn [_HISTORY]; apply lookup_insert_eq | cbn; lia].
unfold store_last_result, set_history, set_last_results.
cbn [_MODE _HISTORY _DEVICE_STATE _LAST_RESULTS app].
rewrite insert_insert_eq. reflexivity.
Qed.

Lemma batch_device_id (x : option string) :
  str_or x (str_or (Some (str_or x "unknown")) "unknown") = str_or x "unknown".
Proof.
rewrite str_or_fixed by discriminate. unfold str_or. destruct x as [v|]; [|reflexivity].
case_decide; reflexivity.
Qed.

Lemma compute_baseline_fields device_id samples options device_state ach_origin
    allow_update res upd :
  compute_baseline device_id samples options device_state ach_origin allow_update
    = Ok (res, upd) ->
  res_device_id res = device_id /\
  upd_volume_m3 upd = bo_volume_m3 options /\
  upd_cout_ppm upd = bo_cout_ppm options /\
  (upd_ach upd, upd_ach_source upd) =
    snd (compute_occupancy (py_sorted s_timestamp samples) options ach_origin
           allow_update device_state) /\
  exists s, s ∈ samples /\ upd_timestamp upd = s_timestamp s.
Proof.
unfold compute_baseline.
destruct (last (py_sorted s_timestamp samples)) as [latest|] eqn:Hlast; [|discriminate].
destruct (assess_smoke _ _) as [smoke_info smoke_state].
destruct (compute_occupancy _ _ _ _ _) as [occ [a src]].
intros [= <- <-]. cbn [res_device_id upd_volume_m3 upd_cout_ppm upd_ach upd_ach_source
                       upd_timestamp snd].
split; [reflexivity|]. split; [reflexivity|]. split; [reflexivity|].
split; [reflexivity|].
exists latest. split; [|reflexivity].
apply last_Some_elem_of in Hlast.
eapply elem_of_Permutation_proper; [symmetry; apply py_sorted_Permutation | exact Hlast].
Qed.

(** What [compute_occupancy] proposes for the cache. *)
Lemma occupancy_updates_cases samples options ach_origin allow_estimate cached :
  let upd := snd (compute_occupancy samples options ach_origin allow_estimate cached) in
  upd = (None, None) \/
  exists est, upd = (Some est, Some "decay_estimate") /\ 0.1 < est.
Proof.
cbv zeta. unfold compute_occupancy.
case_decide; [left; reflexivity|].
destruct allow_estimate.
- destruct (estimate_ach _ _ _) as [est|] eqn:Hest.
  + destruct (truthy (Some est) && bool_decide (0.1 < est)) eqn:Hcond.
    * apply andb_true_iff in Hcond as [_ Hgt]. apply bool_decide_eq_true in Hgt.
      repeat (case_match || case_decide); cbn [fst snd];
        (right; exists est; split; [reflexivity | assumption]).
    * repeat (case_match || case_decide); cbn [fst snd]; left; reflexivity.
  + repeat (case_match || case_decide); cbn [fst snd]; left; reflexivity.
- repeat (case_match || case_decide); cbn [fst snd]; left; reflexivity.
Qed.

(** The batch entry on a request whose readings all carry a [datetime]:
    the result, and the store it leaves. *)
Lemma compute_request_payload_spec request st :
  rq_readings request <> [] ->
  Forall (fun r => exists t, rd_timestamp r = PyDatetime t) (rq_readings request) ->
  let device_id := str_or (rq_device_id request) "unknown" in
  let state := cached_state device_id st in
  exists options ach_origin samples result updates committed,
    _resolve_options device_id request None None None None st
      = (Ok (options, ach_origin), snd (_state_for device_id st)) /\
    Forall2 sample_matches (rq_readings request) samples /\
    compute_baseline device_id samples options (Some state) ach_origin true
      = Ok (result, updates) /\
    compute_request_payload request st =
      (Ok result,
       {| _MODE := _MODE st;
          _HISTORY :=
            <[device_id := last_n HISTORY_MAXLEN (rq_readings request)]> (_HISTORY st);
          _DEVICE_STATE := <[device_id := committed]> (_DEVICE_STATE st);
          _LAST_RESULTS := <[device_id := result]> (_LAST_RESULTS st) |}) /\
    ds_device_id committed = ds_device_id state /\
    ds_volume_m3 committed = float_or (Some (bo_volume_m3 options)) (ds_volume_m3 state) /\
    ds_cout_ppm committed = float_or (Some (bo_cout_ppm options)) (ds_cout_ppm state) /\
    ds_ach committed = opt_or (upd_ach updates) (ds_ach state) /\
    ds_ach_source committed = str_or (upd_ach_source updates) (ds_ach_source state) /\
    ds_g_person committed = bo_g_person options /\
    ds_last_updated committed = Some (upd_timestamp updates) /\
    ds_smoke committed = upd_smoke_state updates.
Proof.
intros Hne Hall device_id state.
destruct (compute_unfold request None None None None true st)
  as (options & ach_origin & Hres & Hrun).
fold device_id in Hres, Hrun. fold state in Hrun.
destruct (samples_loop_all_valid _ Hall []) as (samples & Hsamples & Hmatch).
cbn [app] in Hsamples. fold (_samples_from_request request) in Hsamples.
assert (Hsne : samples <> []).
{ intros ->. apply Forall2_length in Hmatch. destruct (rq_readings request);
    [congruence | discriminate]. }
destruct (compute_baseline_total device_id samples options (Some state) ach_origin true
            Hsne) as (result & updates & Hbase).
pose proof (compute_baseline_fields _ _ _ _ _ _ _ _ Hbase) as (Hdev & Hvol & Hcout & _ & _).
rewrite Hsamples, Hbase in Hrun.
destruct samples as [|s samples]; [congruence|].
eexists options, ach_origin, (s :: samples), result, updates, _.
split.
{ destruct (resolve_options_store device_id request None None None None st)
    as [resolved Hst].
  rewrite Hst. f_equal. f_equal.
  pose proof (state_for_idempotent device_id st) as Hidem. cbn zeta in Hidem.
  (* the options do not depend on the store beyond the cached state *)
  unfold _resolve_options, mbind, M_bind in Hres, Hst.
  rewrite Hidem in Hres. rewrite state_for_spec in Hst.
  destruct (match rq_ach request with Some a => _ | None => _ end) as [a o].
  unfold mret, M_ret in Hres, Hst. congruence. }
split; [exact Hmatch|]. split; [exact Hbase|].
split.
{ unfold compute_request_payload. rewrite (validate_request_datetime request Hall).
  unfold mbind at 1. unfold M_bind at 1, lift at 1.
  unfold mbind. unfold M_bind at 1. rewrite Hrun.
  unfold M_bind at 1.
  match goal with |- context [record_manual_request request result ?s] =>
    pose proof (record_manual_request_spec request result s Hall) as Hrec
  end.
  cbv zeta in Hrec. rewrite Hdev in Hrec. unfold device_id in Hrec.
  rewrite batch_device_id in Hrec. fold device_id in Hrec. rewrite Hrec.
  unfold mret, M_ret.
  rewrite state_for_spec. fold state.
  unfold commit_updates, set_last_results, set_history, set_device_state.
  cbn [fst snd _MODE _HISTORY _DEVICE_STATE _LAST_RESULTS].
  rewrite !insert_insert_eq. reflexivity. }
cbn [ds_device_id ds_volume_m3 ds_cout_ppm ds_ach ds_ach_source ds_g_person
     ds_last_updated ds_smoke update_context default from_option].
unfold Datatypes.id.
rewrite Hvol, Hcout.
split; [reflexivity|]. split; [reflexivity|]. split; [reflexivity|].
split; [|repeat split].
unfold opt_or. destruct (upd_ach updates) as [a|]; cbn [truthy].
- case_bool_decide; [reflexivity | destruct (ds_ach state); reflexivity].
- destruct (ds_ach state); reflexivity.
Qed.

(** Validation leaves the answer of the batch entry to the validated
    request. *)
Lemma compute_request_payload_validated payload request st :
  validate_request payload = Ok request ->
  compute_request_payload payload st = compute_request_payload request st.
Proof.
intros Hv. pose proof (validate_request_Ok _ _ Hv) as (Hall & _).
unfold compute_request_payload.
rewrite Hv, (validate_request_datetime request Hall). reflexivity.
Qed.

(** A payload with a reading that does not validate is rejected whole,
    before anything is computed or stored. *)
Lemma compute_request_payload_invalid payload bad st :
  bad ∈ rq_readings payload -> validate_datetime (rd_timestamp bad) = None ->
  compute_request_payload payload st = (Raise ValidationError, st).
Proof.
intros Hin Hbad. unfold compute_request_payload, validate_request.
rewrite (validate_readings_invalid _ bad Hin Hbad). reflexivity.
Qed.

(** A batch without readings: the device is entered in the store, and
    the computation raises. *)
Lemma compute_request_payload_empty request st :
  rq_readings request = [] ->
  compute_request_payload request st =
    (Raise (ValueError "No valid readings provided"),
     snd (_state_for (str_or (rq_device_id request) "unknown") st)).
Proof.
intros Hnil. unfold compute_request_payload.
rewrite (validate_request_datetime request) by (rewrite Hnil; constructor).
unfold mbind at 1. unfold M_bind at 1, lift at 1.
destruct (compute_unfold request None None None None true st)
  as (options & ach_origin & _ & Hrun).
unfold _samples_from_request in Hrun. rewrite Hnil in Hrun. cbn [samples_loop] in Hrun.
unfold mbind, M_bind. rewrite Hrun. reflexivity.
Qed.

(** A batch entry that returns a result: what was computed, and the store
    it leaves. *)
Lemma compute_request_payload_Ok payload request st result st' :
  validate_request payload = Ok request ->
  compute_request_payload payload st = (Ok result, st') ->
  let device_id := str_or (rq_device_id request) "unknown" in
  let state := cached_state device_id st in
  exists options ach_origin samples updates committed,
    _resolve_options device_id request None None None None st
      = (Ok (options, ach_origin), snd (_state_for device_id st)) /\
    Forall2 sample_matches (rq_readings request) samples /\
    compute_baseline device_id samples options (Some state) ach_origin true
      = Ok (result, updates) /\
    st' =
      {| _MODE := _MODE st;
         _HISTORY :=
           <[device_id := last_n HISTORY_MAXLEN (rq_readings request)]> (_HISTORY st);
         _DEVICE_STATE := <[device_id := committed]> (_DEVICE_STATE st);
         _LAST_RESULTS := <[device_id := result]> (_LAST_RESULTS st) |} /\
    ds_device_id committed = ds_device_id state /\
    ds_volume_m3 committed = float_or (Some (bo_volume_m3 options)) (ds_volume_m3 state) /\
    ds_cout_ppm committed = float_or (Some (bo_cout_ppm options)) (ds_cout_ppm state) /\
    ds_ach committed = opt_or (upd_ach updates) (ds_ach state) /\
    ds_ach_source committed = str_or (upd_ach_source updates) (ds_ach_source state) /\
    ds_g_person committed = bo_g_person options /\
    ds_last_updated committed = Some (upd_timestamp updates) /\
    ds_smoke committed = upd_smoke_state updates.
Proof.
intros Hv Hrun device_id state.
rewrite (compute_request_payload_validated _ _ _ Hv) in Hrun.
pose proof (validate_request_Ok _ _ Hv) as (Hall & _).
destruct (decide (rq_readings request = [])) as [Hnil | Hne].
{ rewrite (compute_request_payload_empty request st Hnil) in Hrun. discriminate. }
destruct (compute_request_payload_spec request st Hne Hall)
  as (options & ach_origin & samples & result0 & updates & committed &
      Hres & Hmatch & Hbase & Hrun0 & Hfields).
rewrite Hrun0 in Hrun. injection Hrun as <- <-.
exists options, ach_origin, samples, updates, committed.
split; [exact Hres|]. split; [exact Hmatch|]. split; [exact Hbase|].
split; [reflexivity | exact Hfields].
Qed.

(** X17. Whenever the batch entry returns a result for a payload: the
    result names the device of the request (["unknown"] without a device
    id); the device's history buffer is replaced by the validated
    readings of the batch (the last 288 of them), whatever it held
    before; the result is the one [get_last] answers afterwards; the
    mode, and the history, last result and cached context of every other
    device are kept. *)
Theorem batch_replaces_history payload request st result st' :
  validate_request payload = Ok request ->
  compute_request_payload payload st = (Ok result, st') ->
  let device_id := str_or (rq_device_id request) "unknown" in
  res_device_id result = device_id /\
  _HISTORY st' !! device_id = Some (last_n HISTORY_MAXLEN (rq_readings request)) /\
  get_last device_id st' = (Ok (Some result), st') /\
  _MODE st' = _MODE st /\
  forall d, d <> device_id ->
    _HISTORY st' !! d = _HISTORY st !! d /\
    _LAST_RESULTS st' !! d = _LAST_RESULTS st !! d /\
    _DEVICE_STATE st' !! d = _DEVICE_STATE st !! d.
Proof.
intros Hv Hrun device_id.
destruct (compute_request_payload_Ok _ _ _ _ _ Hv Hrun)
  as (options & ach_origin & samples & updates & committed &
      _ & _ & Hbase & -> & _).
fold device_id in Hbase |- *.
pose proof (compute_baseline_fields _ _ _ _ _ _ _ _ Hbase) as (Hdev & _).
split; [exact Hdev|]. cbn [_MODE _HISTORY _DEVICE_STATE _LAST_RESULTS].
split; [apply lookup_insert_eq|].
split; [unfold get_last; cbn [_LAST_RESULTS]; rewrite lookup_insert_eq; reflexivity|].
split; [reflexivity|].
intros d Hd. rewrite !lookup_insert_ne by congruence. repeat split.
Qed.

(** X18. Whenever the batch entry returns a result for a request that
    supplies a volume and an outdoor baseline other than 0: both are
    cached for the device, and a later resolution for the device that is
    given neither resolves to them; the time of the update is the instant
    of one of the readings; the cached air-change rate and its source are
    either kept as they were, whatever rate the request supplied, or they
    are a decay estimate above 0.1. *)
Theorem batch_context_persists payload request V C st result st' :
  validate_request payload = Ok request ->
  compute_request_payload payload st = (Ok result, st') ->
  rq_volume_m3 request = Some V -> V <> 0 ->
  rq_cout_ppm request = Some C -> C <> 0 ->
  let device_id := str_or (rq_device_id request) "unknown" in
  let before := cached_state device_id st in
  let after := cached_state device_id st' in
  ds_volume_m3 after = V /\ ds_cout_ppm after = C /\
  (ds_ach after = ds_ach before /\ ds_ach_source after = ds_ach_source before \/
   exists est,
     0.1 < est /\ ds_ach after = Some est /\ ds_ach_source after = "decay_estimate") /\
  (exists r t,
     r ∈ rq_readings request /\ rd_timestamp r = PyDatetime t /\
     ds_last_updated after = Some t) /\
  forall request',
    rq_volume_m3 request' = None -> rq_cout_ppm request' = None ->
    exists options origin,
      fst (_resolve_options device_id request' None None None None st')
        = Ok (options, origin) /\
      bo_volume_m3 options = V /\ bo_cout_ppm options = C.
Proof.
intros Hv Hrun HV HV0 HC HC0 device_id before after.
destruct (compute_request_payload_Ok _ _ _ _ _ Hv Hrun)
  as (options & ach_origin & samples & updates & committed &
      Hres & Hmatch & Hbase & Hst & _ & Hvol & Hcout & Hach & Hsrc & _ & Hupd & _).
fold device_id in Hres, Hbase, Hst. fold before in Hbase, Hvol, Hcout, Hach, Hsrc.
assert (Hafter : after = committed).
{ unfold after, cached_state. rewrite Hst. cbn [_DEVICE_STATE].
  rewrite lookup_insert_eq. reflexivity. }
assert (Hopts : bo_volume_m3 options = V /\ bo_cout_ppm options = C).
{ unfold _resolve_options, mbind, M_bind in Hres. rewrite state_for_spec in Hres.
  rewrite HV, HC in Hres.
  destruct (match rq_ach request with Some a => _ | None => _ end) as [a o].
  unfold mret, M_ret in Hres. injection Hres as <- _.
  cbn [bo_volume_m3 bo_cout_ppm float_or truthy].
  rewrite !bool_decide_eq_true_2 by assumption. split; reflexivity. }
destruct Hopts as [HoV HoC].
assert (HcV : ds_volume_m3 after = V).
{ rewrite Hafter, Hvol, HoV. cbn [float_or truthy].
  rewrite bool_decide_eq_true_2 by assumption. reflexivity. }
assert (HcC : ds_cout_ppm after = C).
{ rewrite Hafter, Hcout, HoC. cbn [float_or truthy].
  rewrite bool_decide_eq_true_2 by assumption. reflexivity. }
split; [exact HcV|]. split; [exact HcC|].
pose proof (compute_baseline_fields _ _ _ _ _ _ _ _ Hbase)
  as (_ & _ & _ & Hocc & s & Hs & Hts).
split; [|split].
- rewrite Hafter, Hach, Hsrc.
  destruct (occupancy_updates_cases (py_sorted s_timestamp samples) options ach_origin
              true (Some before)) as [Hnone | (est & Hest & Hgt)];
    cbv zeta in *; rewrite <- Hocc in *.
  + injection Hnone as -> ->. left. split; reflexivity.
  + injection Hest as -> ->. right. exists est. split; [exact Hgt|].
    unfold opt_or. cbn [truthy str_or].
    rewrite bool_decide_eq_true_2 by lra. split; reflexivity.
- apply list_elem_of_lookup in Hs as [i Hi].
  destruct (Forall2_lookup_r _ _ _ _ _ Hmatch Hi) as (r & Hr & Hm).
  exists r, (s_timestamp s). split; [eapply list_elem_of_lookup_2; exact Hr|].
  split; [apply Hm|]. rewrite Hafter, Hupd, Hts. reflexivity.
- intros request' HV' HC'.
  unfold _resolve_options, mbind, M_bind. rewrite state_for_spec.
  fold after. rewrite HV', HC', HcV, HcC.
  destruct (match rq_ach request' with Some a => _ | None => _ end) as [a o].
  unfold mret, M_ret. cbn [fst]. eexists _, _. split; [reflexivity|].
  cbn [bo_volume_m3 bo_cout_ppm float_or truthy].
  rewrite !bool_decide_eq_true_2 by assumption. split; reflexivity.
Qed.

(** C8. For every batch. A payload with a reading whose timestamp does
    not validate as a [datetime] is rejected whole with a validation
    error, before anything is computed or stored: the reading is not
    discarded on its own.  In a batch that passed validation every
    reading holds a [datetime], none is unparsable, and every reading
    becomes a sample, in order; such a batch raises
    [ValueError("No valid readings provided")] exactly when it has no
    readings.  [_samples_from_request] itself keeps, in order, the
    readings whose timestamp parses and skips the ones whose timestamp
    raises [ValueError], and [_compute] raises
    [ValueError("No valid readings provided")] exactly when no sample is
    left. *)
Theorem unparsable_readings_discarded :
  forall payload request volume_m3 ach cout_ppm g_per_person update_state st,
    (forall bad,
       bad ∈ rq_readings payload -> validate_datetime (rd_timestamp bad) = None ->
       compute_request_payload payload st = (Raise ValidationError, st)) /\
    (validate_request payload = Ok request ->
       Forall (fun r => ~ unparsable r) (rq_readings request) /\
       (exists samples,
          _samples_from_request request = Ok samples /\
          Forall2 sample_matches (rq_readings request) samples) /\
       (rq_readings request = [] <->
        fst (compute_request_payload payload st)
          = Raise (ValueError "No valid readings provided"))) /\
    (Forall (fun r => unparsable r \/
                      exists t, _parse_timestamp (rd_timestamp r) = Ok t)
            (rq_readings request) ->
       _samples_from_request request
         = Ok (omap parsed_sample (rq_readings request))) /\
    (forall valid,
       _samples_from_request request = Ok valid ->
       (valid = [] <->
        fst (_compute request volume_m3 ach cout_ppm g_per_person update_state st)
          = Raise (ValueError "No valid readings provided"))).
Proof.
intros payload request volume_m3 ach cout_ppm g_per_person update_state st.
split; [|split; [|split]].
- intros bad Hin Hbad. exact (compute_request_payload_invalid payload bad st Hin Hbad).
- intros Hv. pose proof (validate_request_Ok _ _ Hv) as (Hall & _).
  split; [|split].
  + eapply Forall_impl; [exact Hall|]. intros r [t Ht] [msg Hmsg].
    rewrite Ht in Hmsg. discriminate.
  + destruct (samples_loop_all_valid _ Hall []) as (samples & Hrun & Hmatch).
    exists samples. split; [exact Hrun | exact Hmatch].
  + rewrite (compute_request_payload_validated _ _ _ Hv). split.
    * intros Hnil. rewrite (compute_request_payload_empty request st Hnil). reflexivity.
    * intros Hraise. destruct (decide (rq_readings request = [])) as [Hnil | Hne];
        [exact Hnil|].
      destruct (compute_request_payload_spec request st Hne Hall)
        as (? & ? & ? & result & ? & ? & _ & _ & _ & Hrun & _).
      rewrite Hrun in Hraise. discriminate.
- intros Hall. unfold _samples_from_request.
  rewrite (samples_loop_spec _ Hall []). reflexivity.
- intros valid Hvalid.
  destruct (compute_unfold request volume_m3 ach cout_ppm g_per_person update_state st)
    as (options & ach_origin & _ & Hrun).
  rewrite Hrun, Hvalid. split.
  + intros ->. reflexivity.
  + destruct valid as [|sample valid]; [reflexivity|].
    destruct (compute_baseline_total (str_or (rq_device_id request) "unknown")
                (sample :: valid) options
                (Some (cached_state (str_or (rq_device_id request) "unknown") st))
                ach_origin update_state) as (result & updates & ->); [discriminate|].
    discriminate.
Qed.
End BatchFacts.

Section ApiFacts.
Context {cfg : Config} {lib : DatetimeLib} {pyd : Pydantic}.
Local Open Scope R_scope.

(** X19. [POST /baseline/compute] on a request without readings. Without
    a device id the endpoint answers 400 and touches nothing. With a
    device id the orchestrator raises
    [ValueError("No valid readings provided")], which the endpoint does
    not turn into an HTTP error of its own, and the device has been
    entered in the Device State Store by then, with the default context
    if it was not known; history, last results and mode are untouched. *)
Theorem compute_endpoint_without_readings request st :
  rq_readings request = [] ->
  (str_or (rq_device_id request) EmptyString = EmptyString ->
   compute_endpoint request st =
     (Ok (inl {| status_code := 400; detail := "device_id required" |}), st)) /\
  (forall device_id,
     rq_device_id request = Some device_id -> device_id <> EmptyString ->
     exists st',
       compute_endpoint request st =
         (Raise (ValueError "No valid readings provided"), st') /\
       _DEVICE_STATE st' !! device_id = Some (cached_state device_id st) /\
       (forall d, d <> device_id -> _DEVICE_STATE st' !! d = _DEVICE_STATE st !! d) /\
       _HISTORY st' = _HISTORY st /\
       _LAST_RESULTS st' = _LAST_RESULTS st /\
       _MODE st' = _MODE st).
Proof.
intros Hnil. split.
- intros Hdev. unfold compute_endpoint. rewrite Hnil, Hdev.
  rewrite !bool_decide_eq_true_2 by reflexivity. reflexivity.
- intros device_id Hdev Hne. unfold compute_endpoint. rewrite Hnil, Hdev.
  assert (Hid : forall d, str_or (Some device_id) d = device_id).
  { intros d. unfold str_or. case_decide; [contradiction | reflexivity]. }
  rewrite Hid. rewrite (bool_decide_eq_false_2 (device_id = EmptyString)) by exact Hne.
  rewrite andb_false_r.
  unfold mbind, M_bind.
  rewrite (compute_request_payload_empty request st Hnil), Hdev, Hid.
  rewrite state_for_spec. cbn [snd].
  eexists. split; [reflexivity|].
  unfold set_device_state. cbn [_MODE _HISTORY _DEVICE_STATE _LAST_RESULTS].
  split; [apply lookup_insert_eq|].
  split; [intros d Hd; rewrite lookup_insert_ne by congruence; reflexivity|].
  repeat split.
Qed.

(** X20. Whenever [POST /baseline/compute] answers a result,
    [GET /baseline/last] for the device of the request (["unknown"]
    without a device id) answers the same result afterwards; for a device
    without a cached result it answers 404. *)
Theorem compute_endpoint_round_trip request st result st' :
  compute_endpoint request st = (Ok (inr result), st') ->
  get_last_result (str_or (rq_device_id request) "unknown") st'
    = (Ok (inr result), st') /\
  forall d,
    _LAST_RESULTS st' !! d = None ->
    get_last_result d st' =
      (Ok (inl {| status_code := 404; detail := "No cached result for device" |}), st').
Proof.
intros Hrun. split.
- unfold compute_endpoint in Hrun.
  destruct (bool_decide (rq_readings request = []) && _); [discriminate|].
  unfold mbind, M_bind in Hrun.
  destruct (compute_request_payload request st) as [[result0|e] st0] eqn:Hpay;
    [|discriminate].
  unfold mret, M_ret in Hrun. injection Hrun as <- <-.
  destruct (validate_request request) as [validated|e] eqn:Hv.
  + pose proof (validate_request_Ok _ _ Hv) as (_ & _ & Hdev & _).
    destruct (compute_request_payload_Ok _ _ _ _ _ Hv Hpay)
      as (? & ? & ? & ? & ? & _ & _ & _ & -> & _).
    rewrite <- Hdev.
    unfold get_last_result, get_last, mbind, M_bind. cbn [_LAST_RESULTS].
    rewrite lookup_insert_eq. reflexivity.
  + unfold compute_request_payload in Hpay. rewrite Hv in Hpay. discriminate.
- intros d Hd. unfold get_last_result, get_last, mbind, M_bind.
  rewrite Hd. reflexivity.
Qed.
End ApiFacts.

Section BatchExamples.
Local Open Scope R_scope.
Local Existing Instance default_config.
Local Existing Instance strict_lib.
Local Existing Instance strict_pydantic.

(** The scenario batch passes validation as it is. *)
Lemma office_request_validates volume_m3 cout_ppm :
  validate_request (office_request volume_m3 cout_ppm)
    = Ok (office_request volume_m3 cout_ppm).
Proof. reflexivity. Qed.

(** The scenario batch on a fresh process returns a result. *)
Lemma office_batch_returns volume_m3 cout_ppm :
  exists result st',
    compute_request_payload (office_request volume_m3 cout_ppm) initial_store
      = (Ok result, st').
Proof.
destruct (compute_request_payload_spec (office_request volume_m3 cout_ppm) initial_store)
  as (? & ? & ? & result & ? & ? & _ & _ & _ & Hrun & _).
- discriminate.
- apply Forall_singleton. exists 0%Z. reflexivity.
- eexists result, _. exact Hrun.
Qed.

Lemma batch_replaces_history_example :
  exists result st',
    compute_request_payload (office_request None None) initial_store = (Ok result, st') /\
    _HISTORY st' !! "office_iaq" = Some [office_reading (PyDatetime 0%Z)].
Proof.
destruct (office_batch_returns None None) as (result & st' & Hrun).
exists result, st'. split; [exact Hrun|].
destruct (batch_replaces_history (office_request None None) (office_request None None)
            initial_store result st' (office_request_validates _ _) Hrun) as (_ & Hhist & _).
exact Hhist.
Defined.

Lemma batch_context_persists_example :
  exists result st',
    compute_request_payload (office_request (Some 100) (Some 400)) initial_store
      = (Ok result, st') /\
    ds_volume_m3 (cached_state "office_iaq" st') = 100.
Proof.
destruct (office_batch_returns (Some 100) (Some 400)) as (result & st' & Hrun).
exists result, st'. split; [exact Hrun|].
destruct (batch_context_persists (office_request (Some 100) (Some 400))
            (office_request (Some 100) (Some 400)) 100 400
            initial_store result st' (office_request_validates _ _) Hrun
            eq_refl ltac:(lra) eq_refl ltac:(lra))
  as [H _].
exact H.
Defined.

Lemma compute_endpoint_without_readings_example :
  exists st',
    compute_endpoint (with_readings (office_request None None) []) initial_store =
      (Raise (ValueError "No valid readings provided"), st') /\
    _DEVICE_STATE st' !! "office_iaq" = Some (DeviceState_new "office_iaq").
Proof.
destruct (compute_endpoint_without_readings
            (with_readings (office_request None None) []) initial_store) as [_ H].
- reflexivity.
- destruct (H "office_iaq") as (st' & Hrun & Hdev & _); [reflexivity | discriminate |].
  exists st'. split; [exact Hrun | exact Hdev].
Defined.

Lemma compute_endpoint_round_trip_example :
  exists result st',
    compute_endpoint (office_request None None) initial_store = (Ok (inr result), st') /\
    get_last_result "office_iaq" st' = (Ok (inr result), st').
Proof.
destruct (office_batch_returns None None) as (result & st' & Hrun).
assert (Hend : compute_endpoint (office_request None None) initial_store
               = (Ok (inr result), st')).
{ unfold compute_endpoint.
  rewrite (bool_decide_eq_false_2 (rq_readings (office_request None None) = []))
    by discriminate.
  cbn [andb]. unfold mbind, M_bind. rewrite Hrun. reflexivity. }
exists result, st'. split; [exact Hend|].
destruct (compute_endpoint_round_trip (office_request None None) initial_store result st'
            Hend) as [Hlast _].
exact Hlast.
Defined.

(** The scenario batch passes validation, and its one reading becomes a
    sample. *)
Lemma unparsable_readings_discarded_example :
  exists samples,
    _samples_from_request (office_request None None) = Ok samples /\
    length samples = 1%nat.
Proof.
destruct (unparsable_readings_discarded (office_request None None)
            (office_request None None) None None None None true initial_store)
  as (_ & Hvalid & _).
destruct (Hvalid (office_request_validates _ _)) as (_ & (samples & Hrun & Hmatch) & _).
exists samples. split; [exact Hrun|].
symmetry. exact (Forall2_length _ _ _ Hmatch).
Defined.

(** A batch of a reading whose timestamp is the text ["not a timestamp"]
    and the scenario reading: the text does not parse, and the batch is
    not computed on the scenario reading alone, it is rejected whole with
    the store untouched, where the scenario reading alone returns a
    result. *)
Lemma unparsable_reading_rejects_batch :
  let bad := office_reading (PyStr "not a timestamp") in
  let good := office_reading (PyDatetime 0%Z) in
  unparsable bad /\
  compute_request_payload (with_readings (office_request None None) [bad; good])
                          initial_store
    = (Raise ValidationError, initial_store) /\
  exists result st',
    compute_request_payload (with_readings (office_request None None) [good])
                            initial_store
      = (Ok result, st').
Proof.
intros bad good. split; [eexists; reflexivity|]. split.
- apply (compute_request_payload_invalid _ bad); [left | reflexivity].
- exact (office_batch_returns None None).
Qed.
End BatchExamples.

(** ** The tables of the configuration *)

Section EnvFacts.
Context {F : Type} {environ : Environ F}.

Lemma breakpoint_row_length chunk row :
  breakpoint_row chunk = Some row -> length row = 4%nat.
Proof.
unfold breakpoint_row. case_decide; [discriminate|].
case_decide as Hlen; [discriminate|].
intros Hrow. apply length_mapM in Hrow. rewrite <- Hrow.
destruct (decide (length (strip <$> split_on "," (strip chunk)) = 4%nat)); tauto.
Qed.

(** X21. The breakpoint table read from the environment. When the
    default table is not empty and its rows have four entries, so is the
    table [_env_breakpoint_table] returns and so have its rows: chunks
    that are blank, that do not split into four tokens, or that hold a
    token [float] rejects leave no row, and when no row is left, or the
    variable is unset or empty, the default table is returned. *)
Theorem env_breakpoint_table_rows name default :
  default <> [] ->
  Forall (fun row => length row = 4%nat) default ->
  let table := _env_breakpoint_table name default in
  table <> [] /\
  Forall (fun row => length row = 4%nat) table /\
  (table = default \/
   exists raw,
     getenv name = Some raw /\
     table = omap breakpoint_row (split_on ";" (replace_char "|" ";" raw))) /\
  (getenv name = None \/ getenv name = Some EmptyString -> table = default).
Proof.
intros Hne Hall table. unfold table, _env_breakpoint_table.
destruct (getenv name) as [raw|] eqn:Hraw.
- case_decide as Hempty.
  + split; [exact Hne|]. split; [exact Hall|]. split; [left; reflexivity|].
    intros _. reflexivity.
  + destruct (omap breakpoint_row _) as [|row rows] eqn:Hrows.
    * split; [exact Hne|]. split; [exact Hall|]. split; [left; reflexivity|].
      intros _. reflexivity.
    * split; [discriminate|]. split; [|split].
      -- rewrite <- Hrows. apply Forall_forall. intros r Hr.
         apply list_elem_of_omap in Hr as (chunk & _ & Hrow).
         exact (breakpoint_row_length chunk r Hrow).
      -- right. exists raw. split; [reflexivity | symmetry; exact Hrows].
      -- intros [H | H]; [discriminate | congruence].
- split; [exact Hne|]. split; [exact Hall|]. split; [left; reflexivity|].
  intros _. reflexivity.
Qed.
End EnvFacts.

Section EnvExamples.
Local Open Scope R_scope.
Local Existing Instance example_environ.

Lemma env_breakpoint_table_rows_example :
  _env_breakpoint_table "BASELINE_PM25_BREAKPOINTS" [[0; 1; 2; 3]] = [[0; 12; 0; 50]] /\
  Forall (fun row : list R => length row = 4%nat)
    (_env_breakpoint_table "BASELINE_PM25_BREAKPOINTS" [[0; 1; 2; 3]]).
Proof.
split; [reflexivity|].
apply (env_breakpoint_table_rows "BASELINE_PM25_BREAKPOINTS" [[0; 1; 2; 3]]).
- discriminate.
- apply Forall_singleton. reflexivity.
Defined.
End EnvExamples.

(** ** Occupancy at a constant concentration *)

Section SteadyFacts.
Context {cfg : Config}.
Local Open Scope R_scope.

Lemma moving_average_constant c (values : list R) (window : Z) :
  Forall (fun v => v = c) values ->
  length (_moving_average values window) = length values /\
  Forall (fun v => v = c) (_moving_average values window).
Proof.
intros Hall. unfold _moving_average. case_decide as Hw.
- split; [reflexivity | exact Hall].
- split; [apply length_imap|].
  apply Forall_lookup. intros idx avg Hlook.
  rewrite list_lookup_imap in Hlook.
  destruct (values !! idx) as [v|] eqn:Hv; [|discriminate].
  simpl in Hlook. injection Hlook as <-.
  apply lookup_lt_Some in Hv.
  set (start := Z.to_nat (Z.max 0 (Z.of_nat idx - window + 1))).
  assert (Hstart : (start <= idx)%nat) by (unfold start; lia).
  assert (Hb : c <= py_sum (segment_of values start idx)
                    / INR (length (segment_of values start idx)) <= c).
  { apply average_bounds.
    + intros Hnil. apply (f_equal length) in Hnil. unfold segment_of in Hnil.
      rewrite length_take, length_drop in Hnil. simpl in Hnil. lia.
    + unfold segment_of. apply Forall_take, Forall_drop.
      eapply Forall_impl; [exact Hall|]. intros x ->. lra. }
  lra.
Qed.

Lemma from_end_constant c k (xs : list R) :
  Forall (fun v => v = c) xs -> (1 <= k <= length xs)%nat -> from_end k 0 xs = c.
Proof.
intros Hall Hk. unfold from_end.
apply (proj1 (List.Forall_nth (fun v => v = c) xs)); [exact Hall | lia].
Qed.

(** A flat series has no decay to estimate. *)
Lemma regression_slope_flat (x : list R) L slope :
  _regression_slope x (map (fun t => 0 * t + L) x) = Some slope -> slope = 0.
Proof.
unfold _regression_slope. case_decide; [discriminate|].
case_decide as Hd; [discriminate|]. intros [= <-].
rewrite py_sum_affine, py_sum_cross. unfold Rdiv.
replace (INR (length x) * (0 * py_sum (map (fun t => t * t) x) + L * py_sum x)
         - py_sum x * (0 * py_sum x + L * INR (length x))) with 0 by ring.
ring.
Qed.

Lemma estimate_ach_flat times (co2_ppm : list R) c cout_ppm :
  length co2_ppm = length times ->
  Forall (fun v => v = c) co2_ppm ->
  estimate_ach times co2_ppm cout_ppm = None.
Proof.
intros Hlen Hall. rewrite estimate_ach_unfold. case_decide; [reflexivity|].
set (x := map (fun t => total_seconds t (hd 0%Z times)) times).
assert (Hy : map ln (map (fun v => py_max (v - cout_ppm) 1e-6) co2_ppm)
             = map (fun t => 0 * t + ln (py_max (c - cout_ppm) 1e-6)) x).
{ unfold x. clear x.
  match goal with H : ~ (_ < _)%nat |- _ => clear H end.
  generalize (hd 0%Z times). revert times Hlen.
  induction Hall as [|v vs -> _ IH]; intros [|t ts] Hlen t0; try discriminate.
  - reflexivity.
  - cbn [map]. f_equal; [lra|]. apply IH. simpl in Hlen. lia. }
rewrite Hy.
destruct (_regression_slope x _) as [slope|] eqn:Hs; [|reflexivity].
apply regression_slope_flat in Hs. subst slope.
case_decide; [reflexivity | lra].
Qed.


(** X22. A batch whose samples all carry the same CO2 reading, however
    many they are and whatever their timestamps: [compute_occupancy]
    reports the steady-state estimate [max(0, Q * (C - C_out) / g)] with
    [Q = ach * V / 3600], for the resolved rate and with the origin passed
    in, and proposes nothing for the cache, whether or not an estimate of
    the rate is allowed: smoothing leaves the reading as it is, the
    derivative term vanishes, and a flat series gives no decay estimate. *)
Theorem occupancy_constant_co2 samples options ach_origin allow_estimate cached c :
  samples <> [] ->
  Forall (fun s => s_co2 s = Some c) samples ->
  let occ := compute_occupancy samples options ach_origin allow_estimate cached in
  let ach := default DEFAULT_DEVICE_ACH (bo_ach options) in
  let g := py_max (float_or (Some (bo_g_person options)) DEFAULT_G_PERSON) 1e-9 in
  n_estimate (fst occ) =
    py_max 0 (ach * bo_volume_m3 options / 3600
              * (c / 1e6 - bo_cout_ppm options / 1e6) / g) /\
  ach_used (fst occ) = ach /\
  ach_source (fst occ) = ach_origin /\
  snd occ = (None, None).
Proof.
intros Hne Hall occ ach g. unfold occ, compute_occupancy. clear occ.
set (co2_samples := omap _ samples).
assert (Hco2 : co2_samples = map (fun s => (s_timestamp s, c)) samples).
{ unfold co2_samples. clear -Hall.
  induction Hall as [|s samples Hs _ IH]; csimpl; [reflexivity|].
  rewrite Hs. f_equal. exact IH. }
assert (Hlen0 : length co2_samples = length samples)
  by (rewrite Hco2; apply length_map).
case_decide as Hshort; [destruct samples; [congruence | simpl in *; lia]|].
set (sorted := py_sorted fst co2_samples).
assert (Hperm : sorted ≡ₚ co2_samples) by apply py_sorted_Permutation.
assert (Hvals : Forall (fun v => v = c) (map snd sorted)).
{ apply Forall_forall. intros v Hv. apply list_elem_of_fmap in Hv as (p & -> & Hp).
  rewrite Hperm, Hco2 in Hp. apply list_elem_of_fmap in Hp as (s & -> & _). reflexivity. }
assert (Hlen : length (map snd sorted) = length (map fst sorted))
  by (rewrite !length_map; reflexivity).
assert (Hpos : (1 <= length (map snd sorted))%nat).
{ rewrite length_map, Hperm. apply Nat.nlt_ge. exact Hshort. }
destruct (moving_average_constant c (map snd sorted) 3 Hvals) as [Hsl Hsm].
rewrite (estimate_ach_flat _ _ c _ Hlen Hvals).
assert (Hlast : from_end 1 0 (_moving_average (map snd sorted) 3) = c)
  by (apply from_end_constant; [exact Hsm | lia]).
rewrite Hlast.
assert (Hif : forall (b : bool) A (x : A), (if b then x else x) = x)
  by (intros []; reflexivity).
rewrite Hif. cbv beta iota zeta. fold ach g.
assert (Hflat : forall dt, (c / 1e6 - c / 1e6) / dt = 0)
  by (intros dt; unfold Rdiv; ring).
replace 3600.0 with 3600 by lra. replace 0.0 with 0 by lra.
set (steady := ach * bo_volume_m3 options / 3600
               * (c / 1e6 - bo_cout_ppm options / 1e6)).
destruct (decide (2 <= length (_moving_average (map snd sorted) 3))%nat) as [H2|H2].
- rewrite (from_end_constant c 2 _ Hsm) by lia. rewrite Hflat.
  destruct (decide (0 < _)); unfold isfinite; cbn [fst snd n_estimate ach_used ach_source].
  + split; [|repeat split].
    f_equal. f_equal. ring.
  + repeat split.
- repeat split.
Qed.

End SteadyFacts.

Section SteadyExamples.
Local Open Scope R_scope.
Local Existing Instance default_config.
Local Arguments IZR : simpl never.
Local Arguments Z.pow_pos : simpl never.

Lemma occupancy_constant_co2_example :
  n_estimate
    (fst (compute_occupancy [office_sample 0%Z; office_sample 60000000%Z]
            BaselineOptions_new "default" true None)) = 25 / 3.
Proof.
destruct (occupancy_constant_co2 [office_sample 0%Z; office_sample 60000000%Z]
            BaselineOptions_new "default" true None 900) as [H _].
- discriminate.
- apply Forall_cons; split; [reflexivity|]. apply Forall_singleton. reflexivity.
- rewrite H. cbn [BaselineOptions_new bo_ach bo_volume_m3 bo_cout_ppm bo_g_person
                  default from_option].
  unfold float_or, truthy. cbn [default_config DEFAULT_DEVICE_ACH
    DEFAULT_VOLUME_M3 DEFAULT_DEVICE_COUT_PPM DEFAULT_G_PERSON].
  assert (Hg : py_max (if bool_decide (LITERAL_G_PERSON <> 0)
                       then LITERAL_G_PERSON else LITERAL_G_PERSON) 1e-9
               = LITERAL_G_PERSON).
  { unfold py_max, LITERAL_G_PERSON. case_bool_decide; case_decide; lra. }
  rewrite Hg.
  unfold py_max, DEFAULT_ACH, LITERAL_VOLUME_M3, DEFAULT_COUT_PPM, LITERAL_G_PERSON.
  destruct (decide (_ < _)); lra.
Defined.
End SteadyExamples.
